(** * Launch scripts and notebook glue of the NeMo examples

  A shallow embedding of the code this repository owns:

  - the two bash launch scripts (duration prediction and speech
    recognition) that save the working tree, upload it to a remote
    workspace and start a containerised batch job;
  - the checkpoint existence checks of the BioBERT notebooks;
  - the inference post-processing loop of the punctuation and
    capitalization notebook;
  - the source of every code cell of the three notebooks, line by line,
    for what is said of their [raise] statements.

  Shell variables are strings, shell arithmetic is 64-bit signed with
  truncating division, the commands by which a script prints, writes
  files, uploads and submits are recorded in a trace, and Python
  exceptions are values of an error monad. *)

From Stdlib Require Import ZArith Lia Ascii.
From stdpp Require Import base numbers list strings gmap pretty.

Local Open Scope Z_scope.

(** * Part I: the embedding *)

(** ** Strings *)

Module Str.

(** [occurs_in p s]: the text [p] appears somewhere inside [s]. *)
Definition occurs_in (p s : string) : Prop :=
  ∃ pre post, s = pre +:+ p +:+ post.

End Str.

(** ** Shell arithmetic

  Bash evaluates [$(( ... ))] on signed 64-bit integers: results wrap
  around and [/] truncates toward zero. *)

Module ShArith.

Definition wrap64 (z : Z) : Z := (z + 2 ^ 63) `mod` 2 ^ 64 - 2 ^ 63.

Definition in_range (z : Z) : Prop := - 2 ^ 63 ≤ z < 2 ^ 63.

Definition mul (a b : Z) : Z := wrap64 (a * b).
Definition add (a b : Z) : Z := wrap64 (a + b).

(** A zero divisor is an evaluation error in bash; the launch script only
    divides by the nonzero constants [batch_size * NUM_GPU] and [50]
    (lemma [divisors_nonzero] below), so no error branch is threaded
    through the script. *)
Definition div (a b : Z) : Z := wrap64 (a `quot` b).

End ShArith.

(** ** The launch scripts *)

Module Launch.

(** What a script is started with: its positional parameters, the output
    of [basename "$0"], whether [setup.py] is a regular file in the current
    directory, the environment's [WANDB_TOKEN] if it is set, the 13
    characters drawn from [/dev/urandom], and the exit status
    [ngc batch run] will report. *)
Record invocation := {
  argv : list string;
  script_basename : string;
  has_setup_py : bool;
  environ_WANDB_TOKEN : option string;
  num_id : string;
  batch_status : Z
}.

Record batch_job := {
  job_name : string;
  job_image : string;
  job_ace : string;
  job_instance : string;
  job_result : string;
  job_datasetid : list string;
  job_workspace : string;
  job_commandline : string
}.

(** The commands by which a script prints, creates or copies files,
    uploads and submits, in the order it runs them. What only computes a
    value is not in the trace but stands for its result: the pipeline
    [head | tr | head] for [num_id], [basename] for [script_basename], the
    [read] builtin for the text of the here-document. *)
Inductive action :=
| Echo (line : string)
| MkdirP (dir : string)
| Rsync (src dst exclude filter : string)
| NgcWorkspaceUpload (ws source destination : string)
| NgcBatchRun (job : batch_job).

(** What a run did and the status it ended with. Neither script sets
    [errexit]: a failing command does not stop the script, so the trace
    does not depend on the commands' own statuses. *)
Record outcome := { trace : list action; exit_status : Z }.

(** Commands that create, copy, upload or submit something. *)
Definition state_changing (a : action) : bool :=
  match a with
  | Echo _ => false
  | MkdirP _ | Rsync _ _ _ _ | NgcWorkspaceUpload _ _ _ | NgcBatchRun _ => true
  end.

(** [$1]: empty when no positional parameter is given. *)
Definition param1 (i : invocation) : string := nth 0 (argv i) "".

(** [$WANDB_TOKEN]: an unset variable expands to the empty string. *)
Definition WANDB_TOKEN (i : invocation) : string :=
  default "" (environ_WANDB_TOKEN i).

Definition is_empty (s : string) : bool :=
  match s with "" => true | _ => false end.

(** [[[ -z $1 || "$#" -ne 1 ]]] *)
Definition usage_guard (i : invocation) : bool :=
  is_empty (param1 i) || negb (length (argv i) =? 1)%nat.

Definition usage_line (i : invocation) : string :=
  "Usage: ./" +:+ script_basename i +:+ " [experiment name id]".

Definition IMAGE : string := "nvidian/pytorch:19.12-py3".
Definition GPU_MEM : Z := 32.
Definition NUM_GPU : Z := 8.
Definition WS : string := "stan".
Definition WORKSPACE : string := "/ws".
Definition RESULT : string := "/result".

Definition tmp_dir (id : string) : string := "/tmp/nemos/" +:+ id.
Definition upload_destination (id : string) : string := "nemos/" +:+ id.

(** The SAVE STATE block, shared by both scripts. *)
Definition save_state (id : string) : list action :=
  [ Echo "Updating source code...";
    Echo ("Tmp dir: " +:+ tmp_dir id);
    MkdirP (tmp_dir id);
    Rsync "." (tmp_dir id) ".git" ":- .gitignore";
    NgcWorkspaceUpload WS (tmp_dir id) (upload_destination id) ].

Definition instance_name : string :=
  "dgx1v." +:+ pretty GPU_MEM +:+ "g." +:+ pretty NUM_GPU +:+ ".norm".

(** An unquoted here-document whose lines end in backslash-newline: the
    continuation is dropped and the lines are read as one. *)
Definition heredoc (lines : list string) : string :=
  foldr String.app "" lines.

Definition usage_exit (i : invocation) : outcome :=
  {| trace := [Echo (usage_line i)]; exit_status := 1 |}.

Definition error_exit (line : string) : outcome :=
  {| trace := [Echo line]; exit_status := 1 |}.

End Launch.

(** *** Duration prediction (first script) *)

Module Durs.
Import Launch.

Definition OPT : string := "O2".
Definition DATASET_SIZE : Z := 354780.
Definition NUM_EPOCHS : Z := 100.

Definition script : string := "examples/tts/fasterspeech_durs.py".
Definition config : string := "examples/tts/configs/fasterspeech-durs-lj.yaml".

(** [$((GPU_MEM * 6))] *)
Definition batch_size_of (gpu_mem : Z) : Z := ShArith.mul gpu_mem 6.

(** [$((((DATASET_SIZE / (batch_size * NUM_GPU)) + 1) * NUM_EPOCHS))] *)
Definition total_steps_of (dataset_size batch_size num_gpu num_epochs : Z) : Z :=
  ShArith.mul
    (ShArith.add (ShArith.div dataset_size (ShArith.mul batch_size num_gpu)) 1)
    num_epochs.

(** [$((total_steps / 50))] *)
Definition warmup_of (total_steps : Z) : Z := ShArith.div total_steps 50.

Definition batch_size : Z := batch_size_of GPU_MEM.
Definition total_steps : Z :=
  total_steps_of DATASET_SIZE batch_size NUM_GPU NUM_EPOCHS.
Definition warmup : Z := warmup_of total_steps.

(** [id=durs-lj_"${name_id}"_"${num_id}"] *)
Definition durs_id (name_id num_id : string) : string :=
  "durs-lj_" +:+ name_id +:+ "_" +:+ num_id.

Definition durs_cmd_lines (name_id id token : string) : list string :=
  [ "nvidia-smi ";
    "&& apt-get update && apt-get install -y libsndfile1 && pip install -U librosa ";
    "&& cp -R " +:+ WORKSPACE +:+ "/nemos/" +:+ id
      +:+ " /nemo && cd /nemo && pip install .[all] ";
    "&& pip install -U wandb && wandb login " +:+ token +:+ " ";
    "&& python -m torch.distributed.launch --nproc_per_node=" +:+ pretty NUM_GPU
      +:+ " " +:+ script +:+ " ";
    "--amp_opt_level=" +:+ OPT +:+ " ";
    "--model_config=" +:+ config +:+ " ";
    "--batch_size=" +:+ pretty batch_size +:+ " ";
    "--train_freq=10 ";
    "--eval_freq=100 ";
    "--warmup=" +:+ pretty warmup +:+ " ";
    "--num_epochs=" +:+ pretty NUM_EPOCHS +:+ " ";
    "--work_dir=" +:+ RESULT +:+ " ";
    "--wdb_name=" +:+ name_id +:+ " ";
    "--wdb_tags=durs,ljspeech,opt ";
    "--train_dataset=/data/libritts/train.json ";
    "--train_durs=/data/librimeta/durs/libritts_300epochs-qn15x5-eqlen_all-1s_22k/train-all.npy ";
    "--eval_names ";
    "eval ";
    "test ";
    "--eval_datasets ";
    "/data/ljspeech/split3/eval.json ";
    "/data/ljspeech/split3/test.json ";
    "--eval_durs ";
    "/data/librimeta/durs/ljspeech_300epochs-qn15x5-eqlen_all-1s_split3/eval.npy ";
    "/data/librimeta/durs/ljspeech_300epochs-qn15x5-eqlen_all-1s_split3/test.npy" ].

Definition cmd (name_id id token : string) : string :=
  heredoc (durs_cmd_lines name_id id token).

Definition durs_job (name_id id token : string) : batch_job :=
  {| job_name := name_id;
     job_image := IMAGE;
     job_ace := "nv-us-west-2";
     job_instance := instance_name;
     job_result := RESULT;
     job_datasetid :=
       [ "58106:/data/libritts"; "59943:/data/ljspeech"; "59319:/data/librimeta" ];
     job_workspace := WS +:+ ":" +:+ WORKSPACE;
     job_commandline := cmd name_id id token |}.

Definition launch_durs (i : invocation) : outcome :=
  if usage_guard i then usage_exit i
  else if negb (has_setup_py i) then
    error_exit "Script should be ran from project root."
  else if is_empty (WANDB_TOKEN i) then
    error_exit "Please, provide WanDB token."
  else
    let name_id := param1 i in
    let id := durs_id name_id (num_id i) in
    {| trace := save_state id ++ [NgcBatchRun (durs_job name_id id (WANDB_TOKEN i))];
       exit_status := batch_status i |}.

End Durs.

(** *** Speech recognition (second script) *)

Module Quartznet.
Import Launch.

Definition script : string := "examples/asr/quartznet.py".
Definition config : string := "examples/asr/configs/quartznet15x5-libritts-durs.yaml".

(** [id="${name_id}"_"${num_id}"] *)
Definition quartznet_id (name_id num_id : string) : string :=
  name_id +:+ "_" +:+ num_id.

Definition quartznet_cmd_lines (id : string) : list string :=
  [ "nvidia-smi ";
    "&& apt-get update && apt-get install -y libsndfile1 ";
    "&& cp -R " +:+ WORKSPACE +:+ "/nemos/" +:+ id
      +:+ " /nemo && cd /nemo && pip install .[all] ";
    "&& python -m torch.distributed.launch --nproc_per_node=" +:+ pretty NUM_GPU
      +:+ " " +:+ script +:+ " ";
    "--num_epochs=150 ";
    "--eval_batch_size=32 ";
    "--model_config=" +:+ config +:+ " ";
    "--checkpoint_dir=" +:+ RESULT +:+ " ";
    "--checkpoint_save_freq=10000 ";
    "--train_dataset=/manifests/libritts/train-all.json ";
    "--eval_datasets ";
    "/manifests/libritts/dev-clean.json ";
    "/manifests/libritts/dev-other.json ";
    "/manifests/libritts/test-clean.json ";
    "/manifests/libritts/test-other.json" ].

Definition cmd (id : string) : string := heredoc (quartznet_cmd_lines id).

Definition quartznet_job (name_id id : string) : batch_job :=
  {| job_name := name_id;
     job_image := IMAGE;
     job_ace := "nv-us-west-2";
     job_instance := instance_name;
     job_result := RESULT;
     job_datasetid := [ "58106:/data/libritts"; "58404:/manifests/libritts" ];
     job_workspace := WS +:+ ":" +:+ WORKSPACE;
     job_commandline := cmd id |}.

Definition launch_quartznet (i : invocation) : outcome :=
  if usage_guard i then usage_exit i
  else if negb (has_setup_py i) then
    error_exit "Script should be runned from project root."
  else
    let name_id := param1 i in
    let id := quartznet_id name_id (num_id i) in
    {| trace := save_state id ++ [NgcBatchRun (quartznet_job name_id id)];
       exit_status := batch_status i |}.

End Quartznet.

(** The two launch scripts of the repository. *)
Inductive launch_script := DursScript | QuartznetScript.

Definition run_script (s : launch_script) : Launch.invocation → Launch.outcome :=
  match s with
  | DursScript => Durs.launch_durs
  | QuartznetScript => Quartznet.launch_quartznet
  end.

Definition script_run_id (s : launch_script) : string → string → string :=
  match s with
  | DursScript => Durs.durs_id
  | QuartznetScript => Quartznet.quartznet_id
  end.

(** The job a script submits once its guards have passed. *)
Definition script_job (s : launch_script) (i : Launch.invocation) : Launch.batch_job :=
  let name_id := Launch.param1 i in
  match s with
  | DursScript =>
    Durs.durs_job name_id (Durs.durs_id name_id (Launch.num_id i)) (Launch.WANDB_TOKEN i)
  | QuartznetScript =>
    Quartznet.quartznet_job name_id (Quartznet.quartznet_id name_id (Launch.num_id i))
  end.

(** The same invocation with another [WANDB_TOKEN] in the environment, or
    none. *)
Definition with_token (token : option string) (i : Launch.invocation)
  : Launch.invocation :=
  {| Launch.argv := Launch.argv i;
     Launch.script_basename := Launch.script_basename i;
     Launch.has_setup_py := Launch.has_setup_py i;
     Launch.environ_WANDB_TOKEN := token;
     Launch.num_id := Launch.num_id i;
     Launch.batch_status := Launch.batch_status i |}.

(** ** Python values the notebooks use *)

Module Py.

(** The exceptions a notebook cell of this repository can end with.
    [OSError] and [ValueError] come from [raise] statements of the cells;
    [KeyError] and [IndexError] are raised by subscripting. *)
Inductive exn :=
| OSError (errno : Z) (strerror filename : string)
| ValueError (msg : string)
| KeyError (key : string)
| IndexError.

Inductive result (A : Type) :=
| Ok (a : A)
| Raise (e : exn).
Arguments Ok {A} a.
Arguments Raise {A} e.

Definition bind {A B : Type} (r : result A) (k : A → result B) : result B :=
  match r with
  | Ok a => k a
  | Raise e => Raise e
  end.

Notation "x ←! r ; k" := (bind r (λ x, k))
  (at level 20, r at level 100, k at level 200, right associativity,
   format "x  ←!  r ;  '/' k").

(** *** Characters and [str] methods

    Strings of 7-bit characters, on which the methods below act as the
    ASCII tables say. What is stated of every query, and depends on what
    the interpreter takes for white space or for the capitalized form of
    a word, is stated over [Uni] below, where strings are sequences of
    code points and the tables are parameters; on 7-bit text the two
    agree ([decode_query_seven_bit]). *)

Definition code (c : ascii) : N := N_of_ascii c.

(** [str.isspace] on one 7-bit character: TAB, LF, VT, FF, CR, FS, GS,
    RS, US and the space. *)
Definition isspace (c : ascii) : bool :=
  let n := code c in
  ((9 <=? n) && (n <=? 13) || (28 <=? n) && (n <=? 31) || (n =? 32))%N.

Definition isupper (c : ascii) : bool := ((65 <=? code c) && (code c <=? 90))%N.
Definition islower (c : ascii) : bool := ((97 <=? code c) && (code c <=? 122))%N.

Definition upper (c : ascii) : ascii :=
  if islower c then ascii_of_N (code c - 32) else c.
Definition lower (c : ascii) : ascii :=
  if isupper c then ascii_of_N (code c + 32) else c.

Fixpoint str_lower (s : string) : string :=
  match s with
  | "" => ""
  | String c r => String (lower c) (str_lower r)
  end.

(** [str.capitalize] on 7-bit text: the first character upper-cased, all
    the others lower-cased. *)
Definition capitalize (s : string) : string :=
  match s with
  | "" => ""
  | String c r => String (upper c) (str_lower r)
  end.

Fixpoint lstrip (s : string) : string :=
  match s with
  | "" => ""
  | String c r => if isspace c then lstrip r else s
  end.

Fixpoint rstrip (s : string) : string :=
  match s with
  | "" => ""
  | String c r =>
    match rstrip r with
    | "" => if isspace c then "" else String c ""
    | r' => String c r'
    end
  end.

(** [str.strip()] *)
Definition strip (s : string) : string := rstrip (lstrip s).

(** [str.split()] without arguments: the maximal runs of characters that
    are not white space. [word] is the run being read. *)
Fixpoint split_go (word : string) (s : string) : list string :=
  match s with
  | "" => if String.eqb word "" then [] else [word]
  | String c r =>
    if isspace c then
      if String.eqb word "" then split_go "" r else word :: split_go "" r
    else split_go (word +:+ String c "") r
  end.
Definition split (s : string) : list string := split_go "" s.

Definition contains_char (c : ascii) (s : string) : bool :=
  existsb (Ascii.eqb c) (String.list_ascii_of_string s).

Definition squote : ascii := "'"%char.
Definition dquote : ascii := ascii_of_N 34.
Definition backslash : ascii := ascii_of_N 92.

Definition hex_digit (n : N) : ascii :=
  ascii_of_N (if (n <? 10)%N then 48 + n else 87 + n).

(** One character of [repr(str)] inside quotes [q]. *)
Definition repr_char (q c : ascii) : string :=
  let n := code c in
  if Ascii.eqb c q || Ascii.eqb c backslash then String backslash (String c "")
  else if (n =? 9)%N then String backslash "t"
  else if (n =? 10)%N then String backslash "n"
  else if (n =? 13)%N then String backslash "r"
  else if ((n <? 32) || (127 <=? n))%N then
    String backslash
      (String "x" (String (hex_digit (n / 16)) (String (hex_digit (n mod 16)) "")))
  else String c "".

Fixpoint repr_body (q : ascii) (s : string) : string :=
  match s with
  | "" => ""
  | String c r => repr_char q c +:+ repr_body q r
  end.

(** [repr] of a [str]: single quotes, unless the text has a single quote
    and no double quote. *)
Definition repr (s : string) : string :=
  let q := if contains_char squote s && negb (contains_char dquote s)
           then dquote else squote in
  String q (repr_body q s +:+ String q "").

(** Printable characters that [repr] copies as they are inside single
    quotes, and the strings made of them. *)
Definition plain_char (c : ascii) : bool :=
  ((32 <=? code c) && (code c <? 127))%N
  && negb (Ascii.eqb c squote) && negb (Ascii.eqb c backslash).

Fixpoint plain (s : string) : bool :=
  match s with
  | "" => true
  | String c r => plain_char c && plain r
  end.

Definition ENOENT : Z := 2.

(** [os.strerror] as the C library words it. *)
Definition strerror (errno : Z) : string :=
  if errno =? ENOENT then "No such file or directory"
  else "Unknown error " +:+ pretty errno.

(** [str(e)], the message of an exception. *)
Definition exn_message (e : exn) : string :=
  match e with
  | OSError errno msg filename =>
    "[Errno " +:+ pretty errno +:+ "] " +:+ msg +:+ ": " +:+ repr filename
  | ValueError msg => msg
  | KeyError key => key
  | IndexError => "index out of range"
  end.

Definition startswith (c : ascii) (s : string) : bool :=
  match s with
  | String c' _ => Ascii.eqb c c'
  | "" => false
  end.

Fixpoint endswith (c : ascii) (s : string) : bool :=
  match s with
  | "" => false
  | String c' "" => Ascii.eqb c c'
  | String _ r => endswith c r
  end.

(** [os.path.join(a, b)] on POSIX. *)
Definition path_join (a b : string) : string :=
  if startswith "/" b then b
  else if String.eqb a "" || endswith "/" a then a +:+ b
  else a +:+ "/" +:+ b.

(** Subscripting a list or array with a non-negative index. *)
Definition index {A : Type} (l : list A) (i : nat) : result A :=
  match l !! i with
  | Some x => Ok x
  | None => Raise IndexError
  end.

(** Subscripting a dict with string keys. *)
Definition getitem_str {V : Type} (d : gmap string V) (k : string) : result V :=
  match d !! k with
  | Some v => Ok v
  | None => Raise (KeyError (repr k))
  end.

(** Subscripting a dict with integer keys. *)
Definition getitem_int {V : Type} (d : gmap Z V) (k : Z) : result V :=
  match d !! k with
  | Some v => Ok v
  | None => Raise (KeyError (pretty k))
  end.

(** [a[mask]] for a one-dimensional array and a boolean array: the entries
    of [a] where [mask] holds; the two must have the same length. *)
Fixpoint select {A : Type} (a : list A) (mask : list bool) : list A :=
  match a, mask with
  | x :: a', b :: mask' => if b then x :: select a' mask' else select a' mask'
  | _, _ => []
  end.

Definition bool_index {A : Type} (a : list A) (mask : list bool) : result (list A) :=
  if (length a =? length mask)%nat then Ok (select a mask) else Raise IndexError.

End Py.

(** ** The BioBERT notebooks: checkpoint checks *)

Module Checkpoint.
Import Py.

(** The check every notebook repeats:
    [if not os.path.exists(P): raise OSError(errno.ENOENT, os.strerror(errno.ENOENT), P)].
    [exists_] is [os.path.exists] on the file system the notebook runs on. *)
Definition require_file (exists_ : string → bool) (path : string) : result () :=
  if negb (exists_ path)
  then Raise (OSError ENOENT (strerror ENOENT) path)
  else Ok ().

End Checkpoint.

(** Relation extraction notebook: encoder weights and model configuration. *)
Module BiobertRE.
Import Py Checkpoint.

Definition base_checkpoint_path : gmap string string :=
  {[ "biobert" := "./checkpoints/biobert/";
     "biomegatron" := "./checkpoints/biomegatron/" ]}.

Record checkpoints := {
  CHECKPOINT_ENCODER : string;
  CHECKPOINT_CONFIG : string
}.

Definition re_checkpoint_cell (exists_ : string → bool) (model_type : string)
  : result checkpoints :=
  base ←! getitem_str base_checkpoint_path model_type;
  let encoder := path_join base "BERT.pt" in
  base ←! getitem_str base_checkpoint_path model_type;
  let config := path_join base "bert_config.json" in
  _ ←! require_file exists_ encoder;
  _ ←! require_file exists_ config;
  Ok {| CHECKPOINT_ENCODER := encoder; CHECKPOINT_CONFIG := config |}.

End BiobertRE.

(** Question answering notebook: encoder weights, head weights and model
    configuration. *)
Module BiobertQA.
Import Py Checkpoint.

Definition base_checkpoint_path : gmap string string :=
  {[ "biobert" := "./checkpoints/biobert/qa_squad";
     "biomegatron" := "./checkpoints/biomegatron/qa_squad" ]}.

Record checkpoints := {
  CHECKPOINT_ENCODER : string;
  CHECKPOINT_HEAD : string;
  CHECKPOINT_CONFIG : string
}.

Definition qa_checkpoint_cell (exists_ : string → bool) (model_type : string)
  : result checkpoints :=
  base ←! getitem_str base_checkpoint_path model_type;
  let encoder := path_join base "BERT.pt" in
  base ←! getitem_str base_checkpoint_path model_type;
  let head := path_join base "TokenClassifier.pt" in
  base ←! getitem_str base_checkpoint_path model_type;
  let config := path_join base "bert_config.json" in
  _ ←! require_file exists_ encoder;
  _ ←! require_file exists_ head;
  _ ←! require_file exists_ config;
  Ok {| CHECKPOINT_ENCODER := encoder;
        CHECKPOINT_HEAD := head;
        CHECKPOINT_CONFIG := config |}.

End BiobertQA.

(** ** The punctuation and capitalization notebook: inference decoding *)

Module Punctuation.
Import Py.

(** [{label_ids[k]: k for k in label_ids}]: the dict is walked in insertion
    order and a later label overwrites an earlier one with the same id. *)
Definition ids_to_labels (label_ids : list (string * Z)) : gmap Z string :=
  foldl (λ m kv, <[kv.2 := kv.1]> m) ∅ label_ids.

(** What the decoding cell reads: the label maps of the training data
    layer, the queries, and per query the arg-max class ids of the two
    classifiers and the outcome of [subtokens_mask[i] > 0.5]. *)
Record inference := {
  punct_label_ids : list (string * Z);
  capit_label_ids : list (string * Z);
  queries : list string;
  punct_preds : list (list Z);
  capit_preds : list (list Z);
  subtokens_mask : list (list bool)
}.

Definition length_error : exn :=
  ValueError "Pred and words must be of the same length".

(** The body of [for j, w in enumerate(words)], from index [j] on. *)
Fixpoint decode_words (punct_labels capit_labels : gmap Z string)
    (punct_pred capit_pred : list Z) (j : nat) (words : list string)
    (output : string) : result string :=
  match words with
  | [] => Ok output
  | w :: words' =>
    p ←! index punct_pred j;
    punct_label ←! getitem_int punct_labels p;
    c ←! index capit_pred j;
    capit_label ←! getitem_int capit_labels c;
    let w := if negb (String.eqb capit_label "O") then capitalize w else w in
    let output := output +:+ w in
    let output :=
      if negb (String.eqb punct_label "O") then output +:+ punct_label
      else output in
    let output := output +:+ " " in
    decode_words punct_labels capit_labels punct_pred capit_pred (S j) words' output
  end.

(** The body of [for i, query in enumerate(queries)] after its first
    [print]: the text printed after [Combined: ]. *)
Definition decode_query (inf : inference) (i : nat) (query : string)
  : result string :=
  row ←! index (punct_preds inf) i;
  mask ←! index (subtokens_mask inf) i;
  punct_pred ←! bool_index row mask;
  row ←! index (capit_preds inf) i;
  mask ←! index (subtokens_mask inf) i;
  capit_pred ←! bool_index row mask;
  let words := split (strip query) in
  if negb (length punct_pred =? length words)%nat
     || negb (length capit_pred =? length words)%nat
  then Raise length_error
  else
    output ←! decode_words (ids_to_labels (punct_label_ids inf))
                (ids_to_labels (capit_label_ids inf))
                punct_pred capit_pred 0 words "";
    Ok (strip output).

Definition newline : string := String (ascii_of_N 10) "".

(** The whole loop: what was printed, and how the cell ended. *)
Fixpoint decode_loop (inf : inference) (i : nat) (qs : list string)
    (stdout : list string) : list string * result () :=
  match qs with
  | [] => (stdout, Ok ())
  | query :: qs' =>
    let stdout := stdout ++ ["Query: " +:+ query] in
    match decode_query inf i query with
    | Raise e => (stdout, Raise e)
    | Ok combined =>
      decode_loop inf (S i) qs'
        (stdout ++ ["Combined: " +:+ combined +:+ newline])
    end
  end.

Definition decode_cell (inf : inference) : list string * result () :=
  decode_loop inf 0 (queries inf) [].

(** The masked predictions of query [i], as the loop body computes them. *)
Definition masked (preds : list (list Z)) (mask : list (list bool)) (i : nat)
  : result (list Z) :=
  row ←! index preds i;
  m ←! index mask i;
  bool_index row m.

(** *** The decoding as the specification words it

    Each word, capitalized when its capitalization label is not [O],
    followed by its punctuation label when that is not [O]; the words
    joined by single spaces; the result stripped. [cap] is the reading of
    "capitalized". *)
Definition render_word (cap : string → string) (w punct_label capit_label : string)
  : string :=
  (if negb (String.eqb capit_label "O") then cap w else w)
  +:+ (if negb (String.eqb punct_label "O") then punct_label else "").

Fixpoint render_words (cap : string → string)
    (words punct_labels capit_labels : list string) : list string :=
  match words, punct_labels, capit_labels with
  | w :: ws, p :: ps, c :: cs => render_word cap w p c :: render_words cap ws ps cs
  | _, _, _ => []
  end.

Definition combined_spec (cap : string → string)
    (words punct_labels capit_labels : list string) : string :=
  strip (String.concat " " (render_words cap words punct_labels capit_labels)).

(** No upper-case letter after the first character. *)
Fixpoint all_lower (s : string) : bool :=
  match s with
  | "" => true
  | String c r => negb (isupper c) && all_lower r
  end.

Definition lower_tail (s : string) : bool :=
  match s with
  | "" => true
  | String _ r => all_lower r
  end.

(** "First letter uppercased", the other letters as they were. *)
Definition upper_first (s : string) : string :=
  match s with
  | "" => ""
  | String c r => String (upper c) r
  end.

End Punctuation.

(** ** The checkpoint cells of the two BioBERT notebooks *)

Inductive checkpoint_notebook := RelationExtraction | QuestionAnswering.

Definition checkpoint_base (nb : checkpoint_notebook) : gmap string string :=
  match nb with
  | RelationExtraction => BiobertRE.base_checkpoint_path
  | QuestionAnswering => BiobertQA.base_checkpoint_path
  end.

(** The files a notebook checks, in the order it checks them. *)
Definition checked_paths (nb : checkpoint_notebook) (base : string) : list string :=
  match nb with
  | RelationExtraction =>
    [ Py.path_join base "BERT.pt"; Py.path_join base "bert_config.json" ]
  | QuestionAnswering =>
    [ Py.path_join base "BERT.pt"; Py.path_join base "TokenClassifier.pt";
      Py.path_join base "bert_config.json" ]
  end.

Definition checkpoint_cell (nb : checkpoint_notebook)
    (exists_ : string → bool) (model_type : string) : Py.result () :=
  match nb with
  | RelationExtraction =>
    Py.bind (BiobertRE.re_checkpoint_cell exists_ model_type) (λ _, Py.Ok ())
  | QuestionAnswering =>
    Py.bind (BiobertQA.qa_checkpoint_cell exists_ model_type) (λ _, Py.Ok ())
  end.

(** The classes of exception that the [raise] statements of the
    notebooks construct, as opposed to those of a failed subscript. Where
    an exception comes from is recorded by [Uni.origin] below. *)
Definition raised_by_statement (e : Py.exn) : bool :=
  match e with
  | Py.OSError _ _ _ | Py.ValueError _ => true
  | Py.KeyError _ | Py.IndexError => false
  end.

Definition is_file_not_found (e : Py.exn) : bool :=
  match e with
  | Py.OSError errno _ _ => errno =? Py.ENOENT
  | _ => false
  end.

(** ** Sample inputs *)

Module Sample.
Import Launch.

(** One experiment name, run from the project root, token set. *)
Definition good : invocation :=
  {| argv := ["exp1"]; script_basename := "launch.sh"; has_setup_py := true;
     environ_WANDB_TOKEN := Some "0123abcd"; num_id := "aB3dE6gH9jK2m"; batch_status := 0 |}.

(** The same with [WANDB_TOKEN] unset. *)
Definition no_token : invocation := with_token None good.

Definition no_args : invocation :=
  {| argv := []; script_basename := "launch.sh"; has_setup_py := true;
     environ_WANDB_TOKEN := Some "0123abcd"; num_id := "aB3dE6gH9jK2m"; batch_status := 0 |}.

Definition empty_name : invocation :=
  {| argv := [""]; script_basename := "launch.sh"; has_setup_py := true;
     environ_WANDB_TOKEN := Some "0123abcd"; num_id := "aB3dE6gH9jK2m"; batch_status := 0 |}.

End Sample.

Module SampleInference.
Import Punctuation.

Definition punct_ids : list (string * Z) := [("O", 0); (",", 1); (".", 2); ("?", 3)].
Definition capit_ids : list (string * Z) := [("O", 0); ("U", 1)].

(** Two of the notebook's queries with the predictions that give the
    output its documentation shows; the first and last positions of a row
    are the special tokens the mask hides. *)
Definition helpful : inference :=
  {| punct_label_ids := punct_ids;
     capit_label_ids := capit_ids;
     queries := ["can i help you"; "yes please"];
     punct_preds := [[0; 0; 0; 0; 3; 0]; [0; 1; 2; 0]];
     capit_preds := [[0; 1; 1; 0; 0; 0]; [0; 1; 0; 0]];
     subtokens_mask := [[false; true; true; true; true; false];
                        [false; true; true; false]] |}.

(** A query with a word in mixed case that is predicted to be
    capitalized. *)
Definition mixed_case : inference :=
  {| punct_label_ids := punct_ids;
     capit_label_ids := capit_ids;
     queries := ["the iPhone"];
     punct_preds := [[0; 0; 2; 0]];
     capit_preds := [[0; 1; 1; 0]];
     subtokens_mask := [[false; true; true; false]] |}.

End SampleInference.

Module SampleFs.

(** A file system with every checkpoint file but the QA head weights. *)
Definition no_head (path : string) : bool :=
  negb (String.eqb path "./checkpoints/biobert/qa_squad/TokenClassifier.pt").

End SampleFs.

(** ** Further code of the scripts and notebooks *)

Module RunId.
Import Py.

Definition isdigit (c : ascii) : bool := ((48 <=? code c) && (code c <=? 57))%N.

(** The set [A-Za-z0-9] of [tr]. *)
Definition alnum (c : ascii) : bool := isupper c || islower c || isdigit c.

Fixpoint str_filter (keep : ascii → bool) (s : string) : string :=
  match s with
  | "" => ""
  | String c r => if keep c then String c (str_filter keep r) else str_filter keep r
  end.

Fixpoint str_take (n : nat) (s : string) : string :=
  match n, s with
  | S n', String c r => String c (str_take n' r)
  | _, _ => ""
  end.

Fixpoint str_forallb (P : ascii → bool) (s : string) : bool :=
  match s with
  | "" => true
  | String c r => P c && str_forallb P r
  end.

(** [$(head /dev/urandom | tr -dc A-Za-z0-9 | head -c 13)], where [random]
    is what [head] has read from [/dev/urandom]: [tr] deletes every
    character outside the set and [head -c 13] keeps the first 13. *)
Definition draw_num_id (random : string) : string :=
  str_take 13 (str_filter alnum random).

Definition not_newline (c : ascii) : bool := negb (code c =? 10)%N.

End RunId.

(** The conditions under which a script gets past its guards: one
    non-empty experiment name, [setup.py] in the current directory, and
    for the duration prediction script a non-empty token. *)
Definition guards_pass (s : launch_script) (i : Launch.invocation) : Prop :=
  (∃ name_id, Launch.argv i = [name_id] ∧ name_id ≠ "")
  ∧ Launch.has_setup_py i = true
  ∧ (s = DursScript →
     ∃ token, Launch.environ_WANDB_TOKEN i = Some token ∧ token ≠ "").

(** The step counts of the two BioBERT notebooks. Python integers do not
    wrap and [//] is the floor division. *)
Module Schedule.

Definition batch_size (nb : checkpoint_notebook) : Z :=
  match nb with
  | RelationExtraction => 32
  | QuestionAnswering => 12
  end.

Definition num_epochs (nb : checkpoint_notebook) : Z :=
  match nb with
  | RelationExtraction => 3
  | QuestionAnswering => 5
  end.

(** [train_steps_per_epoch = len(train_data_layer) // batch_size] *)
Definition train_steps_per_epoch (nb : checkpoint_notebook) (train_len : Z) : Z :=
  train_len `div` batch_size nb.

(** [total_steps=num_epochs * train_steps_per_epoch] *)
Definition total_steps (nb : checkpoint_notebook) (train_len : Z) : Z :=
  num_epochs nb * train_steps_per_epoch nb train_len.

End Schedule.

Module Transcript.
Import Py Punctuation.

(** The two lines the decoding loop prints for a query and its combined
    text. *)
Definition lines (query combined : string) : list string :=
  [ "Query: " +:+ query; "Combined: " +:+ combined +:+ newline ].

Fixpoint transcript (qs combined : list string) : list string :=
  match qs, combined with
  | q :: qs', c :: combined' => lines q c ++ transcript qs' combined'
  | _, _ => []
  end.

(** The number of positions a boolean mask selects. *)
Fixpoint count_true (mask : list bool) : nat :=
  match mask with
  | [] => 0
  | b :: mask' => (if b then 1 else 0) + count_true mask'
  end.

Definition labelled (labels : gmap Z string) (id : Z) : bool :=
  bool_decide (is_Some (labels !! id)).

End Transcript.

Module SampleFs2.

(** As [SampleFs.no_head], and without a file the notebooks do not look
    at. *)
Definition no_head_no_notes (path : string) : bool :=
  SampleFs.no_head path && negb (String.eqb path "./notes.txt").

End SampleFs2.

Module SampleInference2.
Import Punctuation.

(** The first query decodes; the second has four words and three
    unmasked predictions. *)
Definition second_fails : inference :=
  {| punct_label_ids := SampleInference.punct_ids;
     capit_label_ids := SampleInference.capit_ids;
     queries := ["yes please"; "can i help you"];
     punct_preds := [[0; 1; 2; 0]; [0; 0; 0; 3; 0]];
     capit_preds := [[0; 1; 0; 0]; [0; 1; 1; 0; 0]];
     subtokens_mask := [[false; true; true; false];
                        [false; true; true; true; false]] |}.

End SampleInference2.

Module SampleRandom.

(** Bytes as [/dev/urandom] may give them: letters and digits among
    others. *)
Definition bytes : string := "k3#Z_q9-+Lm=2x!7Rt/e5Wb0@Yc1".

End SampleRandom.

(** ** The command line as the container's shell reads it

    The submitted command is an and-list of simple commands. Where it has
    no quotes, escapes or expansions, the shell splits it into words at
    blanks and into commands at [&&]. *)

Module Sh.
Import Py.

Definition blank (c : ascii) : bool :=
  ((code c =? 32) || (code c =? 9) || (code c =? 10))%N.

(** The words read from [s], and the word still being read at its end;
    [word] is the word being read at its start. *)
Fixpoint scan (word : string) (s : string) : list string * string :=
  match s with
  | "" => ([], word)
  | String c r =>
    if blank c then
      let '(ws, w) := scan "" r in
      (if String.eqb word "" then ws else word :: ws, w)
    else scan (word +:+ String c "") r
  end.

Definition words (line : string) : list string :=
  let '(ws, w) := scan "" line in
  ws ++ (if String.eqb w "" then [] else [w]).

(** The words of a command up to the next [&&]. *)
Fixpoint until_and (ws : list string) : list string :=
  match ws with
  | [] => []
  | w :: ws' => if String.eqb w "&&" then [] else w :: until_and ws'
  end.

(** The arguments of the first command of the and-list that is [cp];
    [at_start] says that the next word begins a command. *)
Fixpoint cp_arguments (at_start : bool) (ws : list string) : option (list string) :=
  match ws with
  | [] => None
  | w :: ws' =>
    if at_start && String.eqb w "cp" then Some (until_and ws')
    else cp_arguments (String.eqb w "&&") ws'
  end.

Definition is_option (w : string) : bool := startswith "-" w.

(** What [cp] copies from: its operands but the last, which is where it
    copies to. *)
Definition cp_sources (line : string) : list string :=
  match cp_arguments true (words line) with
  | Some args => removelast (filter (λ w, negb (is_option w)) args)
  | None => []
  end.

(** Characters that the shell takes as they are, wherever they stand:
    letters, digits, [_], [-] and [.]. *)
Definition plain_char (c : ascii) : bool :=
  RunId.alnum c || Ascii.eqb c "_" || Ascii.eqb c "-" || Ascii.eqb c ".".

Definition plain (s : string) : bool := RunId.str_forallb plain_char s.

End Sh.

Module SampleBlank.
Import Launch.

(** An experiment name of two words. *)
Definition two_words : invocation :=
  {| argv := ["a b"]; script_basename := "launch.sh"; has_setup_py := true;
     environ_WANDB_TOKEN := Some "0123abcd"; num_id := "aB3dE6gH9jK2m";
     batch_status := 0 |}.

End SampleBlank.

(** ** The decoding loop over Python strings

    A Python [str] is a sequence of Unicode code points. What
    [str.isspace] holds of and what [str.capitalize] returns are tables of
    the interpreter; they are parameters here, so that what is proved
    holds for every string and every version of the tables. Exceptions
    carry where they come from. *)

Module Uni.
Import Py.

Definition ustr : Type := list N.

(** A literal of the source, which has ASCII characters only. *)
Definition lit (s : string) : ustr := N_of_ascii <$> String.list_ascii_of_string s.

(** Where an exception comes from: a [raise] statement of the notebook, a
    subscript that the interpreter or numpy evaluates, or a statement
    whose outcome is that of the libraries it calls. *)
Inductive origin := RaiseStatement | Subscript | Library.

Inductive oresult (A : Type) :=
| Done (a : A)
| Raised (by_ : origin) (e : exn).
Arguments Done {A} a.
Arguments Raised {A} by_ e.

Definition obind {A B : Type} (r : oresult A) (k : A → oresult B) : oresult B :=
  match r with
  | Done a => k a
  | Raised o e => Raised o e
  end.

Notation "x ←? r ; k" := (obind r (λ x, k))
  (at level 20, r at level 100, k at level 200, right associativity,
   format "x  ←?  r ;  '/' k").

(** The same outcome without its origin. *)
Definition forget {A : Type} (r : oresult A) : result A :=
  match r with
  | Done a => Ok a
  | Raised _ e => Raise e
  end.

Definition u_index {A : Type} (l : list A) (i : nat) : oresult A :=
  match l !! i with
  | Some x => Done x
  | None => Raised Subscript IndexError
  end.

Definition u_getitem_int {V : Type} (d : gmap Z V) (k : Z) : oresult V :=
  match d !! k with
  | Some v => Done v
  | None => Raised Subscript (KeyError (pretty k))
  end.

Definition u_getitem_str {V : Type} (d : gmap string V) (k : string) : oresult V :=
  match d !! k with
  | Some v => Done v
  | None => Raised Subscript (KeyError (repr k))
  end.

Definition u_bool_index {A : Type} (a : list A) (mask : list bool) : oresult (list A) :=
  if (length a =? length mask)%nat then Done (select a mask)
  else Raised Subscript IndexError.

(** [{label_ids[k]: k for k in label_ids}] *)
Definition u_ids_to_labels (label_ids : list (ustr * Z)) : gmap Z ustr :=
  foldl (λ m kv, <[kv.2 := kv.1]> m) ∅ label_ids.

(** What the decoding cell reads, as [Punctuation.inference] has it,
    with the labels and the queries as code points. *)
Record u_inference := {
  u_punct_label_ids : list (ustr * Z);
  u_capit_label_ids : list (ustr * Z);
  u_queries : list ustr;
  u_punct_preds : list (list Z);
  u_capit_preds : list (list Z);
  u_subtokens_mask : list (list bool)
}.

(** [str.join] *)
Fixpoint u_join (sep : ustr) (parts : list ustr) : ustr :=
  match parts with
  | [] => []
  | [x] => x
  | x :: rest => x ++ sep ++ u_join sep rest
  end.

Definition space : ustr := lit " ".
Definition other : ustr := lit "O".

(** The masked predictions of query [i]. *)
Definition u_masked (preds : list (list Z)) (mask : list (list bool)) (i : nat)
  : oresult (list Z) :=
  row ←? u_index preds i;
  m ←? u_index mask i;
  u_bool_index row m.

Section Tables.
Variable isspace : N → bool.
Variable capitalize : ustr → ustr.

Fixpoint u_lstrip (s : ustr) : ustr :=
  match s with
  | [] => []
  | c :: r => if isspace c then u_lstrip r else s
  end.

Fixpoint u_rstrip (s : ustr) : ustr :=
  match s with
  | [] => []
  | c :: r =>
    match u_rstrip r with
    | [] => if isspace c then [] else [c]
    | r' => c :: r'
    end
  end.

(** [str.strip()] *)
Definition u_strip (s : ustr) : ustr := u_rstrip (u_lstrip s).

(** [str.split()]: the maximal runs of characters that are not white
    space; [word] is the run being read. *)
Fixpoint u_split_go (word : ustr) (s : ustr) : list ustr :=
  match s with
  | [] => match word with [] => [] | _ => [word] end
  | c :: r =>
    if isspace c then
      match word with
      | [] => u_split_go [] r
      | _ => word :: u_split_go [] r
      end
    else u_split_go (word ++ [c]) r
  end.
Definition u_split (s : ustr) : list ustr := u_split_go [] s.

(** The body of [for j, w in enumerate(words)], from index [j] on. *)
Fixpoint u_decode_words (punct_labels capit_labels : gmap Z ustr)
    (punct_pred capit_pred : list Z) (j : nat) (words : list ustr)
    (output : ustr) : oresult ustr :=
  match words with
  | [] => Done output
  | w :: words' =>
    p ←? u_index punct_pred j;
    punct_label ←? u_getitem_int punct_labels p;
    c ←? u_index capit_pred j;
    capit_label ←? u_getitem_int capit_labels c;
    let w := if negb (bool_decide (capit_label = other)) then capitalize w else w in
    let output := output ++ w in
    let output :=
      if negb (bool_decide (punct_label = other)) then output ++ punct_label
      else output in
    let output := output ++ space in
    u_decode_words punct_labels capit_labels punct_pred capit_pred (S j) words' output
  end.

(** The body of [for i, query in enumerate(queries)] after its first
    [print]: the text printed after [Combined: ]. *)
Definition u_decode_query (inf : u_inference) (i : nat) (query : ustr)
  : oresult ustr :=
  row ←? u_index (u_punct_preds inf) i;
  mask ←? u_index (u_subtokens_mask inf) i;
  punct_pred ←? u_bool_index row mask;
  row ←? u_index (u_capit_preds inf) i;
  mask ←? u_index (u_subtokens_mask inf) i;
  capit_pred ←? u_bool_index row mask;
  let words := u_split (u_strip query) in
  if negb (length punct_pred =? length words)%nat
     || negb (length capit_pred =? length words)%nat
  then Raised RaiseStatement Punctuation.length_error
  else
    output ←? u_decode_words (u_ids_to_labels (u_punct_label_ids inf))
                (u_ids_to_labels (u_capit_label_ids inf))
                punct_pred capit_pred 0 words [];
    Done (u_strip output).

(** The whole loop: what was printed, and how it ended. *)
Fixpoint u_decode_loop (inf : u_inference) (i : nat) (qs : list ustr)
    (stdout : list ustr) : list ustr * oresult () :=
  match qs with
  | [] => (stdout, Done ())
  | query :: qs' =>
    let stdout := stdout ++ [lit "Query: " ++ query] in
    match u_decode_query inf i query with
    | Raised o e => (stdout, Raised o e)
    | Done combined =>
      u_decode_loop inf (S i) qs'
        (stdout ++ [lit "Combined: " ++ combined ++ [10%N]])
    end
  end.

Definition u_decode_cell (inf : u_inference) : list ustr * oresult () :=
  u_decode_loop inf 0 (u_queries inf) [].

(** *** The decoding as the specification words it *)

Definition u_render_word (w punct_label capit_label : ustr) : ustr :=
  (if negb (bool_decide (capit_label = other)) then capitalize w else w)
  ++ (if negb (bool_decide (punct_label = other)) then punct_label else []).

Fixpoint u_render_words (words punct_labels capit_labels : list ustr) : list ustr :=
  match words, punct_labels, capit_labels with
  | w :: ws, p :: ps, c :: cs => u_render_word w p c :: u_render_words ws ps cs
  | _, _, _ => []
  end.

(** What the loop has appended before the final [strip]. *)
Definition u_trail (rendered : list ustr) : ustr :=
  foldr (λ r acc, r ++ space ++ acc) [] rendered.

(** A word as [str.split] gives it. *)
Definition u_is_word (w : ustr) : bool :=
  negb (bool_decide (w = [])) && forallb (λ c, negb (isspace c)) w.

End Tables.

(** Sample tables. The white space of Unicode 6.3 and later: the
    characters of bidirectional type WS, B or S, or of category Zs. *)
Definition unicode_isspace (c : N) : bool :=
  ((9 <=? c) && (c <=? 13) || (28 <=? c) && (c <=? 32)
   || (c =? 133) || (c =? 160) || (c =? 5760)
   || (8192 <=? c) && (c <=? 8202)
   || (c =? 8232) || (c =? 8233) || (c =? 8239) || (c =? 8287)
   || (c =? 12288))%N.

Definition ascii_upper (c : N) : N :=
  if ((97 <=? c) && (c <=? 122))%N then (c - 32)%N else c.
Definition ascii_lower (c : N) : N :=
  if ((65 <=? c) && (c <=? 90))%N then (c + 32)%N else c.

(** [str.capitalize] on text whose letters are all among [A-Z] and
    [a-z]. *)
Definition ascii_capitalize (s : ustr) : ustr :=
  match s with
  | [] => []
  | c :: r => ascii_upper c :: (ascii_lower <$> r)
  end.

End Uni.

Module UniSample.
Import Uni.

Definition punct_ids : list (ustr * Z) :=
  [(lit "O", 0); (lit ",", 1); (lit ".", 2); (lit "?", 3)].
Definition capit_ids : list (ustr * Z) := [(lit "O", 0); (lit "U", 1)].

(** A query with a word in mixed case that is predicted to be
    capitalized. *)
Definition mixed_case : u_inference :=
  {| u_punct_label_ids := punct_ids;
     u_capit_label_ids := capit_ids;
     u_queries := [lit "the iPhone"];
     u_punct_preds := [[0; 0; 2; 0]];
     u_capit_preds := [[0; 1; 1; 0]];
     u_subtokens_mask := [[false; true; true; false]] |}.

(** Three unmasked predictions for a query of two words. *)
Definition mismatch : u_inference :=
  {| u_punct_label_ids := punct_ids;
     u_capit_label_ids := capit_ids;
     u_queries := [lit "yes please"];
     u_punct_preds := [[0; 1; 2; 0]];
     u_capit_preds := [[0; 1; 0; 0]];
     u_subtokens_mask := [[true; true; true; false]] |}.

(** Every word is predicted to stay as it is; the words of the second
    query are separated by a no-break space (U+00A0). *)
Definition no_break : ustr := lit "more" ++ [160%N] ++ lit "you".

Definition all_other : u_inference :=
  {| u_punct_label_ids := punct_ids;
     u_capit_label_ids := capit_ids;
     u_queries := [lit "  the  more you   buy "; no_break];
     u_punct_preds := [[0; 0; 0; 0; 0; 0]; [0; 0; 0; 0; 0; 0]];
     u_capit_preds := [[0; 0; 0; 0; 0; 0]; [0; 0; 0; 0; 0; 0]];
     u_subtokens_mask := [[false; true; true; true; true; false];
                          [false; true; true; false; false; false]] |}.

(** The notebook's first two queries, with the predictions that give its
    documented output. *)
Definition helpful : u_inference :=
  {| u_punct_label_ids := punct_ids;
     u_capit_label_ids := capit_ids;
     u_queries := [lit "can i help you"; lit "yes please"];
     u_punct_preds := [[0; 0; 0; 0; 3; 0]; [0; 1; 2; 0; 0; 0]];
     u_capit_preds := [[0; 1; 1; 0; 0; 0]; [0; 1; 0; 0; 0; 0]];
     u_subtokens_mask := [[false; true; true; true; true; false];
                          [false; true; true; false; false; false]] |}.

End UniSample.

(** ** The notebooks, cell by cell

    Every code cell of the three notebooks, as the lines of its source.
    Which cells have a [raise] statement is read off these lines; what
    such a cell does when it runs is given by the functions above, and a
    cell without one can only end in an exception of the interpreter or
    of a library it calls. *)

Inductive notebook :=
| Biobert (nb : checkpoint_notebook)
| PunctuationCapitalization.

Module Notebooks.
Import Py Uni.

(** A code cell: the line of the notebook file that holds the first line
    of its source, and the lines of the source. *)
Record cell := { first_line : nat; source : list string }.

(** The sources have double quotes; in a line under [q] a backquote
    stands for one. No line of the notebooks has a backquote of its
    own. *)
Fixpoint q (s : string) : string :=
  match s with
  | "" => ""
  | String c r => String (if Ascii.eqb c "`" then dquote else c) (q r)
  end.

(** The code cells of the relation extraction notebook (the first
    notebook of [src/unnamed/part_001]). *)
Definition relation_extraction_cells : list cell :=
[
  {| first_line := 9; source := [
      q "```";
      "You can run either this notebook locally (if you have all the dependencies and a GPU) or on Google Colab.";
      "";
      "Instructions for setting up Colab are as follows:";
      "1. Open a new Python 3 notebook.";
      q "2. Import this notebook from GitHub (File -> Upload Notebook -> `GITHUB` tab -> copy/paste GitHub URL)";
      q "3. Connect to an instance with a GPU (Runtime -> Change runtime type -> select `GPU` for hardware accelerator)";
      "4. Run this cell to set up dependencies.";
      q "```";
      "# If you're using Google Colab and not running locally, run this cell.";
      "# !pip install wget";
      "# !pip install git+https://github.com/NVIDIA/apex.git";
      "# !pip install nemo_toolkit[nlp]";
      "# !pip install unidecode";
      "import os";
      "import nemo";
      "import nemo.collections.nlp as nemo_nlp";
      "import numpy as np";
      "import time";
      "import errno";
      "";
      "from nemo.backends.pytorch.common.losses import CrossEntropyLossNM";
      "from nemo.collections.nlp.data.datasets import TextClassificationDataDesc";
      "from nemo.collections.nlp.nm.data_layers import BertTextClassificationDataLayer";
      "from nemo.collections.nlp.nm.trainables import SequenceClassifier";
      "from nemo.collections.nlp.callbacks.text_classification_callback import eval_epochs_done_callback, eval_iter_callback";
      "from nemo.utils.lr_policies import get_lr_policy";
      "from nemo import logging" ] |};
  {| first_line := 65; source := [
      "# Set which model to use.";
      q "model_type=`biobert` # `biomegatron`";
      "base_checkpoint_path={'biobert': './checkpoints/biobert/', 'biomegatron': './checkpoints/biomegatron/'}";
      "pretrained_model_name={'biobert': 'bert-base-cased', 'biomegatron': 'megatron-bert-uncased'}";
      "do_lower_case={'biobert': False, 'biomegatron': True}" ] |};
  {| first_line := 85; source := [
      "# the checkpoints are available from NGC: https://ngc.nvidia.com/catalog/models";
      "CHECKPOINT_ENCODER = os.path.join(base_checkpoint_path[model_type], 'BERT.pt') # Model encoder checkpoint file";
      "CHECKPOINT_CONFIG = os.path.join(base_checkpoint_path[model_type], 'bert_config.json') # Model configuration file";
      "    ";
      "if not os.path.exists(CHECKPOINT_ENCODER):";
      "    raise OSError(errno.ENOENT, os.strerror(errno.ENOENT), CHECKPOINT_ENCODER)";
      "";
      "if not os.path.exists(CHECKPOINT_CONFIG):";
      "    raise OSError(errno.ENOENT, os.strerror(errno.ENOENT), CHECKPOINT_CONFIG)" ] |};
  {| first_line := 110; source := [
      "#download https://github.com/arwhirang/recursive_chemprot/blob/master/Demo/tree_LSTM/data/chemprot-data_treeLSTM.zip and extract it into ./datasets/chemprot";
      q "data_dir=`./datasets`";
      q "dataset=`chemprot`";
      q "if not os.path.exists(f`{data_dir}/{dataset}`):";
      "    !mkdir -p $data_dir/$dataset";
      q "    !wget `https://github.com/arwhirang/recursive_chemprot/blob/master/Demo/tree_LSTM/data/chemprot-data_treeLSTM.zip?raw=true` -O data.zip";
      "    !unzip data.zip -d $data_dir/$dataset";
      "    !rm data.zip";
      "";
      "!python ../text_classification/data/import_datasets.py --source_data_dir=$data_dir/$dataset --target_data_dir=$data_dir/$dataset --dataset_name=$dataset";
      "!ls -l $data_dir/$dataset" ] |};
  {| first_line := 149; source := [
      "model_checkpoint=CHECKPOINT_ENCODER # language model encoder file";
      "model_config=CHECKPOINT_CONFIG # model configuration file";
      q "train_data_text_file=f`{data_dir}/{dataset}/train.tsv`";
      q "eval_data_text_file=f`{data_dir}/{dataset}/dev.tsv`";
      "fc_dropout=0.1";
      "max_seq_length=128";
      "batch_size=32";
      "num_output_layers=1";
      "";
      "nf = nemo.core.NeuralModuleFactory(";
      "    backend=nemo.core.Backend.PyTorch,";
      "    placement=nemo.core.DeviceType.GPU";
      ")";
      "model = nemo_nlp.nm.trainables.get_pretrained_lm_model(";
      "        config=model_config, pretrained_model_name=pretrained_model_name[model_type], checkpoint=model_checkpoint";
      "    )";
      "tokenizer = nemo.collections.nlp.data.tokenizers.get_tokenizer(";
      "    tokenizer_name='nemobert',";
      "    pretrained_model_name=pretrained_model_name[model_type],";
      "    do_lower_case=do_lower_case[model_type]";
      ")";
      "hidden_size = model.hidden_size";
      q "data_desc = TextClassificationDataDesc(data_dir=f`{data_dir}/{dataset}`, modes=['train', 'dev'])";
      "classifier = nemo_nlp.nm.trainables.SequenceClassifier(    ";
      "    hidden_size=hidden_size,";
      "    num_classes=data_desc.num_labels,";
      "    dropout=fc_dropout,";
      "    num_layers=num_output_layers,";
      "    log_softmax=False,";
      ")";
      "task_loss = CrossEntropyLossNM(weight=None)";
      "train_data_layer = BertTextClassificationDataLayer(";
      "    tokenizer=tokenizer,";
      "    input_file=train_data_text_file,";
      "    max_seq_length=max_seq_length,";
      "    batch_size=batch_size,";
      "    shuffle=True,";
      "    use_cache=True";
      ")";
      "eval_data_layer = BertTextClassificationDataLayer(";
      "    tokenizer=tokenizer,";
      "    input_file=eval_data_text_file,";
      "    max_seq_length=max_seq_length,";
      "    batch_size=batch_size,";
      "    shuffle=False,";
      "    use_cache=False";
      ")" ] |};
  {| first_line := 211; source := [
      "train_data = train_data_layer()";
      "train_hidden_states = model(input_ids=train_data.input_ids, token_type_ids=train_data.input_type_ids, attention_mask=train_data.input_mask)";
      "train_logits = classifier(hidden_states=train_hidden_states)";
      "loss = task_loss(logits=train_logits, labels=train_data.labels)";
      "# If you're training on multiple GPUs, this should be";
      "# len(train_data_layer) // (batch_size * batches_per_step * num_gpus)";
      "train_steps_per_epoch = len(train_data_layer) // batch_size";
      q "logging.info(f`doing {train_steps_per_epoch} steps per epoch`)";
      "";
      "eval_data = eval_data_layer()";
      "eval_hidden_states = model(input_ids=eval_data.input_ids, token_type_ids=eval_data.input_type_ids, attention_mask=eval_data.input_mask)";
      "eval_logits = classifier(hidden_states=eval_hidden_states)" ] |};
  {| first_line := 238; source := [
      "train_callback = nemo.core.SimpleLossLoggerCallback(";
      "    tensors=[loss],";
      q "    print_func=lambda x: logging.info(`Loss: {:.3f}`.format(x[0].item())),";
      q "    get_tb_values=lambda x: [[`loss`, x[0]]],";
      "    step_freq=100,";
      "    tb_writer=nf.tb_writer,";
      ")";
      "";
      "# Callback to evaluate the model";
      "eval_callback = nemo.core.EvaluatorCallback(";
      "        eval_tensors=[eval_logits, eval_data.labels],";
      "        user_iter_callback=lambda x, y: eval_iter_callback(x, y, eval_data_layer),";
      "        user_epochs_done_callback=lambda x: eval_epochs_done_callback(x, f'{nf.work_dir}/graphs'),";
      "        tb_writer=nf.tb_writer,";
      "        eval_step=500,";
      "    )" ] |};
  {| first_line := 270; source := [
      "num_epochs=3";
      "lr_warmup_proportion=0.1";
      "lr=3e-5";
      "weight_decay=0.01";
      q "lr_policy_fn = get_lr_policy(`WarmupAnnealing`, total_steps=num_epochs * train_steps_per_epoch, warmup_ratio=lr_warmup_proportion";
      ")";
      "nf.train(";
      "    tensors_to_optimize=[loss],";
      "    callbacks=[train_callback, eval_callback],";
      "    lr_policy=lr_policy_fn,";
      q "    optimizer=`adam_w`,";
      q "    optimization_params={`num_epochs`: num_epochs, `lr`: lr, `weight_decay`: weight_decay},";
      ")" ] |}
].

(** The code cells of the punctuation and capitalization notebook (the
    second notebook of [src/unnamed/part_001]). *)
Definition punctuation_cells : list cell :=
[
  {| first_line := 346; source := [
      "import math";
      "import numpy as np";
      "import os";
      "";
      "import nemo";
      "from nemo import logging";
      "from nemo.utils.lr_policies import WarmupAnnealing";
      "";
      "import nemo.collections.nlp as nemo_nlp";
      "from nemo.collections.nlp.data import NemoBertTokenizer";
      "from nemo.collections.nlp.nm.trainables import TokenClassifier";
      "from nemo.backends.pytorch.common.losses import CrossEntropyLossNM, LossAggregatorNM";
      "from nemo.collections.nlp.callbacks.punctuation_capitalization_callback import eval_iter_callback, eval_epochs_done_callback";
      "from nemo.collections.nlp.data.datasets.datasets_utils import calc_class_weights";
      "";
      q "DATA_DIR = `PATH_TO_WHERE_THE_DATA_IS`";
      q "WORK_DIR = `PATH_TO_WHERE_TO_STORE_CHECKPOINTS_AND_LOGS`";
      "";
      "# See the list of available pre-trained models by calling";
      "# the nemo_nlp.nm.trainables.get_bert_models_list()";
      q "PRETRAINED_BERT_MODEL = `bert-base-uncased`";
      "";
      "# model parameters";
      "BATCHES_PER_STEP = 1";
      "BATCH_SIZE = 128";
      "CLASSIFICATION_DROPOUT = 0.1";
      "MAX_SEQ_LENGTH = 64";
      "NUM_EPOCHS = 10";
      "LEARNING_RATE = 0.00002";
      "LR_WARMUP_PROPORTION = 0.1";
      q "OPTIMIZER = `adam`";
      "STEP_FREQ = 200 # determines how often loss will be printed and checkpoint saved";
      "PUNCT_NUM_FC_LAYERS = 3";
      "NUM_SAMPLES = 100000" ] |};
  {| first_line := 402; source := [
      "# This should take about a minute since the data is already downloaded in the previous step";
      "";
      "! python get_tatoeba_data.py --data_dir $DATA_DIR --num_sample $NUM_SAMPLES" ] |};
  {| first_line := 433; source := [
      "# Instantiate neural factory with supported backend";
      "nf = nemo.core.NeuralModuleFactory(";
      "    backend=nemo.core.Backend.PyTorch,";
      "";
      "    # If you're training with multiple GPUs, you should handle this value with";
      "    # something like argparse. See examples/nlp/token_classification.py for an example.";
      "    local_rank=None,";
      "";
      "    # If you're training with mixed precision, this should be set to mxprO1 or mxprO2.";
      "    # See https://nvidia.github.io/apex/amp.html#opt-levels for more details.";
      q "    optimization_level=`O1`,";
      "    ";
      "    # Define path to the directory you want to store your results";
      "    log_dir=WORK_DIR,";
      "";
      "    # If you're training with multiple GPUs, this should be set to";
      "    # nemo.core.DeviceType.AllGpu";
      "    placement=nemo.core.DeviceType.GPU)" ] |};
  {| first_line := 459; source := [
      "# If you're using a standard BERT model, you should do it like this. To see the full";
      "# list of MegatronBERT/BERT/ALBERT/RoBERTa model names, call nemo_nlp.nm.trainables.get_pretrained_lm_models_list()";
      "";
      "bert_model = nemo_nlp.nm.trainables.get_pretrained_lm_model(";
      "    pretrained_model_name=PRETRAINED_BERT_MODEL)";
      "";
      "tokenizer = nemo.collections.nlp.data.tokenizers.get_tokenizer(";
      q "    tokenizer_name=`nemobert`,";
      "    pretrained_model_name=PRETRAINED_BERT_MODEL)" ] |};
  {| first_line := 483; source := [
      "train_data_layer = nemo_nlp.nm.data_layers.PunctuationCapitalizationDataLayer(";
      "     tokenizer=tokenizer,";
      "     text_file=os.path.join(DATA_DIR, 'text_train.txt'),";
      "     label_file=os.path.join(DATA_DIR, 'labels_train.txt'),";
      "     max_seq_length=MAX_SEQ_LENGTH,";
      "     batch_size=BATCH_SIZE)";
      "";
      "punct_label_ids = train_data_layer.dataset.punct_label_ids";
      "capit_label_ids = train_data_layer.dataset.capit_label_ids";
      "";
      "";
      "# Define classifier for Punctuation and Capitalization tasks";
      "punct_classifier = TokenClassifier(";
      "    hidden_size=bert_model.hidden_size,";
      "    num_classes=len(punct_label_ids),";
      "    dropout=CLASSIFICATION_DROPOUT,";
      "    num_layers=PUNCT_NUM_FC_LAYERS,";
      "    name='Punctuation')";
      "";
      "capit_classifier = TokenClassifier(";
      "    hidden_size=bert_model.hidden_size,";
      "    num_classes=len(capit_label_ids),";
      "    dropout=CLASSIFICATION_DROPOUT,";
      "    name='Capitalization')";
      "";
      "";
      "# If you don't want to use weighted loss for Punctuation task, use class_weights=None";
      "punct_label_freqs = train_data_layer.dataset.punct_label_frequencies";
      "class_weights = calc_class_weights(punct_label_freqs)";
      "";
      "# define loss";
      "punct_loss = CrossEntropyLossNM(logits_ndim=3, weight=class_weights)";
      "capit_loss = CrossEntropyLossNM(logits_ndim=3)";
      "task_loss = LossAggregatorNM(num_inputs=2)" ] |};
  {| first_line := 525; source := [
      "input_ids, input_type_ids, input_mask, loss_mask, subtokens_mask, punct_labels, capit_labels = train_data_layer()";
      "";
      "hidden_states = bert_model(";
      "    input_ids=input_ids,";
      "    token_type_ids=input_type_ids,";
      "    attention_mask=input_mask)";
      "";
      "punct_logits = punct_classifier(hidden_states=hidden_states)";
      "capit_logits = capit_classifier(hidden_states=hidden_states)";
      "";
      "punct_loss = punct_loss(";
      "    logits=punct_logits,";
      "    labels=punct_labels,";
      "    loss_mask=loss_mask)";
      "";
      "capit_loss = capit_loss(";
      "    logits=capit_logits,";
      "    labels=capit_labels,";
      "    loss_mask=loss_mask)";
      "";
      "task_loss = task_loss(";
      "    loss_1=punct_loss,";
      "    loss_2=capit_loss)" ] |};
  {| first_line := 563; source := [
      "# Note that you need to specify punct_label_ids and capit_label_ids  - mapping form labels to label_ids generated";
      "# during creation of the train_data_layer to make sure that the mapping is correct in case some of the labels from";
      "# the train set are missing in the dev set.";
      "";
      "eval_data_layer = nemo_nlp.nm.data_layers.PunctuationCapitalizationDataLayer(";
      "    tokenizer=tokenizer,";
      "    text_file=os.path.join(DATA_DIR, 'text_dev.txt'),";
      "    label_file=os.path.join(DATA_DIR, 'labels_dev.txt'),";
      "    max_seq_length=MAX_SEQ_LENGTH,";
      "    batch_size=BATCH_SIZE,";
      "    punct_label_ids=punct_label_ids,";
      "    capit_label_ids=capit_label_ids)";
      "";
      "eval_input_ids, eval_input_type_ids, eval_input_mask, _, eval_subtokens_mask, eval_punct_labels, eval_capit_labels\";
      "    = eval_data_layer()";
      "";
      "hidden_states = bert_model(";
      "    input_ids=eval_input_ids,";
      "    token_type_ids=eval_input_type_ids,";
      "    attention_mask=eval_input_mask)";
      "";
      "eval_punct_logits = punct_classifier(hidden_states=hidden_states)";
      "eval_capit_logits = capit_classifier(hidden_states=hidden_states)" ] |};
  {| first_line := 601; source := [
      "callback_train = nemo.core.SimpleLossLoggerCallback(";
      "    tensors=[task_loss, punct_loss, capit_loss, punct_logits, capit_logits],";
      q "    print_func=lambda x: logging.info(`Loss: {:.3f}`.format(x[0].item())),";
      "    step_freq=STEP_FREQ)";
      "";
      "train_data_size = len(train_data_layer)";
      "";
      "# If you're training on multiple GPUs, this should be";
      "# train_data_size / (batch_size * batches_per_step * num_gpus)";
      "steps_per_epoch = int(train_data_size / (BATCHES_PER_STEP * BATCH_SIZE))";
      "print ('Number of steps per epoch: ', steps_per_epoch)";
      "";
      "# Callback to evaluate the model";
      "callback_eval = nemo.core.EvaluatorCallback(";
      "    eval_tensors=[eval_punct_logits,";
      "    eval_capit_logits,";
      "    eval_punct_labels,";
      "    eval_capit_labels,";
      "    eval_subtokens_mask],";
      "    user_iter_callback=lambda x, y: eval_iter_callback(x, y),";
      "    user_epochs_done_callback=lambda x: eval_epochs_done_callback(x,";
      "                                                      punct_label_ids,";
      "                                                      capit_label_ids),";
      "    eval_step=steps_per_epoch)";
      "";
      "# Callback to store checkpoints";
      "ckpt_callback = nemo.core.CheckpointCallback(";
      "    folder=nf.checkpoint_dir,";
      "    step_freq=STEP_FREQ)" ] |};
  {| first_line := 645; source := [
      "lr_policy = WarmupAnnealing(NUM_EPOCHS * steps_per_epoch,";
      "                            warmup_ratio=LR_WARMUP_PROPORTION)";
      "";
      "nf.train(tensors_to_optimize=[task_loss],";
      "         callbacks=[callback_train, callback_eval, ckpt_callback],";
      "         lr_policy=lr_policy,";
      "         batches_per_step=BATCHES_PER_STEP,";
      "         optimizer=OPTIMIZER,";
      q "         optimization_params={`num_epochs`: NUM_EPOCHS,";
      q "                              `lr`: LEARNING_RATE})" ] |};
  {| first_line := 696; source := [
      "# Define the list of queiries for inference";
      "queries = ['can i help you',";
      "           'yes please',";
      "           'we bought four shirts from the nvidia gear store in santa clara',";
      "           'we bought four shirts one mug and ten thousand titan rtx graphics cards',";
      "           'the more you buy the more you save']" ] |};
  {| first_line := 710; source := [
      "infer_data_layer = nemo_nlp.nm.data_layers.BertTokenClassificationInferDataLayer(";
      "    queries=queries,";
      "    tokenizer=tokenizer,";
      "    max_seq_length=MAX_SEQ_LENGTH,";
      "    batch_size=1)";
      "";
      "input_ids, input_type_ids, input_mask, _, subtokens_mask = infer_data_layer()";
      "";
      "hidden_states = bert_model(";
      "    input_ids=input_ids,";
      "    token_type_ids=input_type_ids,";
      "    attention_mask=input_mask)";
      "";
      "punct_logits = punct_classifier(hidden_states=hidden_states)";
      "capit_logits = capit_classifier(hidden_states=hidden_states)";
      "";
      "evaluated_tensors = nf.infer(tensors=[punct_logits, capit_logits, subtokens_mask],";
      "                             checkpoint_dir=WORK_DIR + '/checkpoints')" ] |};
  {| first_line := 736; source := [
      "# helper functions";
      "def concatenate(lists):";
      "    return np.concatenate([t.cpu() for t in lists])";
      "";
      "punct_ids_to_labels = {punct_label_ids[k]: k for k in punct_label_ids}";
      "capit_ids_to_labels = {capit_label_ids[k]: k for k in capit_label_ids}";
      "";
      "punct_logits, capit_logits, subtokens_mask = [concatenate(tensors) for tensors in evaluated_tensors]";
      "punct_preds = np.argmax(punct_logits, axis=2)";
      "capit_preds = np.argmax(capit_logits, axis=2)";
      "";
      "for i, query in enumerate(queries):";
      "    print(f'Query: {query}')";
      "";
      "    punct_pred = punct_preds[i][subtokens_mask[i] > 0.5]";
      "    capit_pred = capit_preds[i][subtokens_mask[i] > 0.5]";
      "";
      "    words = query.strip().split()";
      "    if len(punct_pred) != len(words) or len(capit_pred) != len(words):";
      "        raise ValueError('Pred and words must be of the same length')";
      "";
      "    output = ''";
      "    for j, w in enumerate(words):";
      "        punct_label = punct_ids_to_labels[punct_pred[j]]";
      "        capit_label = capit_ids_to_labels[capit_pred[j]]";
      "";
      "        if capit_label != 'O':";
      "            w = w.capitalize()";
      "        output += w";
      "        if punct_label != 'O':";
      "            output += punct_label";
      "        output += ' '";
      "    print(f'Combined: {output.strip()}\n')" ] |};
  {| first_line := 805; source := [] |}
].

(** The code cells of the question answering notebook
    ([src/examples/nlp/biobert_notebooks/biobert_qa.ipynb]). *)
Definition question_answering_cells : list cell :=
[
  {| first_line := 9; source := [
      q "```";
      "You can run either this notebook locally (if you have all the dependencies and a GPU) or on Google Colab.";
      "";
      "Instructions for setting up Colab are as follows:";
      "1. Open a new Python 3 notebook.";
      q "2. Import this notebook from GitHub (File -> Upload Notebook -> `GITHUB` tab -> copy/paste GitHub URL)";
      q "3. Connect to an instance with a GPU (Runtime -> Change runtime type -> select `GPU` for hardware accelerator)";
      "4. Run this cell to set up dependencies.";
      q "```";
      "# If you're using Google Colab and not running locally, run this cell.";
      "# !pip install wget";
      "# !pip install git+https://github.com/NVIDIA/apex.git";
      "# !pip install nemo_toolkit[nlp]";
      "# !pip install unidecode";
      "import os";
      "import nemo";
      "import nemo.collections.nlp as nemo_nlp";
      "import numpy as np";
      "import time";
      "import errno";
      "import json";
      "";
      "from nemo.backends.pytorch.common.losses import CrossEntropyLossNM";
      "from nemo.collections.nlp.nm.data_layers import BertQuestionAnsweringDataLayer";
      "from nemo.collections.nlp.nm.trainables import TokenClassifier";
      "from nemo.collections.nlp.callbacks.qa_squad_callback import eval_epochs_done_callback, eval_iter_callback";
      "from nemo.utils.lr_policies import get_lr_policy";
      "from nemo import logging" ] |};
  {| first_line := 67; source := [
      "# Set which model to use.";
      q "model_type=`biobert` # `biomegatron`";
      "base_checkpoint_path={'biobert': './checkpoints/biobert/qa_squad', 'biomegatron': './checkpoints/biomegatron/qa_squad'}";
      "pretrained_model_name={'biobert': 'bert-base-cased', 'biomegatron': 'megatron-bert-uncased'}";
      "do_lower_case={'biobert': False, 'biomegatron': True}" ] |};
  {| first_line := 80; source := [
      "# the checkpoints are available from NGC: https://ngc.nvidia.com/catalog/models";
      "CHECKPOINT_ENCODER = os.path.join(base_checkpoint_path[model_type], 'BERT.pt')";
      "CHECKPOINT_HEAD = os.path.join(base_checkpoint_path[model_type], 'TokenClassifier.pt')";
      "CHECKPOINT_CONFIG = os.path.join(base_checkpoint_path[model_type], 'bert_config.json')";
      "    ";
      "if not os.path.exists(CHECKPOINT_ENCODER):";
      "    raise OSError(errno.ENOENT, os.strerror(errno.ENOENT), CHECKPOINT_ENCODER)";
      "";
      "if not os.path.exists(CHECKPOINT_HEAD):";
      "    raise OSError(errno.ENOENT, os.strerror(errno.ENOENT), CHECKPOINT_HEAD)";
      "    ";
      "if not os.path.exists(CHECKPOINT_CONFIG):";
      "    raise OSError(errno.ENOENT, os.strerror(errno.ENOENT), CHECKPOINT_CONFIG)" ] |};
  {| first_line := 109; source := [
      q "data_dir=`./datasets`";
      q "dataset=`BioASQ`";
      q "if not os.path.exists(f`{data_dir}/{dataset}`):";
      "    !python ../question_answering/get_bioasq.py --data_dir=$data_dir";
      "!ls -l $data_dir/$dataset" ] |};
  {| first_line := 150; source := [
      "model_checkpoint=CHECKPOINT_ENCODER # language model encoder file";
      "head_checkpoint=CHECKPOINT_HEAD # language model encoder file";
      "model_config=CHECKPOINT_CONFIG # model configuration file";
      q "work_dir=`output_bioasq`";
      q "train_file=f`{data_dir}/{dataset}/BioASQ-6b/train/Full-Abstract/BioASQ-train-factoid-6b-full-annotated.json`";
      "doc_stride=128";
      "max_query_length=64";
      "max_seq_length=384";
      "batch_size=12";
      "version_2_with_negative=False";
      "";
      "nf = nemo.core.NeuralModuleFactory(";
      "    backend=nemo.core.Backend.PyTorch,";
      "    placement=nemo.core.DeviceType.GPU,";
      "    log_dir=work_dir";
      ")";
      "model = nemo_nlp.nm.trainables.get_pretrained_lm_model(";
      "        config=model_config, pretrained_model_name=pretrained_model_name[model_type], checkpoint=model_checkpoint";
      "    )";
      "tokenizer = nemo.collections.nlp.data.tokenizers.get_tokenizer(";
      "    tokenizer_name='nemobert',";
      "    pretrained_model_name=pretrained_model_name[model_type],";
      "    do_lower_case=do_lower_case[model_type]";
      ")";
      "hidden_size = model.hidden_size";
      "qa_head = TokenClassifier(";
      q "    hidden_size=hidden_size, num_classes=2, num_layers=1, log_softmax=False, name=`TokenClassifier`";
      ")";
      "qa_head.restore_from(head_checkpoint)";
      "task_loss = nemo_nlp.nm.losses.SpanningLoss()";
      "# create training data layer, preprocessing takes a while. If you want to cache preprocessed data for future reuse use --use_cache=True";
      "train_data_layer = BertQuestionAnsweringDataLayer(";
      q "    mode=`train`,";
      "    tokenizer=tokenizer,";
      "    version_2_with_negative=version_2_with_negative,";
      "    data_file=train_file,";
      "    max_query_length=max_query_length,";
      "    max_seq_length=max_seq_length,";
      "    doc_stride=doc_stride,";
      "    batch_size=batch_size,";
      "    shuffle=True,";
      "    use_cache=True";
      ")" ] |};
  {| first_line := 208; source := [
      "train_data = train_data_layer()";
      "hidden_states = model(input_ids=train_data.input_ids, token_type_ids=train_data.input_type_ids, attention_mask=train_data.input_mask)";
      "qa_output = qa_head(hidden_states=hidden_states)";
      "loss = task_loss(logits=qa_output, start_positions=train_data.start_positions, end_positions=train_data.end_positions)";
      "# If you're training on multiple GPUs, this should be";
      "# len(train_data_layer) // (batch_size * batches_per_step * num_gpus)";
      "train_steps_per_epoch = len(train_data_layer) // batch_size";
      q "logging.info(f`doing {train_steps_per_epoch} steps per epoch`)" ] |};
  {| first_line := 231; source := [
      "train_callback = nemo.core.SimpleLossLoggerCallback(";
      "    tensors=[loss.loss],";
      q "    print_func=lambda x: logging.info(`Loss: {:.3f}`.format(x[0].item())),";
      q "    get_tb_values=lambda x: [[`loss`, x[0]]],";
      "    step_freq=100,";
      "    tb_writer=nf.tb_writer,";
      ")";
      "ckpt_callback = nemo.core.CheckpointCallback(";
      "    folder=nf.checkpoint_dir, epoch_freq=1, step_freq=-1";
      ")" ] |};
  {| first_line := 257; source := [
      "num_epochs=5";
      "lr=5e-6";
      "lr_warmup_proportion=0";
      "weight_decay=0";
      q "lr_policy_fn = get_lr_policy(`WarmupAnnealing`, total_steps=num_epochs * train_steps_per_epoch, warmup_ratio=lr_warmup_proportion";
      ")";
      "nf.reset_trainer()";
      "nf.train(";
      "    tensors_to_optimize=[loss.loss],";
      "    callbacks=[train_callback, ckpt_callback],";
      "    lr_policy=lr_policy_fn,";
      q "    optimizer=`adam_w`,";
      q "    optimization_params={`num_epochs`: num_epochs, `lr`: lr, `weight_decay`: weight_decay},";
      ")" ] |};
  {| first_line := 287; source := [
      q "test_dataset=`6b`";
      q "test_dataset_idx=`1`" ] |};
  {| first_line := 297; source := [
      q "test_file=f`{data_dir}/{dataset}/BioASQ-6b/test/Full-Abstract/BioASQ-test-factoid-{test_dataset}-{test_dataset_idx}.json`";
      q "logging.info(f`using test file {test_file}`)";
      "test_data_layer = BertQuestionAnsweringDataLayer(";
      q "    mode=`test`,";
      "    tokenizer=tokenizer,";
      "    version_2_with_negative=version_2_with_negative,";
      "    data_file=test_file,";
      "    max_query_length=max_query_length,";
      "    max_seq_length=max_seq_length,";
      "    doc_stride=doc_stride,";
      "    batch_size=1,";
      "    shuffle=False,";
      "    use_cache=False";
      ")";
      "";
      "# Creating Neural test graph";
      "test_data = test_data_layer()";
      "test_hidden_states = model(input_ids=test_data.input_ids, token_type_ids=test_data.input_type_ids, attention_mask=test_data.input_mask)";
      "test_qa_output = qa_head(hidden_states=test_hidden_states)";
      "test_tensors=[test_data.unique_ids, test_qa_output]" ] |};
  {| first_line := 327; source := [
      "n_best_size=20";
      "null_score_diff_threshold=0";
      "max_answer_length=30";
      q "logging.info(f`work dir {work_dir}, checkpoint dir {nf.checkpoint_dir}`)";
      q "output_prediction_file=f`{work_dir}/predictions.json`";
      q "output_nbest_file=f`{work_dir}/nbest.json`";
      "evaluated_tensors = nf.infer(";
      "    tensors=test_tensors, cache=False, offload_to_cpu=False, checkpoint_dir=nf.checkpoint_dir";
      ")";
      "unique_ids = []";
      "for t in evaluated_tensors[0]:";
      "    unique_ids.extend(t.tolist())";
      "logits = []";
      "for t in evaluated_tensors[1]:";
      "    logits.extend(t.tolist())";
      "start_logits, end_logits = np.split(np.asarray(logits), 2, axis=-1)";
      "(all_predictions, all_nbest, scores_diff) = test_data_layer.dataset.get_predictions(";
      "    unique_ids=unique_ids,";
      "    start_logits=start_logits,";
      "    end_logits=end_logits,";
      "    n_best_size=n_best_size,";
      "    max_answer_length=max_answer_length,";
      "    version_2_with_negative=version_2_with_negative,";
      "    null_score_diff_threshold=null_score_diff_threshold,";
      "    do_lower_case=do_lower_case[model_type],";
      ")";
      q "with open(output_nbest_file, `w`) as writer:";
      q "    writer.write(json.dumps(all_nbest, indent=4) + `\n`)";
      q "with open(output_prediction_file, `w`) as writer:";
      q "    writer.write(json.dumps(all_predictions, indent=4) + `\n`)" ] |};
  {| first_line := 387; source := [
      "# a test question example would be ";
      "!head -n 15 $test_file" ] |};
  {| first_line := 424; source := [
      q "# the corresponding first 2 best answers of the n-best list prediction with probabilities. The most likely answer is `emMAW` with a probability of 0.995";
      "!head -n 20 $output_nbest_file" ] |};
  {| first_line := 449; source := [
      q "# the golden label can be found in this following file under `exact_answer`. In this case, the it is equal to the prediction which is `emMAW`";
      "prefix=test_dataset.upper()";
      q "suffix=f`{test_dataset_idx}_golden.json`";
      q "!grep -B 7 `5a6a3335b750ff4455000025` $data_dir/$dataset/$prefix$suffix" ] |};
  {| first_line := 468; source := [
      "if not os.path.exists('bioasq-biobert'):";
      q "    print(`clone https://github.com/dmis-lab/bioasq-biobert.git`)";
      "    !git clone https://github.com/dmis-lab/bioasq-biobert.git && cd bioasq-biobert && git fetch origin pull/12/head:fix_indentation && git checkout fix_indentation && cd ..";
      "if not os.path.exists('Evaluation-Measures'):";
      q "    print(`clone https://github.com/BioASQ/Evaluation-Measures.git`)";
      "    !git clone https://github.com/BioASQ/Evaluation-Measures.git && git checkout cd93f3b8eb290c965d18ef466ee28a0bcf451e5d" ] |};
  {| first_line := 482; source := [
      q "transformed_nbest_dir=f`{work_dir}/transformed_nbest`";
      "!mkdir -p $transformed_nbest_dir";
      "!python bioasq-biobert/biocodes/transform_n2b_factoid.py --nbest_path=$output_nbest_file --output_path=$transformed_nbest_dir" ] |};
  {| first_line := 493; source := [
      "prefix=test_dataset.upper()";
      q "suffix=f`{test_dataset_idx}_golden.json`";
      "! java -Xmx10G -cp Evaluation-Measures/flat/BioASQEvaluation/dist/BioASQEvaluation.jar evaluation.EvaluatorTask1b -phaseB -e 5 $data_dir/$dataset/$prefix$suffix $transformed_nbest_dir/BioASQform_BioASQ-answer.json" ] |}
].

Definition code_cells (nb : notebook) : list cell :=
  match nb with
  | Biobert RelationExtraction => relation_extraction_cells
  | Biobert QuestionAnswering => question_answering_cells
  | PunctuationCapitalization => punctuation_cells
  end.

(** *** Keywords in the source *)

Definition ident_char (c : ascii) : bool := RunId.alnum c || Ascii.eqb c "_".

(** What follows [w] at the start of [s]. *)
Fixpoint rest_after (w s : string) : option string :=
  match w, s with
  | "", _ => Some s
  | String a w', String b s' => if Ascii.eqb a b then rest_after w' s' else None
  | String _ _, "" => None
  end.

(** [w] is at the start of [s] and ends there as a word. *)
Definition word_here (w s : string) : bool :=
  match rest_after w s with
  | Some "" => true
  | Some (String c _) => negb (ident_char c)
  | None => false
  end.

(** [w] occurs in the line as a word of its own: not inside an
    identifier. An occurrence in a comment or in a string counts too, so
    that a line without the word has no statement with that keyword. *)
Fixpoint has_word_from (w : string) (in_ident : bool) (s : string) : bool :=
  match s with
  | "" => false
  | String c r =>
    (negb in_ident && word_here w s) || has_word_from w (ident_char c) r
  end.

Definition has_word (w line : string) : bool := has_word_from w false line.

(** The lines of a cell with their line numbers in the notebook file. *)
Definition numbered (c : cell) : list (nat * string) :=
  imap (λ k line, ((first_line c + k)%nat, line)) (source c).

(** The lines of the code cells of a notebook that have the word [w]. *)
Definition lines_with (w : string) (nb : notebook) : list (nat * string) :=
  filter (λ l, has_word w l.2 = true) (code_cells nb ≫= numbered).

Definition has_raise (c : cell) : bool := existsb (has_word "raise") (source c).

(** *** Running a cell *)

(** What a cell does: it only calls into the interpreter and the
    libraries, or it is the cell that checks the checkpoint files, or the
    cell that decodes the predictions. The cells with a [raise]
    statement are the last two. *)
Inductive role :=
| CallsLibraries
| ChecksCheckpoints (nb : checkpoint_notebook)
| DecodesQueries.

Definition role_of (nb : notebook) (c : cell) : role :=
  if has_raise c then
    match nb with
    | Biobert cn => ChecksCheckpoints cn
    | PunctuationCapitalization => DecodesQueries
    end
  else CallsLibraries.

(** The role of the code cell of index [k], counted from 0. *)
Definition role_at (nb : notebook) (k : nat) : option role :=
  role_of nb <$> code_cells nb !! k.

(** The indices of the code cells that have a [raise] statement. *)
Definition raise_cells (nb : notebook) : list nat :=
  (filter (λ kc, has_raise kc.2 = true) (imap (λ k c, (k, c)) (code_cells nb))).*1.

(** [if not os.path.exists(P): raise OSError(errno.ENOENT, os.strerror(errno.ENOENT), P)] *)
Definition require_file (exists_ : string → bool) (path : string) : oresult () :=
  if negb (exists_ path)
  then Raised RaiseStatement (OSError ENOENT (strerror ENOENT) path)
  else Done ().

(** The checkpoint cell of the relation extraction notebook. *)
Definition re_checkpoint_cell (exists_ : string → bool) (model_type : string)
  : oresult () :=
  base ←? u_getitem_str BiobertRE.base_checkpoint_path model_type;
  let encoder := path_join base "BERT.pt" in
  base ←? u_getitem_str BiobertRE.base_checkpoint_path model_type;
  let config := path_join base "bert_config.json" in
  _ ←? require_file exists_ encoder;
  _ ←? require_file exists_ config;
  Done ().

(** The checkpoint cell of the question answering notebook. *)
Definition qa_checkpoint_cell (exists_ : string → bool) (model_type : string)
  : oresult () :=
  base ←? u_getitem_str BiobertQA.base_checkpoint_path model_type;
  let encoder := path_join base "BERT.pt" in
  base ←? u_getitem_str BiobertQA.base_checkpoint_path model_type;
  let head := path_join base "TokenClassifier.pt" in
  base ←? u_getitem_str BiobertQA.base_checkpoint_path model_type;
  let config := path_join base "bert_config.json" in
  _ ←? require_file exists_ encoder;
  _ ←? require_file exists_ head;
  _ ←? require_file exists_ config;
  Done ().

Definition checks_checkpoints (nb : checkpoint_notebook)
    (exists_ : string → bool) (model_type : string) : oresult () :=
  match nb with
  | RelationExtraction => re_checkpoint_cell exists_ model_type
  | QuestionAnswering => qa_checkpoint_cell exists_ model_type
  end.

(** What a notebook runs in: the value of [model_type], the file system
    as [os.path.exists] sees it, the interpreter's tables of white space
    and capitalization, the queries with what the model predicts for
    them, and for every code cell the exception, if any, that the
    interpreter or a library raises while the statements of the cell
    that call them are evaluated. *)
Record world := {
  model_type : string;
  exists_ : string → bool;
  isspace : N → bool;
  capitalize : ustr → ustr;
  predictions : u_inference;
  library_failure : notebook → nat → option exn
}.

Definition calls_libraries (failure : option exn) : oresult () :=
  match failure with
  | Some e => Raised Library e
  | None => Done ()
  end.

(** Running the code cell of index [k] of a notebook. The decoding cell
    first defines its helper, inverts the label maps and takes the
    [argmax] of the logits: library calls; then comes its loop. *)
Definition run_cell (w : world) (nb : notebook) (k : nat) : oresult () :=
  match role_at nb k with
  | None => Done ()
  | Some CallsLibraries => calls_libraries (library_failure w nb k)
  | Some (ChecksCheckpoints cn) => checks_checkpoints cn (exists_ w) (model_type w)
  | Some DecodesQueries =>
    _ ←? calls_libraries (library_failure w nb k);
    (u_decode_cell (isspace w) (capitalize w) (predictions w)).2
  end.

End Notebooks.

Module SampleWorld.
Import Uni Notebooks.

(** Nothing fails in the libraries, every file is there. *)
Definition quiet (inf : u_inference) : world :=
  {| model_type := "biobert";
     exists_ := λ _, true;
     isspace := unicode_isspace;
     capitalize := ascii_capitalize;
     predictions := inf;
     library_failure := λ _ _, None |}.

(** The head weights of the question answering model are missing. *)
Definition no_head : world :=
  {| model_type := "biobert";
     exists_ := SampleFs.no_head;
     isspace := unicode_isspace;
     capitalize := ascii_capitalize;
     predictions := UniSample.helpful;
     library_failure := λ _ _, None |}.

(** [np.concatenate] fails in the decoding cell. *)
Definition concatenate_fails : world :=
  {| model_type := "biobert";
     exists_ := λ _, true;
     isspace := unicode_isspace;
     capitalize := ascii_capitalize;
     predictions := UniSample.helpful;
     library_failure := λ nb k,
       match nb, k with
       | PunctuationCapitalization, 11%nat =>
         Some (Py.ValueError "need at least one array to concatenate")
       | _, _ => None
       end |}.

End SampleWorld.

(** ** The two readings of the decoding loop

    [Punctuation] reads the loop on strings of 7-bit characters, with the
    ASCII tables; [Uni] reads it on code points, with the tables as
    parameters. What links them: a 7-bit text as code points, and the
    data of a run likewise. *)

Module SevenBit.
Import Py Punctuation Uni.

Definition seven_bit (s : string) : bool :=
  RunId.str_forallb (λ c, (code c <? 128)%N) s.

Definition lit_labels (label_ids : list (string * Z)) : list (ustr * Z) :=
  (λ kv, (lit kv.1, kv.2)) <$> label_ids.

Definition lit_inference (inf : inference) : u_inference :=
  {| u_punct_label_ids := lit_labels (punct_label_ids inf);
     u_capit_label_ids := lit_labels (capit_label_ids inf);
     u_queries := lit <$> queries inf;
     u_punct_preds := punct_preds inf;
     u_capit_preds := capit_preds inf;
     u_subtokens_mask := subtokens_mask inf |}.

Definition lit_result (r : result string) : result ustr :=
  match r with
  | Ok s => Ok (lit s)
  | Raise e => Raise e
  end.

(** The labels of a run are 7-bit text. *)
Definition seven_bit_labels (inf : inference) : bool :=
  forallb (λ kv, seven_bit kv.1) (punct_label_ids inf)
  && forallb (λ kv, seven_bit kv.1) (capit_label_ids inf).

End SevenBit.

(** * Part II: properties *)

Import Py.

(** ** Strings *)

Lemma sapp_nil_r (s : string) : s +:+ "" = s.
Proof. induction s as [|c s IH]; [done|]. by rewrite <- IH at 2. Qed.

Lemma sapp_assoc (s1 s2 s3 : string) : (s1 +:+ s2) +:+ s3 = s1 +:+ s2 +:+ s3.
Proof.
  induction s1 as [|c s1 IH]; [done|].
  change (String c ((s1 +:+ s2) +:+ s3) = String c (s1 +:+ s2 +:+ s3)).
  by rewrite IH.
Qed.

Lemma occurs_in_app_r (p s1 s2 : string) :
  Str.occurs_in p s2 → Str.occurs_in p (s1 +:+ s2).
Proof.
  intros (pre & post & ->). exists (s1 +:+ pre), post.
  by rewrite sapp_assoc.
Qed.

Lemma occurs_in_app_l (p s1 s2 : string) :
  Str.occurs_in p s1 → Str.occurs_in p (s1 +:+ s2).
Proof.
  intros (pre & post & ->). exists pre, (post +:+ s2).
  by rewrite !sapp_assoc.
Qed.

Lemma occurs_in_refl (p : string) : Str.occurs_in p p.
Proof. exists "", "". by rewrite sapp_nil_r. Qed.

Lemma occurs_in_trans (p q s : string) :
  Str.occurs_in p q → Str.occurs_in q s → Str.occurs_in p s.
Proof.
  intros (a & b & ->) (c & d & ->).
  exists (c +:+ a), (b +:+ d). by rewrite !sapp_assoc.
Qed.

(** A line of a here-document occurs in the text read from it. *)
Lemma heredoc_line (l : string) (lines : list string) :
  l ∈ lines → Str.occurs_in l (Launch.heredoc lines).
Proof.
  induction lines as [|x lines IH]; intros Hin.
  - by apply elem_of_nil in Hin.
  - apply elem_of_cons in Hin as [->|Hin]; cbn.
    + apply occurs_in_app_l, occurs_in_refl.
    + by apply occurs_in_app_r, IH.
Qed.

(** ** Shell arithmetic *)

Lemma wrap64_id (z : Z) : ShArith.in_range z → ShArith.wrap64 z = z.
Proof.
  unfold ShArith.in_range, ShArith.wrap64. intros Hz.
  rewrite Z.mod_small by lia. lia.
Qed.

Lemma div_floor (a b : Z) :
  0 ≤ a → 0 < b → ShArith.in_range a → ShArith.div a b = a `div` b.
Proof.
  intros Ha Hb Hr. unfold ShArith.div.
  rewrite Z.quot_div_nonneg by lia.
  apply wrap64_id. unfold ShArith.in_range in *.
  assert (a `div` b ≤ a) by (apply Z.div_le_upper_bound; nia).
  assert (0 ≤ a `div` b) by (apply Z.div_pos; lia).
  lia.
Qed.

Section ExactArithmetic.
Variables dataset_size batch_size num_gpu num_epochs : Z.
Hypothesis dataset_size_bound : 0 ≤ dataset_size < 2 ^ 31.
Hypothesis batch_size_bound : 0 < batch_size < 2 ^ 15.
Hypothesis num_gpu_bound : 0 < num_gpu < 2 ^ 15.
Hypothesis num_epochs_bound : 0 ≤ num_epochs < 2 ^ 31.

(** Within these bounds nothing wraps and the truncating division is the
    floor. *)
Lemma total_steps_exact :
  Durs.total_steps_of dataset_size batch_size num_gpu num_epochs
  = (dataset_size `div` (batch_size * num_gpu) + 1) * num_epochs.
Proof using All.
  unfold Durs.total_steps_of, ShArith.mul, ShArith.add.
  rewrite (wrap64_id (batch_size * num_gpu))
    by (unfold ShArith.in_range; nia).
  rewrite div_floor by (unfold ShArith.in_range; nia).
  assert (1 ≤ batch_size * num_gpu) as Hd by nia.
  assert (0 ≤ dataset_size `div` (batch_size * num_gpu) ≤ dataset_size) as Hq.
  { split; [apply Z.div_pos; lia|].
    apply Z.div_le_upper_bound; [lia|].
    transitivity (1 * dataset_size); [lia|].
    apply Z.mul_le_mono_nonneg_r; lia. }
  rewrite (wrap64_id (_ + 1)) by (unfold ShArith.in_range; lia).
  apply wrap64_id. unfold ShArith.in_range. nia.
Qed.

End ExactArithmetic.

Lemma divisors_nonzero :
  ShArith.mul Durs.batch_size Launch.NUM_GPU = 1536 ∧ (50 : Z) ≠ 0.
Proof. split; [by vm_compute | lia]. Qed.

(** ** The launch scripts *)

Section LaunchFacts.
Import Launch.

Lemma is_empty_true (s : string) : is_empty s = true → s = "".
Proof. by destruct s. Qed.

Lemma usage_guard_count (i : invocation) :
  length (argv i) ≠ 1%nat → usage_guard i = true.
Proof.
  intros Hn. unfold usage_guard.
  apply Nat.eqb_neq in Hn. rewrite Hn. apply orb_true_r.
Qed.

Lemma usage_guard_empty_name (i : invocation) :
  param1 i = "" → usage_guard i = true.
Proof. intros Hp. unfold usage_guard. by rewrite Hp. Qed.

Lemma usage_guard_false (i : invocation) :
  usage_guard i = false →
  ∃ name_id, argv i = [name_id] ∧ name_id ≠ "" ∧ param1 i = name_id.
Proof.
  unfold usage_guard, param1. intros Hg.
  apply orb_false_elim in Hg as [He Hl].
  apply negb_false_iff, Nat.eqb_eq in Hl.
  destruct (argv i) as [|a [|b l]]; simplify_eq/=.
  exists a. split_and!; [done| |done]. by intros ->.
Qed.

(** Every run of a script either stops at a guard after one [echo], with
    status 1, or goes through the whole script. *)
Lemma run_script_cases (s : launch_script) (i : invocation) :
  (∃ line, run_script s i = error_exit line
           ∧ (usage_guard i = true ∨ has_setup_py i = false
              ∨ (s = DursScript ∧ WANDB_TOKEN i = "")))
  ∨ (usage_guard i = false ∧ has_setup_py i = true
     ∧ run_script s i =
         {| trace := save_state (script_run_id s (param1 i) (num_id i))
                     ++ [NgcBatchRun (script_job s i)];
            exit_status := batch_status i |}).
Proof.
  destruct s; cbn; unfold Durs.launch_durs, Quartznet.launch_quartznet, usage_exit.
  - destruct (usage_guard i) eqn:Hg; [left; eauto 6|].
    destruct (has_setup_py i) eqn:Hs; cbn; [|left; eauto 6].
    destruct (is_empty (WANDB_TOKEN i)) eqn:Ht; [|by right].
    apply is_empty_true in Ht. left; eauto 8.
  - destruct (usage_guard i) eqn:Hg; [left; eauto 6|].
    destruct (has_setup_py i) eqn:Hs; cbn; [|left; eauto 6].
    by right.
Qed.

Lemma launched_trace_elems (id : string) (job : batch_job) (a : action) :
  a ∈ save_state id ++ [NgcBatchRun job] →
  a = Echo "Updating source code..."
  ∨ a = Echo ("Tmp dir: " +:+ tmp_dir id)
  ∨ a = MkdirP (tmp_dir id)
  ∨ a = Rsync "." (tmp_dir id) ".git" ":- .gitignore"
  ∨ a = NgcWorkspaceUpload WS (tmp_dir id) (upload_destination id)
  ∨ a = NgcBatchRun job.
Proof.
  unfold save_state.
  rewrite elem_of_app, !elem_of_cons, !elem_of_nil. tauto.
Qed.

End LaunchFacts.

Section LaunchClaims.
Import Launch.

(** C1, as stated, fails: the speech recognition script never looks at
    [WANDB_TOKEN]. Started with one experiment name from the project root
    and no token, it saves, uploads and submits the job. *)
Lemma quartznet_runs_without_token :
  environ_WANDB_TOKEN Sample.no_token = None
  ∧ run_script QuartznetScript Sample.no_token =
      {| trace := save_state "exp1_aB3dE6gH9jK2m"
                  ++ [NgcBatchRun (script_job QuartznetScript Sample.no_token)];
         exit_status := 0 |}
  ∧ ¬ (∀ s i, environ_WANDB_TOKEN i = None ∨ environ_WANDB_TOKEN i = Some "" →
         ∃ line status, status ≠ 0
           ∧ run_script s i = {| trace := [Echo line]; exit_status := status |}).
Proof.
  split_and!; [done|done|].
  intros Hall.
  destruct (Hall QuartznetScript Sample.no_token (or_introl eq_refl))
    as (line & status & _ & Hrun).
  by vm_compute in Hrun.
Qed.

(** C1, amended: the duration prediction script stops with status 1 after
    one message whenever [WANDB_TOKEN] is unset or empty, before it creates,
    copies, uploads or submits anything; once the argument and [setup.py]
    guards have passed the message is the token message. The speech
    recognition script runs the same whatever the token is. *)
Theorem durs_requires_token (i : invocation) :
  environ_WANDB_TOKEN i = None ∨ environ_WANDB_TOKEN i = Some "" →
  (∃ line, Durs.launch_durs i = {| trace := [Echo line]; exit_status := 1 |}
           ∧ (usage_guard i = false → has_setup_py i = true →
              line = "Please, provide WanDB token."))
  ∧ (∀ token, Quartznet.launch_quartznet (with_token token i)
              = Quartznet.launch_quartznet i).
Proof.
  intros Ht. split; [|intros token; reflexivity].
  assert (WANDB_TOKEN i = "") as Hempty.
  { unfold WANDB_TOKEN. by destruct Ht as [-> | ->]. }
  unfold Durs.launch_durs, usage_exit, error_exit. rewrite Hempty.
  destruct (usage_guard i); [by eexists|].
  destruct (has_setup_py i); cbn; by eexists.
Qed.

Lemma durs_requires_token_witness :
  (environ_WANDB_TOKEN Sample.no_token = None
   ∨ environ_WANDB_TOKEN Sample.no_token = Some "")
  ∧ (∃ line, Durs.launch_durs Sample.no_token
             = {| trace := [Echo line]; exit_status := 1 |}
             ∧ (usage_guard Sample.no_token = false →
                has_setup_py Sample.no_token = true →
                line = "Please, provide WanDB token."))
  ∧ (∀ token, Quartznet.launch_quartznet (with_token token Sample.no_token)
              = Quartznet.launch_quartznet Sample.no_token).
Proof.
  split; [left; reflexivity|].
  apply (durs_requires_token Sample.no_token). left. reflexivity.
Defined.

(** C2: in the duration prediction script the batch size is [GPU_MEM * 6],
    the total step count is
    [(DATASET_SIZE / (batch_size * NUM_GPU) + 1) * NUM_EPOCHS] with floor
    division, and the job is given [--warmup] as the floor of
    [total_steps / 50]; with the script's constants these are 192, 23100
    and 462. *)
Theorem durs_batch_size_and_steps :
  (GPU_MEM = 32 ∧ NUM_GPU = 8 ∧ Durs.DATASET_SIZE = 354780 ∧ Durs.NUM_EPOCHS = 100)
  ∧ Durs.batch_size = GPU_MEM * 6
  ∧ Durs.total_steps
    = (Durs.DATASET_SIZE `div` (Durs.batch_size * NUM_GPU) + 1) * Durs.NUM_EPOCHS
  ∧ Durs.warmup = Durs.total_steps `div` 50
  ∧ (Durs.batch_size = 192 ∧ Durs.total_steps = 23100 ∧ Durs.warmup = 462)
  ∧ ∀ name_id id token,
      "--warmup=" +:+ pretty (Durs.total_steps `div` 50) +:+ " "
        ∈ Durs.durs_cmd_lines name_id id token
      ∧ Str.occurs_in ("--batch_size=" +:+ pretty (GPU_MEM * 6) +:+ " ")
          (Durs.cmd name_id id token)
      ∧ Str.occurs_in ("--warmup=" +:+ pretty (Durs.total_steps `div` 50) +:+ " ")
          (Durs.cmd name_id id token).
Proof.
  assert (Durs.batch_size = GPU_MEM * 6) as Hb.
  { unfold Durs.batch_size, Durs.batch_size_of, ShArith.mul.
    apply wrap64_id. by vm_compute. }
  assert (Durs.total_steps
    = (Durs.DATASET_SIZE `div` (Durs.batch_size * NUM_GPU) + 1) * Durs.NUM_EPOCHS)
    as Hs.
  { unfold Durs.total_steps. apply total_steps_exact; rewrite ?Hb; by vm_compute. }
  assert (Durs.warmup = Durs.total_steps `div` 50) as Hw.
  { unfold Durs.warmup, Durs.warmup_of.
    apply div_floor; [rewrite Hs, Hb; by vm_compute|lia|by vm_compute]. }
  split_and!; try done.
  intros name_id id token.
  assert ("--warmup=" +:+ pretty (Durs.total_steps `div` 50) +:+ " "
            ∈ Durs.durs_cmd_lines name_id id token) as Hin.
  { rewrite <- Hw. unfold Durs.durs_cmd_lines.
    do 10 apply list_elem_of_further. apply list_elem_of_here. }
  split_and!; [done| |by apply heredoc_line].
  apply heredoc_line. rewrite <- Hb. unfold Durs.durs_cmd_lines.
  do 7 apply list_elem_of_further. apply list_elem_of_here.
Qed.

(** C5: started with no argument, with more than one, or from a directory
    without [setup.py], either script prints one message and exits with
    status 1; nothing that changes state has run: no tmp directory, no
    copy, no upload, no job. *)
Theorem launch_rejects_bad_invocation (s : launch_script) (i : invocation) :
  length (argv i) = 0%nat ∨ (1 < length (argv i))%nat ∨ has_setup_py i = false →
  (∃ line, run_script s i = {| trace := [Echo line]; exit_status := 1 |})
  ∧ Forall (λ a, state_changing a = false) (trace (run_script s i))
  ∧ (length (argv i) ≠ 1%nat → run_script s i = usage_exit i).
Proof.
  intros Hbad.
  assert (length (argv i) ≠ 1%nat → run_script s i = usage_exit i) as Hu.
  { intros Hn. apply usage_guard_count in Hn.
    destruct s; cbn; unfold Durs.launch_durs, Quartznet.launch_quartznet;
      by rewrite Hn. }
  destruct (run_script_cases s i) as [(line & Hrun & _)|(Hg & Hs & _)].
  - rewrite Hrun. split_and!; [by exists line| |by rewrite <- Hrun].
    by repeat constructor.
  - exfalso. destruct Hbad as [H0|[H1|Hno]]; [| |congruence].
    + rewrite usage_guard_count in Hg by lia. done.
    + rewrite usage_guard_count in Hg by lia. done.
Qed.

Lemma launch_rejects_bad_invocation_witness :
  (length (argv Sample.no_args) = 0%nat ∨ (1 < length (argv Sample.no_args))%nat
   ∨ has_setup_py Sample.no_args = false)
  ∧ (∃ line, run_script QuartznetScript Sample.no_args
             = {| trace := [Echo line]; exit_status := 1 |})
  ∧ Forall (λ a, state_changing a = false)
      (trace (run_script QuartznetScript Sample.no_args))
  ∧ (length (argv Sample.no_args) ≠ 1%nat →
     run_script QuartznetScript Sample.no_args = usage_exit Sample.no_args).
Proof.
  split; [left; reflexivity|].
  apply (launch_rejects_bad_invocation QuartznetScript Sample.no_args).
  left. reflexivity.
Defined.

(** C10: one positional argument that is the empty string is rejected like
    a missing argument: the usage message, status 1, the same outcome as
    the run without arguments. *)
Theorem launch_rejects_empty_name (s : launch_script) (i : invocation) :
  argv i = [""] →
  run_script s i = {| trace := [Echo (usage_line i)]; exit_status := 1 |}
  ∧ ∀ i0, argv i0 = [] → script_basename i0 = script_basename i →
          run_script s i0 = run_script s i.
Proof.
  intros Hargv.
  assert (∀ j, argv j = [""] ∨ argv j = [] →
               run_script s j = {| trace := [Echo (usage_line j)]; exit_status := 1 |})
    as Hu.
  { intros j Hj.
    assert (usage_guard j = true) as Hg.
    { apply usage_guard_empty_name. unfold param1. by destruct Hj as [-> | ->]. }
    destruct s; cbn; unfold Durs.launch_durs, Quartznet.launch_quartznet;
      by rewrite Hg. }
  split; [by apply Hu; left|].
  intros i0 H0 Hb. rewrite !Hu by auto. unfold usage_line. by rewrite Hb.
Qed.

Lemma launch_rejects_empty_name_witness :
  argv Sample.empty_name = [""]
  ∧ run_script DursScript Sample.empty_name
    = {| trace := [Echo (usage_line Sample.empty_name)]; exit_status := 1 |}
  ∧ ∀ i0, argv i0 = [] → script_basename i0 = script_basename Sample.empty_name →
          run_script DursScript i0 = run_script DursScript Sample.empty_name.
Proof.
  split; [reflexivity|].
  apply (launch_rejects_empty_name DursScript Sample.empty_name). reflexivity.
Defined.

End LaunchClaims.

(** ** Checkpoint checks *)

Section CheckpointFacts.

Lemma repr_char_plain (c : ascii) :
  plain_char c = true → repr_char squote c = String c "".
Proof.
  unfold plain_char, repr_char. intros Hc.
  apply andb_prop in Hc as [Hc Hb]. apply andb_prop in Hc as [Hc Hq].
  apply andb_prop in Hc as [Hlo Hhi].
  apply negb_true_iff in Hb, Hq. rewrite Hb, Hq. cbn [orb].
  apply N.leb_le in Hlo. apply N.ltb_lt in Hhi.
  repeat (case_match; [match goal with
    | H : (_ =? _)%N = true |- _ => apply N.eqb_eq in H; lia
    | H : (_ || _) = true |- _ =>
        apply orb_prop in H as [H|H];
        [apply N.ltb_lt in H | apply N.leb_le in H]; lia
    end|]).
  done.
Qed.

Lemma repr_body_plain (s : string) :
  plain s = true → repr_body squote s = s.
Proof.
  induction s as [|c r IH]; [done|]. cbn [plain repr_body].
  intros [Hc Hr]%andb_prop. by rewrite repr_char_plain, IH.
Qed.

Lemma plain_no_squote (s : string) :
  plain s = true → contains_char squote s = false.
Proof.
  unfold contains_char.
  induction s as [|c r IH]; [done|].
  cbn [plain existsb String.list_ascii_of_string].
  intros [Hc Hr]%andb_prop. rewrite IH by done.
  unfold plain_char in Hc.
  apply andb_prop in Hc as [[_ Hq]%andb_prop _].
  apply negb_true_iff in Hq. rewrite Ascii.eqb_sym. by rewrite Hq.
Qed.

Lemma repr_plain (s : string) :
  plain s = true → repr s = String squote (s +:+ String squote "").
Proof.
  intros Hs. unfold repr.
  rewrite plain_no_squote by done. cbn [andb].
  by rewrite repr_body_plain.
Qed.

(** The message of the file-not-found error names the file. *)
Lemma enoent_message_names_file (path : string) :
  plain path = true →
  Str.occurs_in path (exn_message (OSError ENOENT (strerror ENOENT) path)).
Proof.
  intros Hp. cbn [exn_message]. rewrite repr_plain by done.
  exists ("[Errno " +:+ pretty ENOENT +:+ "] " +:+ strerror ENOENT +:+ ": '"), "'".
  by vm_compute.
Qed.

End CheckpointFacts.

Section CheckpointClaims.
Import Checkpoint.

Lemma checkpoint_base_lookup (nb : checkpoint_notebook) (model_type base : string) :
  checkpoint_base nb !! model_type = Some base →
  (model_type = "biobert" ∨ model_type = "biomegatron")
  ∧ Forall (λ p, plain p = true) (checked_paths nb base).
Proof.
  intros Hb. destruct nb; cbn [checkpoint_base] in Hb;
    unfold BiobertRE.base_checkpoint_path, BiobertQA.base_checkpoint_path in Hb;
    apply lookup_insert_Some in Hb as [[<- <-]|[_ Hb]];
    try (apply lookup_singleton_Some in Hb as [<- <-]);
    (split; [by auto|by vm_compute; repeat constructor]).
Qed.

Lemma require_file_present (exists_ : string → bool) (path : string) :
  exists_ path = true → require_file exists_ path = Ok ().
Proof. unfold require_file. by intros ->. Qed.

Lemma require_file_absent (exists_ : string → bool) (path : string) :
  exists_ path = false →
  require_file exists_ path = Raise (OSError ENOENT (strerror ENOENT) path).
Proof. unfold require_file. by intros ->. Qed.

Lemma first_missing (exists_ : string → bool) (paths : list string) (p : string) :
  p ∈ paths → exists_ p = false →
  ∃ before q after,
    paths = before ++ q :: after
    ∧ Forall (λ r, exists_ r = true) before ∧ exists_ q = false.
Proof.
  induction paths as [|x paths IH]; intros Hin Hp.
  - by apply elem_of_nil in Hin.
  - destruct (exists_ x) eqn:Hx.
    + apply elem_of_cons in Hin as [->|Hin]; [congruence|].
      destruct (IH Hin Hp) as (before & q & after & -> & Hb & Hq).
      exists (x :: before), q, after. split_and!; [done| |done].
      by constructor.
    + exists [], x, paths. split_and!; [done| |done]. constructor.
Qed.

(** The checks of a cell, one after the other. *)
Lemma checkpoint_cell_checks (nb : checkpoint_notebook) (exists_ : string → bool)
    (model_type base : string) :
  checkpoint_base nb !! model_type = Some base →
  checkpoint_cell nb exists_ model_type
  = foldr (λ p rest, _ ←! require_file exists_ p; rest) (Ok ())
      (checked_paths nb base).
Proof.
  intros Hb.
  destruct nb; cbn [checkpoint_base checked_paths checkpoint_cell foldr] in *;
    unfold BiobertRE.re_checkpoint_cell, BiobertQA.qa_checkpoint_cell, getitem_str;
    rewrite Hb; cbn [bind];
    repeat (destruct (require_file exists_ _) as [[]|]; cbn [bind]; try done).
Qed.

Lemma checks_pass (exists_ : string → bool) (paths : list string) :
  Forall (λ r, exists_ r = true) paths →
  foldr (λ p rest, _ ←! require_file exists_ p; rest) (Ok ()) paths = Ok ().
Proof.
  induction 1 as [|p paths Hp _ IH]; [done|].
  cbn [foldr]. by rewrite require_file_present, IH.
Qed.

Lemma checks_stop (exists_ : string → bool) (before after : list string) (p : string) :
  Forall (λ r, exists_ r = true) before →
  exists_ p = false →
  foldr (λ p rest, _ ←! require_file exists_ p; rest) (Ok ())
    (before ++ p :: after)
  = Raise (OSError ENOENT (strerror ENOENT) p).
Proof.
  intros Hb Hp. induction Hb as [|x before Hx _ IH]; cbn [app foldr].
  - by rewrite require_file_absent.
  - by rewrite require_file_present, IH.
Qed.

(** C4: for each file a notebook checks (encoder weights, head weights in
    the question answering notebook, model configuration): if it does not
    exist, and the files checked before it do, the cell raises [OSError]
    with [ENOENT] for it, and the message of the error contains its path;
    if any checked file is missing the cell raises such an error, for the
    first missing one; if all of them exist the cell raises nothing. *)
Theorem checkpoint_check_spec (nb : checkpoint_notebook)
    (exists_ : string → bool) (model_type base : string) :
  checkpoint_base nb !! model_type = Some base →
  (∀ before p after,
     checked_paths nb base = before ++ p :: after →
     Forall (λ r, exists_ r = true) before →
     exists_ p = false →
     checkpoint_cell nb exists_ model_type
       = Raise (OSError ENOENT (strerror ENOENT) p)
     ∧ is_file_not_found (OSError ENOENT (strerror ENOENT) p) = true
     ∧ Str.occurs_in p (exn_message (OSError ENOENT (strerror ENOENT) p)))
  ∧ (∀ p, p ∈ checked_paths nb base → exists_ p = false →
       ∃ q, q ∈ checked_paths nb base
            ∧ exists_ q = false
            ∧ checkpoint_cell nb exists_ model_type
              = Raise (OSError ENOENT (strerror ENOENT) q)
            ∧ Str.occurs_in q (exn_message (OSError ENOENT (strerror ENOENT) q)))
  ∧ ((∀ p, p ∈ checked_paths nb base → exists_ p = true) →
     checkpoint_cell nb exists_ model_type = Ok ()).
Proof.
  intros Hb.
  destruct (checkpoint_base_lookup _ _ _ Hb) as [_ Hplain].
  rewrite (checkpoint_cell_checks _ _ _ _ Hb).
  assert (∀ before p after,
     checked_paths nb base = before ++ p :: after →
     Forall (λ r, exists_ r = true) before →
     exists_ p = false →
     foldr (λ p rest, _ ←! require_file exists_ p; rest) (Ok ())
       (checked_paths nb base)
       = Raise (OSError ENOENT (strerror ENOENT) p)
     ∧ is_file_not_found (OSError ENOENT (strerror ENOENT) p) = true
     ∧ Str.occurs_in p (exn_message (OSError ENOENT (strerror ENOENT) p)))
    as Hfirst.
  { intros before p after Hpaths Hbefore Hp.
    split_and!; [|done|].
    - rewrite Hpaths. by apply checks_stop.
    - apply enoent_message_names_file.
      apply (proj1 (Forall_forall _ _) Hplain).
      rewrite Hpaths. apply elem_of_app. right. apply list_elem_of_here. }
  split_and!; [exact Hfirst| |].
  - intros p Hin Hp.
    destruct (first_missing _ _ _ Hin Hp) as (before & q & after & Hpaths & Hbefore & Hq).
    destruct (Hfirst _ _ _ Hpaths Hbefore Hq) as (Hraise & _ & Hmsg).
    exists q. split_and!; [|done..].
    rewrite Hpaths. apply elem_of_app. right. apply list_elem_of_here.
  - intros Hall. apply checks_pass. by apply Forall_forall.
Qed.

End CheckpointClaims.

(** ** Inference decoding *)

Section DecodeFacts.
Import Punctuation.
Local Open Scope nat_scope.

Lemma index_lt {A : Type} (l : list A) (j : nat) :
  j < length l → ∃ x, index l j = Ok x.
Proof.
  intros Hj. unfold index.
  destruct (lookup_lt_is_Some_2 l j Hj) as [x ->]. by exists x.
Qed.

Lemma drop_cons_lookup {A : Type} (l : list A) (j : nat) (x : A) (r : list A) :
  drop j l = x :: r → l !! j = Some x ∧ drop (S j) l = r.
Proof.
  intros Hd. split.
  - rewrite <- (Nat.add_0_r j), <- lookup_drop. by rewrite Hd.
  - change (S j) with (1 + j). rewrite Nat.add_comm, <- drop_drop. by rewrite Hd.
Qed.

Section Loop.
Variables punct_labels capit_labels : gmap Z string.
Variables punct_pred capit_pred : list Z.

(** With enough predictions left, no subscript of the loop is out of
    range. *)
Lemma decode_words_in_bounds (words : list string) (j : nat) (output : string) :
  j + length words ≤ length punct_pred →
  j + length words ≤ length capit_pred →
  decode_words punct_labels capit_labels punct_pred capit_pred j words output
    ≠ Raise IndexError.
Proof.
  revert j output. induction words as [|w ws IH]; intros j output Hp Hc; [done|].
  cbn [decode_words length] in *.
  destruct (index_lt punct_pred j) as [p ->]; [lia|].
  destruct (index_lt capit_pred j) as [c ->]; [lia|]. cbn [bind].
  unfold getitem_int.
  destruct (punct_labels !! p) as [pl|]; cbn [bind]; [|done].
  destruct (capit_labels !! c) as [cl|]; cbn [bind]; [|done].
  apply IH; lia.
Qed.

End Loop.

(** One round of the outer loop on a query that decodes: two lines are
    printed. *)
Lemma decode_loop_prints (inf : inference) (i : nat) (query : string)
    (qs stdout : list string) (combined : string) :
  decode_query inf i query = Ok combined →
  decode_loop inf i (query :: qs) stdout
  = decode_loop inf (S i) qs
      (stdout ++ ["Query: " +:+ query; "Combined: " +:+ combined +:+ newline]).
Proof.
  intros Hq. cbn [decode_loop]. rewrite Hq.
  by rewrite <- (assoc_L (++)).
Qed.

End DecodeFacts.

Section NotebookClaims.
Import Punctuation.
Local Open Scope nat_scope.

Lemma checkpoint_check_spec_witness :
  checkpoint_base QuestionAnswering !! "biobert" = Some "./checkpoints/biobert/qa_squad"
  ∧ (∀ before p after,
       checked_paths QuestionAnswering "./checkpoints/biobert/qa_squad"
         = before ++ p :: after →
       Forall (λ r, SampleFs.no_head r = true) before →
       SampleFs.no_head p = false →
       checkpoint_cell QuestionAnswering SampleFs.no_head "biobert"
         = Raise (OSError ENOENT (strerror ENOENT) p)
       ∧ is_file_not_found (OSError ENOENT (strerror ENOENT) p) = true
       ∧ Str.occurs_in p (exn_message (OSError ENOENT (strerror ENOENT) p)))
  ∧ (∀ p, p ∈ checked_paths QuestionAnswering "./checkpoints/biobert/qa_squad" →
       SampleFs.no_head p = false →
       ∃ q, q ∈ checked_paths QuestionAnswering "./checkpoints/biobert/qa_squad"
            ∧ SampleFs.no_head q = false
            ∧ checkpoint_cell QuestionAnswering SampleFs.no_head "biobert"
              = Raise (OSError ENOENT (strerror ENOENT) q)
            ∧ Str.occurs_in q (exn_message (OSError ENOENT (strerror ENOENT) q)))
  ∧ ((∀ p, p ∈ checked_paths QuestionAnswering "./checkpoints/biobert/qa_squad" →
        SampleFs.no_head p = true) →
     checkpoint_cell QuestionAnswering SampleFs.no_head "biobert" = Ok ()).
Proof.
  split; [by vm_compute|].
  apply (checkpoint_check_spec QuestionAnswering SampleFs.no_head "biobert"
           "./checkpoints/biobert/qa_squad").
  by vm_compute.
Defined.

(** C9: once the length guard has passed, every [punct_pred[j]] and
    [capit_pred[j]] of the per-word loop is within the array, for each
    index [j] of a word, and the loop does not end in [IndexError]. *)
Theorem decode_index_in_bounds (punct_labels capit_labels : gmap Z string)
    (punct_pred capit_pred : list Z) (words : list string) :
  negb (length punct_pred =? length words)
    || negb (length capit_pred =? length words) = false →
  (∀ j, j < length words →
        ∃ p c, index punct_pred j = Ok p ∧ index capit_pred j = Ok c)
  ∧ (∀ output,
       decode_words punct_labels capit_labels punct_pred capit_pred 0 words output
       ≠ Raise IndexError).
Proof.
  intros [Hp Hc]%orb_false_elim.
  apply negb_false_iff, Nat.eqb_eq in Hp, Hc.
  split.
  - intros j Hj.
    destruct (index_lt punct_pred j) as [p ->]; [lia|].
    destruct (index_lt capit_pred j) as [c ->]; [lia|]. eauto.
  - intros output. apply decode_words_in_bounds; cbn; lia.
Qed.

Lemma decode_index_in_bounds_witness :
  negb (length [1%Z; 2%Z] =? length ["yes"; "please"])
    || negb (length [1%Z; 0%Z] =? length ["yes"; "please"]) = false
  ∧ (∀ j, j < length ["yes"; "please"] →
          ∃ p c, index [1%Z; 2%Z] j = Ok p ∧ index [1%Z; 0%Z] j = Ok c)
  ∧ (∀ output,
       decode_words (ids_to_labels SampleInference.punct_ids)
         (ids_to_labels SampleInference.capit_ids)
         [1%Z; 2%Z] [1%Z; 0%Z] 0 ["yes"; "please"] output
       ≠ Raise IndexError).
Proof.
  split; [reflexivity|].
  apply (decode_index_in_bounds (ids_to_labels SampleInference.punct_ids)
           (ids_to_labels SampleInference.capit_ids)
           [1%Z; 2%Z] [1%Z; 0%Z] ["yes"; "please"]).
  reflexivity.
Defined.

Lemma str_lower_all_lower (s : string) : all_lower s = true → str_lower s = s.
Proof.
  induction s as [|c r IH]; [done|]. cbn [all_lower str_lower].
  intros [Hc Hr]%andb_prop. apply negb_true_iff in Hc.
  unfold lower. by rewrite Hc, IH.
Qed.

(** On a word without upper-case letters after its first character,
    [capitalize] only upper-cases the first letter. *)
Lemma capitalize_upper_first (w : string) :
  lower_tail w = true → capitalize w = upper_first w.
Proof.
  destruct w as [|c r]; [done|]. cbn. intros Hr.
  by rewrite str_lower_all_lower.
Qed.

Lemma render_words_upper_first (words pls cls : list string) :
  Forall (λ w, lower_tail w = true) words →
  render_words capitalize words pls cls = render_words upper_first words pls cls.
Proof.
  intros Hw. revert pls cls.
  induction Hw as [|w ws Hl _ IH]; intros pls cls; [done|].
  destruct pls as [|pl pls]; [done|]. destruct cls as [|cl cls]; [done|].
  cbn [render_words]. unfold render_word.
  by rewrite IH, capitalize_upper_first.
Qed.

(** C6, as stated, fails on a word in mixed case: [str.capitalize] also
    lower-cases the letters after the first, so [iPhone] is printed as
    [Iphone] where upper-casing the first letter gives [IPhone]. *)
Lemma capitalize_lowers_rest :
  decode_query SampleInference.mixed_case 0 "the iPhone" = Ok "The Iphone."
  ∧ combined_spec upper_first (split (strip "the iPhone")) ["O"; "."] ["U"; "U"]
    = "The IPhone."
  ∧ ¬ (∀ inf i query punct_pred capit_pred pls cls,
         masked (punct_preds inf) (subtokens_mask inf) i = Ok punct_pred →
         masked (capit_preds inf) (subtokens_mask inf) i = Ok capit_pred →
         length punct_pred = length (split (strip query)) →
         length capit_pred = length (split (strip query)) →
         Forall2 (λ id l, ids_to_labels (punct_label_ids inf) !! id = Some l)
           punct_pred pls →
         Forall2 (λ id l, ids_to_labels (capit_label_ids inf) !! id = Some l)
           capit_pred cls →
         decode_query inf i query
         = Ok (combined_spec upper_first (split (strip query)) pls cls)).
Proof.
  split_and!; [by vm_compute..|].
  intros Hall.
  specialize (Hall SampleInference.mixed_case 0 "the iPhone"
                [0%Z; 2%Z] [1%Z; 1%Z] ["O"; "."] ["U"; "U"]).
  assert (decode_query SampleInference.mixed_case 0 "the iPhone"
          = Ok (combined_spec upper_first (split (strip "the iPhone"))
                  ["O"; "."] ["U"; "U"])) as Heq.
  { apply Hall; try (by vm_compute); repeat constructor; by vm_compute. }
  by vm_compute in Heq.
Qed.

(** The notebook's documented output for two of its queries. *)
Example decode_cell_helpful :
  decode_cell SampleInference.helpful
  = ([ "Query: can i help you"; "Combined: Can I help you?" +:+ newline;
       "Query: yes please"; "Combined: Yes, please." +:+ newline ], Ok ()).
Proof. by vm_compute. Qed.

End NotebookClaims.

(** ** Decoding over Python strings *)

Section UniDecode.
Import Uni.
Local Open Scope nat_scope.

Variable isspace : N → bool.
Variable capitalize : ustr → ustr.

Lemma space_code : space = [32%N].
Proof. reflexivity. Qed.

Lemma u_rstrip_space (s : ustr) :
  isspace 32%N = true → u_rstrip isspace (s ++ space) = u_rstrip isspace s.
Proof.
  intros Hsp. rewrite space_code. induction s as [|c r IH].
  - cbn. by rewrite Hsp.
  - cbn [app u_rstrip]. by rewrite IH.
Qed.

Lemma u_lstrip_space (s : ustr) :
  isspace 32%N = true →
  u_lstrip isspace (s ++ space) = u_lstrip isspace s ++ space
  ∨ (u_lstrip isspace (s ++ space) = [] ∧ u_lstrip isspace s = []).
Proof.
  intros Hsp. rewrite space_code. induction s as [|c r IH].
  - right. cbn. by rewrite Hsp.
  - cbn [app u_lstrip]. destruct (isspace c); [done|by left].
Qed.

(** A trailing space does not survive [strip]. *)
Lemma u_strip_space (s : ustr) :
  isspace 32%N = true → u_strip isspace (s ++ space) = u_strip isspace s.
Proof.
  intros Hsp. unfold u_strip.
  destruct (u_lstrip_space s Hsp) as [->|[-> ->]]; [|done].
  by apply u_rstrip_space.
Qed.

Lemma u_trail_join (rendered : list ustr) :
  rendered ≠ [] → u_trail rendered = u_join space rendered ++ space.
Proof.
  induction rendered as [|r rs IH]; [done|]. intros _.
  destruct rs as [|r' rs]; [done|].
  change (u_trail (r :: r' :: rs)) with (r ++ space ++ u_trail (r' :: rs)).
  rewrite IH by done.
  change (u_join space (r :: r' :: rs))
    with (r ++ space ++ u_join space (r' :: rs)).
  by rewrite <- !(assoc_L (++)).
Qed.

(** Appending a space after every word and stripping is joining with
    single spaces and stripping. *)
Lemma u_strip_trail (rendered : list ustr) :
  isspace 32%N = true →
  u_strip isspace (u_trail rendered) = u_strip isspace (u_join space rendered).
Proof.
  intros Hsp. destruct rendered as [|r rs]; [done|].
  rewrite u_trail_join by done. by apply u_strip_space.
Qed.

Section Loop.
Variables punct_labels capit_labels : gmap Z ustr.
Variables punct_pred capit_pred : list Z.

(** What the per-word loop raises comes from its subscripts. *)
Lemma u_decode_words_raises (words : list ustr) (j : nat) (output : ustr)
    (o : origin) (e : Py.exn) :
  u_decode_words capitalize punct_labels capit_labels punct_pred capit_pred
    j words output = Raised o e →
  o = Subscript.
Proof.
  revert j output. induction words as [|w ws IH]; intros j output; [done|].
  cbn [u_decode_words]. unfold u_index, u_getitem_int.
  destruct (punct_pred !! j) as [p|]; cbn [obind]; [|by intros [= <- _]].
  destruct (punct_labels !! p) as [pl|]; cbn [obind]; [|by intros [= <- _]].
  destruct (capit_pred !! j) as [c|]; cbn [obind]; [|by intros [= <- _]].
  destruct (capit_labels !! c) as [cl|]; cbn [obind]; [|by intros [= <- _]].
  apply IH.
Qed.

(** When every prediction has a label, the loop appends the rendered
    words, each followed by a space. *)
Lemma u_decode_words_ok (words : list ustr) :
  ∀ (j : nat) (output : ustr) (pls cls : list ustr),
    Forall2 (λ id l, punct_labels !! id = Some l) (drop j punct_pred) pls →
    Forall2 (λ id l, capit_labels !! id = Some l) (drop j capit_pred) cls →
    length pls = length words →
    length cls = length words →
    u_decode_words capitalize punct_labels capit_labels punct_pred capit_pred
      j words output
    = Done (output ++ u_trail (u_render_words capitalize words pls cls)).
Proof.
  induction words as [|w ws IH]; intros j output pls cls Hp Hc Hlp Hlc.
  - cbn. by rewrite app_nil_r.
  - destruct pls as [|pl pls]; [done|]. destruct cls as [|cl cls]; [done|].
    apply Forall2_cons_inv_r in Hp as (p & rp & Hpl & Hp & Hdp).
    apply Forall2_cons_inv_r in Hc as (c & rc & Hcl & Hc & Hdc).
    apply drop_cons_lookup in Hdp as [Hpj <-].
    apply drop_cons_lookup in Hdc as [Hcj <-].
    cbn [u_decode_words]. unfold u_index, u_getitem_int.
    rewrite Hpj. cbn [obind]. rewrite Hpl. cbn [obind].
    rewrite Hcj. cbn [obind]. rewrite Hcl. cbn [obind].
    rewrite (IH (S j) _ pls cls) by (done || (cbn in *; lia)).
    f_equal. cbn [u_render_words u_trail foldr]. unfold u_render_word.
    destruct (negb (bool_decide (pl = other)));
      rewrite <- ?(assoc_L (++)), ?app_nil_r; done.
Qed.

End Loop.

Lemma u_masked_ok (preds : list (list Z)) (mask : list (list bool)) (i : nat)
    (pred : list Z) :
  u_masked preds mask i = Done pred →
  ∃ row m, u_index preds i = Done row ∧ u_index mask i = Done m
           ∧ u_bool_index row m = Done pred.
Proof.
  unfold u_masked. destruct (u_index preds i) as [row|]; [|done].
  destruct (u_index mask i) as [m|]; [|done]. cbn [obind]. eauto.
Qed.

(** The loop body once both masked prediction arrays are there: the guard,
    then the per-word loop, then [strip]. *)
Lemma u_decode_query_masked (inf : u_inference) (i : nat) (query : ustr)
    (punct_pred capit_pred : list Z) :
  u_masked (u_punct_preds inf) (u_subtokens_mask inf) i = Done punct_pred →
  u_masked (u_capit_preds inf) (u_subtokens_mask inf) i = Done capit_pred →
  u_decode_query isspace capitalize inf i query =
    let words := u_split isspace (u_strip isspace query) in
    if negb (length punct_pred =? length words)
       || negb (length capit_pred =? length words)
    then Raised RaiseStatement Punctuation.length_error
    else
      output ←? u_decode_words capitalize
                  (u_ids_to_labels (u_punct_label_ids inf))
                  (u_ids_to_labels (u_capit_label_ids inf))
                  punct_pred capit_pred 0 words [];
      Done (u_strip isspace output).
Proof.
  intros (rp & m & Hrp & Hm & Hp)%u_masked_ok (rc & m' & Hrc & Hm' & Hc)%u_masked_ok.
  assert (m' = m) as -> by congruence.
  unfold u_decode_query.
  rewrite Hrp. cbn [obind]. rewrite Hm. cbn [obind]. rewrite Hp. cbn [obind].
  rewrite Hrc. cbn [obind]. rewrite Hc. cbn [obind].
  done.
Qed.

(** The [raise] statement of the loop body is reached exactly on a
    length mismatch, and what it raises is the length error. *)
Lemma u_decode_query_raise (inf : u_inference) (i : nat) (query : ustr)
    (punct_pred capit_pred : list Z) (e : Py.exn) :
  u_masked (u_punct_preds inf) (u_subtokens_mask inf) i = Done punct_pred →
  u_masked (u_capit_preds inf) (u_subtokens_mask inf) i = Done capit_pred →
  u_decode_query isspace capitalize inf i query = Raised RaiseStatement e
  ↔ e = Punctuation.length_error
    ∧ (length punct_pred ≠ length (u_split isspace (u_strip isspace query))
       ∨ length capit_pred ≠ length (u_split isspace (u_strip isspace query))).
Proof.
  intros Hp Hc. rewrite (u_decode_query_masked _ _ _ _ _ Hp Hc). cbn zeta.
  destruct (negb (length punct_pred =? _) || negb (length capit_pred =? _)) eqn:Hg.
  - apply orb_prop in Hg.
    split.
    + intros [= <-]. split; [done|].
      destruct Hg as [Hg|Hg]; apply negb_true_iff, Nat.eqb_neq in Hg; auto.
    + by intros [-> _].
  - apply orb_false_elim in Hg as [Hg1 Hg2].
    apply negb_false_iff, Nat.eqb_eq in Hg1, Hg2.
    split; [|intros [_ [?|?]]; done].
    destruct (u_decode_words _ _ _ _ _ 0 _ []) as [out|o' e'] eqn:Hw;
      cbn [obind]; [done|].
    apply u_decode_words_raises in Hw as ->. done.
Qed.

Lemma u_decode_query_raises (inf : u_inference) (i : nat) (query : ustr) (e : Py.exn) :
  u_decode_query isspace capitalize inf i query = Raised RaiseStatement e →
  e = Punctuation.length_error
  ∧ ∃ punct_pred capit_pred,
      u_masked (u_punct_preds inf) (u_subtokens_mask inf) i = Done punct_pred
      ∧ u_masked (u_capit_preds inf) (u_subtokens_mask inf) i = Done capit_pred
      ∧ (length punct_pred ≠ length (u_split isspace (u_strip isspace query))
         ∨ length capit_pred ≠ length (u_split isspace (u_strip isspace query))).
Proof.
  intros Hq.
  destruct (u_masked (u_punct_preds inf) (u_subtokens_mask inf) i) as [pp|o1 e1] eqn:Hp.
  2: { exfalso. revert Hq Hp. unfold u_decode_query, u_masked, u_bool_index, u_index.
       repeat (case_match; cbn [obind]); intros; simplify_eq; done. }
  destruct (u_masked (u_capit_preds inf) (u_subtokens_mask inf) i) as [cp|o2 e2] eqn:Hc.
  2: { exfalso. revert Hq Hp Hc. unfold u_decode_query, u_masked, u_bool_index, u_index.
       repeat (case_match; cbn [obind]); intros; simplify_eq; done. }
  destruct (proj1 (u_decode_query_raise inf i query pp cp e Hp Hc) Hq) as [He Hlen].
  split; [done|]. by exists pp, cp.
Qed.

Lemma u_decode_loop_raises (inf : u_inference) (qs : list ustr) :
  ∀ (i : nat) (stdout : list ustr) (o : origin) (e : Py.exn),
    (u_decode_loop isspace capitalize inf i qs stdout).2 = Raised o e →
    ∃ k query, qs !! k = Some query
               ∧ u_decode_query isspace capitalize inf (i + k) query = Raised o e.
Proof.
  induction qs as [|q qs IH]; intros i stdout o e; [done|].
  cbn [u_decode_loop].
  destruct (u_decode_query isspace capitalize inf i q) as [combined|o' e'] eqn:Hq.
  - intros (k & query & Hk & Hr)%IH. exists (S k), query.
    split; [done|]. by rewrite Nat.add_succ_r.
  - cbn. intros [= <- <-]. exists 0, q. by rewrite Nat.add_0_r.
Qed.

(** The loop stops at the first query that does not decode: the queries
    before it print both their lines, the failing one only its first. *)
Lemma u_decode_loop_stops (inf : u_inference) (before : list ustr) :
  ∀ (i : nat) (stdout : list ustr) (query : ustr) (after : list ustr)
    (o : origin) (e : Py.exn),
    (∀ k q, before !! k = Some q →
            ∃ combined, u_decode_query isspace capitalize inf (i + k) q = Done combined) →
    u_decode_query isspace capitalize inf (i + length before) query = Raised o e →
    (u_decode_loop isspace capitalize inf i (before ++ query :: after) stdout).2
    = Raised o e.
Proof.
  induction before as [|b bs IH]; intros i stdout query after o e Hok Hq.
  - cbn [app u_decode_loop length] in *. rewrite Nat.add_0_r in Hq. by rewrite Hq.
  - cbn [app u_decode_loop].
    destruct (Hok 0 b eq_refl) as [combined Hb]. rewrite Nat.add_0_r in Hb.
    rewrite Hb. apply IH.
    + intros k q Hk. specialize (Hok (S k) q Hk). by rewrite Nat.add_succ_r in Hok.
    + cbn [length] in Hq. by rewrite Nat.add_succ_r in Hq.
Qed.

(** *** White space at the ends *)

Lemma u_lstrip_head (s : ustr) (c : N) :
  head (u_lstrip isspace s) = Some c → isspace c = false.
Proof.
  induction s as [|a r IH]; [done|]. cbn [u_lstrip].
  destruct (isspace a) eqn:Ha; [done|]. by intros [= <-].
Qed.

Lemma u_rstrip_head (s : ustr) (c : N) :
  head (u_rstrip isspace s) = Some c → head s = Some c.
Proof.
  destruct s as [|a r]; [done|]. cbn [u_rstrip].
  destruct (u_rstrip isspace r); [|done]. by destruct (isspace a).
Qed.

Lemma u_rstrip_last (s : ustr) (c : N) :
  last (u_rstrip isspace s) = Some c → isspace c = false.
Proof.
  induction s as [|a r IH]; [done|]. cbn [u_rstrip].
  destruct (u_rstrip isspace r) as [|b r'] eqn:Hr.
  - destruct (isspace a) eqn:Ha; [done|]. by intros [= <-].
  - intros Hl. apply IH. by rewrite last_cons_cons in Hl.
Qed.

Lemma u_strip_ends (s : ustr) (c : N) :
  head (u_strip isspace s) = Some c ∨ last (u_strip isspace s) = Some c →
  isspace c = false.
Proof.
  unfold u_strip. intros [Hh|Hl].
  - by apply u_rstrip_head, u_lstrip_head in Hh.
  - by apply u_rstrip_last in Hl.
Qed.

Lemma u_lstrip_fixed (s : ustr) :
  (∀ c, head s = Some c → isspace c = false) → u_lstrip isspace s = s.
Proof.
  destruct s as [|a r]; [done|]. intros Hh. cbn [u_lstrip].
  by rewrite (Hh a eq_refl).
Qed.

Lemma u_rstrip_fixed (s : ustr) :
  (∀ c, last s = Some c → isspace c = false) → u_rstrip isspace s = s.
Proof.
  induction s as [|a r IH]; [done|]. intros Hl. cbn [u_rstrip].
  destruct r as [|b r'].
  - cbn. by rewrite (Hl a eq_refl).
  - rewrite IH; [done|]. intros c Hc. apply Hl. by rewrite last_cons_cons.
Qed.

(** A text with no white space at either end is left alone by [strip]. *)
Lemma u_strip_fixed (s : ustr) :
  (∀ c, head s = Some c → isspace c = false) →
  (∀ c, last s = Some c → isspace c = false) →
  u_strip isspace s = s.
Proof.
  intros Hh Hl. unfold u_strip. rewrite (u_lstrip_fixed s Hh).
  by apply u_rstrip_fixed.
Qed.

(** *** Words *)

Lemma u_is_word_snoc (word : ustr) (c : N) :
  word = [] ∨ u_is_word isspace word = true → isspace c = false →
  u_is_word isspace (word ++ [c]) = true.
Proof.
  intros Hw Hc. unfold u_is_word. apply andb_true_intro. split.
  - apply negb_true_iff, bool_decide_eq_false. by destruct word.
  - rewrite forallb_app. cbn. rewrite Hc. cbn.
    destruct Hw as [->|Hw]; [done|].
    unfold u_is_word in Hw. apply andb_prop in Hw as [_ ->]. done.
Qed.

Lemma u_split_go_words (s : ustr) :
  ∀ word, word = [] ∨ u_is_word isspace word = true →
          Forall (λ w, u_is_word isspace w = true) (u_split_go isspace word s).
Proof.
  induction s as [|c r IH]; intros word Hw; cbn [u_split_go].
  - destruct word as [|a word]; [constructor|].
    destruct Hw as [?|Hw]; [done|]. by repeat constructor.
  - destruct (isspace c) eqn:Hc.
    + destruct word as [|a word]; [by apply IH; left|].
      destruct Hw as [?|Hw]; [done|].
      constructor; [done|]. by apply IH; left.
    + apply IH. right. by apply u_is_word_snoc.
Qed.

(** What [str.split] returns are words: not empty and without white
    space. *)
Lemma u_split_words (s : ustr) :
  Forall (λ w, u_is_word isspace w = true) (u_split isspace s).
Proof. apply u_split_go_words. by left. Qed.

Lemma u_is_word_head (w : ustr) :
  u_is_word isspace w = true → ∃ c, head w = Some c ∧ isspace c = false.
Proof.
  unfold u_is_word. destruct w as [|c r]; [done|]. cbn.
  intros [Hc _]%andb_prop. apply negb_true_iff in Hc. by exists c.
Qed.

Lemma u_is_word_last (w : ustr) (c : N) :
  u_is_word isspace w = true → last w = Some c → isspace c = false.
Proof.
  unfold u_is_word. intros [_ Hall]%andb_prop Hl.
  rewrite forallb_forall in Hall.
  apply negb_true_iff, Hall, list_elem_of_In.
  by apply last_Some_elem_of.
Qed.

Lemma u_join_head (w : ustr) (ws : list ustr) (c : N) :
  w ≠ [] → head (u_join space (w :: ws)) = Some c → head w = Some c.
Proof.
  intros Hne. destruct w as [|a w]; [done|]. by destruct ws.
Qed.

Lemma u_join_last (ws : list ustr) (c : N) :
  Forall (λ w, w ≠ []) ws →
  last (u_join space ws) = Some c → ∃ w, last ws = Some w ∧ last w = Some c.
Proof.
  induction 1 as [|w ws Hw Hall IH]; [done|].
  destruct ws as [|w' ws]; [by eauto|].
  change (u_join space (w :: w' :: ws)) with (w ++ space ++ u_join space (w' :: ws)).
  rewrite !last_app.
  destruct (last (u_join space (w' :: ws))) as [c'|] eqn:Hl.
  - intros [= <-]. destruct IH as (w0 & Hw0 & Hc0); [done|].
    exists w0. by rewrite last_cons_cons.
  - exfalso. apply last_None in Hl. apply Forall_cons in Hall as [Hw' _].
    destruct w'; [done|]. by destruct ws.
Qed.

Lemma u_is_word_nonempty (ws : list ustr) :
  Forall (λ w, u_is_word isspace w = true) ws → Forall (λ w, w ≠ []) ws.
Proof.
  intros Hall. eapply Forall_impl; [exact Hall|]. intros w Hw ->. done.
Qed.

(** Words joined by single spaces are left alone by [strip]. *)
Lemma u_strip_joined_words (ws : list ustr) :
  Forall (λ w, u_is_word isspace w = true) ws →
  u_strip isspace (u_join space ws) = u_join space ws.
Proof.
  intros Hall. apply u_strip_fixed.
  - intros c Hc. destruct ws as [|w ws]; [done|].
    apply Forall_cons in Hall as [Hw _].
    destruct (u_is_word_head w Hw) as (a & Ha & Hsp).
    apply u_join_head in Hc; [congruence|]. by intros ->.
  - intros c Hc.
    destruct (u_join_last ws c (u_is_word_nonempty ws Hall) Hc) as (w & Hw & Hl).
    apply (u_is_word_last w); [|done].
    rewrite Forall_forall in Hall. apply Hall.
    by apply last_Some_elem_of.
Qed.

(** Stripping before splitting changes nothing: [query.strip().split()]
    is [query.split()]. *)
Lemma u_split_go_lstrip (s : ustr) :
  u_split_go isspace [] (u_lstrip isspace s) = u_split_go isspace [] s.
Proof.
  induction s as [|c r IH]; [done|]. cbn [u_lstrip u_split_go].
  destruct (isspace c) eqn:Hc; [done|]. cbn [u_split_go]. by rewrite Hc.
Qed.

Lemma u_split_go_blank (s word : ustr) :
  u_rstrip isspace s = [] →
  u_split_go isspace word s = match word with [] => [] | _ => [word] end.
Proof.
  revert word. induction s as [|c r IH]; intros word; [done|].
  cbn [u_rstrip u_split_go].
  destruct (u_rstrip isspace r) eqn:Hr; [|done].
  destruct (isspace c); [|done]. intros _.
  rewrite (IH [] eq_refl). by destruct word.
Qed.

Lemma u_split_go_cons (word : ustr) (c : N) (r : ustr) :
  u_split_go isspace word (c :: r)
  = if isspace c then
      match word with
      | [] => u_split_go isspace [] r
      | _ => word :: u_split_go isspace [] r
      end
    else u_split_go isspace (word ++ [c]) r.
Proof. done. Qed.

Lemma u_split_go_rstrip (s : ustr) :
  ∀ word, u_split_go isspace word (u_rstrip isspace s) = u_split_go isspace word s.
Proof.
  induction s as [|c r IH]; intros word; [done|]. cbn [u_rstrip].
  destruct (u_rstrip isspace r) as [|b r'] eqn:Hr.
  - destruct (isspace c) eqn:Hc; cbn [u_split_go]; rewrite ?Hc; cbn [u_split_go].
    + by rewrite (u_split_go_blank r [] Hr).
    + by rewrite (u_split_go_blank r _ Hr).
  - rewrite (u_split_go_cons word c (b :: r')), (u_split_go_cons word c r).
    destruct (isspace c); [destruct word|]; by rewrite IH.
Qed.

Lemma u_split_strip (s : ustr) :
  u_split isspace (u_strip isspace s) = u_split isspace s.
Proof.
  unfold u_split, u_strip. by rewrite u_split_go_rstrip, u_split_go_lstrip.
Qed.

Lemma u_render_words_other (words : list ustr) :
  u_render_words capitalize words
    (replicate (length words) other) (replicate (length words) other)
  = words.
Proof.
  induction words as [|w ws IH]; [done|].
  cbn [length replicate u_render_words]. rewrite IH.
  unfold u_render_word. rewrite bool_decide_eq_true_2 by done.
  cbn. by rewrite app_nil_r.
Qed.

Lemma Forall2_replicate_ulabel (labels : gmap Z ustr) (pred : list Z) (l : ustr) :
  Forall (λ id, labels !! id = Some l) pred →
  Forall2 (λ id l', labels !! id = Some l') pred (replicate (length pred) l).
Proof. induction 1; constructor; done. Qed.

Lemma u_select_length {A : Type} (a : list A) (mask : list bool) :
  length a = length mask → length (Py.select a mask) = Transcript.count_true mask.
Proof.
  revert mask. induction a as [|x a IH]; intros [|b mask] Hlen; try done.
  cbn [Py.select Transcript.count_true]. injection Hlen as Hlen.
  destruct b; cbn [length]; rewrite IH by done; lia.
Qed.

Lemma u_masked_select (preds : list (list Z)) (mask : list (list bool)) (i : nat)
    (row : list Z) (m : list bool) :
  preds !! i = Some row → mask !! i = Some m → length row = length m →
  u_masked preds mask i = Done (Py.select row m).
Proof.
  intros Hr Hm Hlen. unfold u_masked, u_index, u_bool_index.
  rewrite Hr, Hm. cbn [obind]. apply Nat.eqb_eq in Hlen. by rewrite Hlen.
Qed.

End UniDecode.

Section UniClaims.
Import Uni.
Local Open Scope nat_scope.

(** C6, amended: for a query whose masked prediction arrays are as long
    as its list of white-space separated words, and whose predicted ids
    have labels, the text printed after [Combined: ] is built word by
    word: the word, turned by [str.capitalize] exactly when its
    capitalization label is not [O], followed by its punctuation label
    exactly when that is not [O]; the words joined by single spaces and
    the result stripped. This holds of every query, whatever the
    interpreter's tables of white space and of capitalization are, as
    long as the space character is white space. *)
Theorem decode_query_combined (isspace : N → bool) (capitalize : ustr → ustr)
    (inf : u_inference) (i : nat) (query : ustr)
    (punct_pred capit_pred : list Z) (pls cls : list ustr) :
  isspace 32%N = true →
  u_masked (u_punct_preds inf) (u_subtokens_mask inf) i = Done punct_pred →
  u_masked (u_capit_preds inf) (u_subtokens_mask inf) i = Done capit_pred →
  length punct_pred = length (u_split isspace query) →
  length capit_pred = length (u_split isspace query) →
  Forall2 (λ id l, u_ids_to_labels (u_punct_label_ids inf) !! id = Some l)
    punct_pred pls →
  Forall2 (λ id l, u_ids_to_labels (u_capit_label_ids inf) !! id = Some l)
    capit_pred cls →
  u_decode_query isspace capitalize inf i query
  = Done (u_strip isspace
            (u_join space
               (u_render_words capitalize (u_split isspace query) pls cls))).
Proof.
  intros Hsp Hp Hc Hlp Hlc Hpl Hcl.
  rewrite (u_decode_query_masked _ _ _ _ _ _ _ Hp Hc). cbn zeta.
  rewrite u_split_strip, Hlp, Hlc, Nat.eqb_refl. cbn [negb orb].
  rewrite (u_decode_words_ok _ _ _ _ _ _ 0 [] pls cls).
  - cbn [obind app]. f_equal. by apply u_strip_trail.
  - by rewrite drop_0.
  - by rewrite drop_0.
  - apply Forall2_length in Hpl. lia.
  - apply Forall2_length in Hcl. lia.
Qed.

Lemma decode_query_combined_witness :
  unicode_isspace 32%N = true
  ∧ u_masked (u_punct_preds UniSample.mixed_case)
      (u_subtokens_mask UniSample.mixed_case) 0 = Done [0%Z; 2%Z]
  ∧ u_masked (u_capit_preds UniSample.mixed_case)
      (u_subtokens_mask UniSample.mixed_case) 0 = Done [1%Z; 1%Z]
  ∧ length [0%Z; 2%Z] = length (u_split unicode_isspace (lit "the iPhone"))
  ∧ length [1%Z; 1%Z] = length (u_split unicode_isspace (lit "the iPhone"))
  ∧ Forall2 (λ id l, u_ids_to_labels (u_punct_label_ids UniSample.mixed_case) !! id
                     = Some l) [0%Z; 2%Z] [lit "O"; lit "."]
  ∧ Forall2 (λ id l, u_ids_to_labels (u_capit_label_ids UniSample.mixed_case) !! id
                     = Some l) [1%Z; 1%Z] [lit "U"; lit "U"]
  ∧ u_decode_query unicode_isspace ascii_capitalize UniSample.mixed_case 0
      (lit "the iPhone")
    = Done (u_strip unicode_isspace
              (u_join space
                 (u_render_words ascii_capitalize
                    (u_split unicode_isspace (lit "the iPhone"))
                    [lit "O"; lit "."] [lit "U"; lit "U"])))
  ∧ u_strip unicode_isspace
      (u_join space
         (u_render_words ascii_capitalize
            (u_split unicode_isspace (lit "the iPhone"))
            [lit "O"; lit "."] [lit "U"; lit "U"]))
    = lit "The Iphone.".
Proof.
  assert (Forall2 (λ id l, u_ids_to_labels (u_punct_label_ids UniSample.mixed_case) !! id
                           = Some l) [0%Z; 2%Z] [lit "O"; lit "."]) as Hpl.
  { repeat constructor; by vm_compute. }
  assert (Forall2 (λ id l, u_ids_to_labels (u_capit_label_ids UniSample.mixed_case) !! id
                           = Some l) [1%Z; 1%Z] [lit "U"; lit "U"]) as Hcl.
  { repeat constructor; by vm_compute. }
  split; [reflexivity|].
  split; [by vm_compute|]. split; [by vm_compute|].
  split; [by vm_compute|]. split; [by vm_compute|].
  split; [exact Hpl|]. split; [exact Hcl|].
  split; [|by vm_compute].
  apply (decode_query_combined unicode_isspace ascii_capitalize
           UniSample.mixed_case 0 (lit "the iPhone")
           [0%Z; 2%Z] [1%Z; 1%Z] [lit "O"; lit "."] [lit "U"; lit "U"]);
    [reflexivity | by vm_compute | by vm_compute | by vm_compute | by vm_compute
    | exact Hpl | exact Hcl].
Defined.

(** The notebook's documented output for two of its queries. *)
Example u_decode_cell_helpful :
  u_decode_cell unicode_isspace ascii_capitalize UniSample.helpful
  = ([ lit "Query: can i help you"; lit "Combined: Can I help you?" ++ [10%N];
       lit "Query: yes please"; lit "Combined: Yes, please." ++ [10%N] ], Done ()).
Proof. by vm_compute. Qed.

End UniClaims.

(** ** The [raise] statements of the notebooks *)

Section NotebookRaises.
Import Uni Notebooks.
Local Open Scope nat_scope.

(** Without the origins, the checkpoint cells are [checkpoint_cell]. *)
Lemma checks_checkpoints_forget (nb : checkpoint_notebook)
    (exists_ : string → bool) (model_type : string) :
  forget (checks_checkpoints nb exists_ model_type)
  = checkpoint_cell nb exists_ model_type.
Proof.
  destruct nb; cbn [checks_checkpoints checkpoint_cell];
    unfold re_checkpoint_cell, qa_checkpoint_cell,
      BiobertRE.re_checkpoint_cell, BiobertQA.qa_checkpoint_cell,
      u_getitem_str, getitem_str, require_file, Checkpoint.require_file;
    repeat (case_match; cbn [obind bind forget]); done.
Qed.

(** What a [raise] statement of a checkpoint cell raises is the
    file-not-found error of a checked file that is not there. *)
Lemma checks_checkpoints_raise (nb : checkpoint_notebook)
    (exists_ : string → bool) (model_type : string) (e : exn) :
  checks_checkpoints nb exists_ model_type = Raised RaiseStatement e →
  ∃ base p, checkpoint_base nb !! model_type = Some base
            ∧ p ∈ checked_paths nb base
            ∧ exists_ p = false
            ∧ e = OSError ENOENT (strerror ENOENT) p.
Proof.
  destruct nb; cbn [checks_checkpoints checkpoint_base checked_paths];
    unfold re_checkpoint_cell, qa_checkpoint_cell, u_getitem_str, require_file.
  - destruct (BiobertRE.base_checkpoint_path !! model_type) as [base|];
      cbn [obind]; [|done].
    destruct (exists_ (path_join base "BERT.pt")) eqn:H1; cbn [negb obind].
    + destruct (exists_ (path_join base "bert_config.json")) eqn:H2;
        cbn [negb obind]; [done|].
      intros [= <-]. exists base, (path_join base "bert_config.json").
      split_and!; try done. apply list_elem_of_further, list_elem_of_here.
    + intros [= <-]. exists base, (path_join base "BERT.pt").
      split_and!; try done. apply list_elem_of_here.
  - destruct (BiobertQA.base_checkpoint_path !! model_type) as [base|];
      cbn [obind]; [|done].
    destruct (exists_ (path_join base "BERT.pt")) eqn:H1; cbn [negb obind].
    + destruct (exists_ (path_join base "TokenClassifier.pt")) eqn:H2;
        cbn [negb obind].
      * destruct (exists_ (path_join base "bert_config.json")) eqn:H3;
          cbn [negb obind]; [done|].
        intros [= <-]. exists base, (path_join base "bert_config.json").
        split_and!; try done.
        apply list_elem_of_further, list_elem_of_further, list_elem_of_here.
      * intros [= <-]. exists base, (path_join base "TokenClassifier.pt").
        split_and!; try done. apply list_elem_of_further, list_elem_of_here.
    + intros [= <-]. exists base, (path_join base "BERT.pt").
      split_and!; try done. apply list_elem_of_here.
Qed.

(** With a checked file missing, the cell ends in the [raise] for the
    first missing one. *)
Lemma checks_checkpoints_missing (nb : checkpoint_notebook)
    (exists_ : string → bool) (model_type base p : string) :
  checkpoint_base nb !! model_type = Some base →
  p ∈ checked_paths nb base →
  exists_ p = false →
  ∃ q, q ∈ checked_paths nb base
       ∧ exists_ q = false
       ∧ checks_checkpoints nb exists_ model_type
         = Raised RaiseStatement (OSError ENOENT (strerror ENOENT) q).
Proof.
  intros Hb Hp Hmiss.
  destruct (checks_checkpoints nb exists_ model_type) as [[]|o e] eqn:Hrun.
  - exfalso. revert Hrun Hp.
    destruct nb; cbn [checks_checkpoints checkpoint_base checked_paths] in *;
      unfold re_checkpoint_cell, qa_checkpoint_cell, u_getitem_str, require_file;
      rewrite Hb; cbn [obind];
      repeat match goal with
             | |- context [negb (exists_ ?f)] =>
               destruct (exists_ f) eqn:?; cbn [negb obind]; try done
             end;
      intros _; rewrite !elem_of_cons, elem_of_nil;
      intros Hp; destruct_or!; simplify_eq; congruence.
  - assert (o = RaiseStatement) as ->.
    { revert Hrun.
      destruct nb; cbn [checks_checkpoints checkpoint_base] in *;
        unfold re_checkpoint_cell, qa_checkpoint_cell, u_getitem_str, require_file;
        rewrite Hb; cbn [obind];
        repeat match goal with
               | |- context [negb (exists_ ?f)] =>
                 destruct (exists_ f) eqn:?; cbn [negb obind]; try done
               end; by intros [= <- _]. }
    destruct (checks_checkpoints_raise nb exists_ model_type e Hrun)
      as (base' & q & Hb' & Hq & Hqm & ->).
    assert (base' = base) as -> by congruence.
    by exists q.
Qed.

Lemma role_at_checks (nb : notebook) (k : nat) (cn : checkpoint_notebook) :
  role_at nb k = Some (ChecksCheckpoints cn) → nb = Biobert cn.
Proof.
  unfold role_at, role_of. destruct (code_cells nb !! k) as [c|]; [|done].
  cbn. destruct (has_raise c); [|done]. destruct nb; [|done]. by intros [= ->].
Qed.

Lemma role_at_decodes (nb : notebook) (k : nat) :
  role_at nb k = Some DecodesQueries → nb = PunctuationCapitalization.
Proof.
  unfold role_at, role_of. destruct (code_cells nb !! k) as [c|]; [|done].
  cbn. destruct (has_raise c); [|done]. by destruct nb.
Qed.

(** The roles of the cells that have a [raise] statement. *)
Lemma role_at_raise_cells :
  role_at (Biobert RelationExtraction) 2 = Some (ChecksCheckpoints RelationExtraction)
  ∧ role_at (Biobert QuestionAnswering) 2 = Some (ChecksCheckpoints QuestionAnswering)
  ∧ role_at PunctuationCapitalization 11 = Some DecodesQueries.
Proof. split_and!; by vm_compute. Qed.

Lemma run_cell_checks (w : world) (cn : checkpoint_notebook) :
  run_cell w (Biobert cn) 2 = checks_checkpoints cn (exists_ w) (model_type w).
Proof.
  destruct role_at_raise_cells as (Hre & Hqa & _).
  unfold run_cell. destruct cn; [by rewrite Hre|by rewrite Hqa].
Qed.

Lemma run_cell_decodes (w : world) :
  run_cell w PunctuationCapitalization 11
  = (_ ←? calls_libraries (library_failure w PunctuationCapitalization 11);
     (u_decode_cell (isspace w) (capitalize w) (predictions w)).2).
Proof.
  destruct role_at_raise_cells as (_ & _ & Hpc).
  unfold run_cell. by rewrite Hpc.
Qed.

(** C3, as stated, fails: the decoding cell of the punctuation notebook
    has a [raise] of its own, on line 755. With three unmasked
    predictions for the two words of a query the cell ends in the
    [ValueError] of that statement, which is no file-not-found error. *)
Lemma decode_raises_value_error :
  lines_with "raise" PunctuationCapitalization
    = [(755, "        raise ValueError('Pred and words must be of the same length')")]
  ∧ run_cell (SampleWorld.quiet UniSample.mismatch) PunctuationCapitalization 11
    = Raised RaiseStatement (ValueError "Pred and words must be of the same length")
  ∧ is_file_not_found (ValueError "Pred and words must be of the same length") = false
  ∧ ¬ (∀ w nb k e, run_cell w nb k = Raised RaiseStatement e →
                   is_file_not_found e = true).
Proof.
  assert (run_cell (SampleWorld.quiet UniSample.mismatch) PunctuationCapitalization 11
          = Raised RaiseStatement (ValueError "Pred and words must be of the same length"))
    as Hrun by (by vm_compute).
  split_and!; [by vm_compute|done|done|].
  intros Hall. by specialize (Hall _ _ _ _ Hrun).
Qed.

(** C3, amended. The [raise] statements of the notebooks are the five
    file-not-found checks of the two BioBERT notebooks and one other, in
    the decoding loop of the punctuation notebook; no code cell has a
    [try], [except], [finally] or [assert]. Whatever the files, the
    predictions and the libraries do, an exception that a [raise]
    statement of a cell raises is the file-not-found [OSError] for a
    checked file that is missing, or the [ValueError] of the decoding
    loop, raised for a query whose masked punctuation or capitalization
    predictions differ in number from its white-space separated words;
    and both are raised when that is the case. *)
Theorem notebook_raise_statements :
  lines_with "raise" (Biobert RelationExtraction)
    = [ (90, "    raise OSError(errno.ENOENT, os.strerror(errno.ENOENT), CHECKPOINT_ENCODER)");
        (93, "    raise OSError(errno.ENOENT, os.strerror(errno.ENOENT), CHECKPOINT_CONFIG)") ]
  ∧ lines_with "raise" (Biobert QuestionAnswering)
    = [ (86, "    raise OSError(errno.ENOENT, os.strerror(errno.ENOENT), CHECKPOINT_ENCODER)");
        (89, "    raise OSError(errno.ENOENT, os.strerror(errno.ENOENT), CHECKPOINT_HEAD)");
        (92, "    raise OSError(errno.ENOENT, os.strerror(errno.ENOENT), CHECKPOINT_CONFIG)") ]
  ∧ lines_with "raise" PunctuationCapitalization
    = [ (755, "        raise ValueError('Pred and words must be of the same length')") ]
  ∧ raise_cells (Biobert RelationExtraction) = [2]
  ∧ raise_cells (Biobert QuestionAnswering) = [2]
  ∧ raise_cells PunctuationCapitalization = [11]
  ∧ (∀ nb kw, kw ∈ ["try"; "except"; "finally"; "assert"] → lines_with kw nb = [])
  ∧ (∀ w nb k e,
       run_cell w nb k = Raised RaiseStatement e →
       (∃ cn base p,
          nb = Biobert cn
          ∧ checkpoint_base cn !! model_type w = Some base
          ∧ p ∈ checked_paths cn base
          ∧ exists_ w p = false
          ∧ e = OSError ENOENT (strerror ENOENT) p)
       ∨ (nb = PunctuationCapitalization
          ∧ e = ValueError "Pred and words must be of the same length"
          ∧ ∃ i query punct_pred capit_pred,
              u_queries (predictions w) !! i = Some query
              ∧ u_masked (u_punct_preds (predictions w))
                  (u_subtokens_mask (predictions w)) i = Done punct_pred
              ∧ u_masked (u_capit_preds (predictions w))
                  (u_subtokens_mask (predictions w)) i = Done capit_pred
              ∧ (length punct_pred ≠ length (u_split (isspace w) query)
                 ∨ length capit_pred ≠ length (u_split (isspace w) query))))
  ∧ (∀ w cn base p,
       checkpoint_base cn !! model_type w = Some base →
       p ∈ checked_paths cn base →
       exists_ w p = false →
       ∃ q, q ∈ checked_paths cn base
            ∧ exists_ w q = false
            ∧ run_cell w (Biobert cn) 2
              = Raised RaiseStatement (OSError ENOENT (strerror ENOENT) q))
  ∧ (∀ w before query after punct_pred capit_pred,
       library_failure w PunctuationCapitalization 11 = None →
       u_queries (predictions w) = before ++ query :: after →
       (∀ k q, before !! k = Some q →
               ∃ combined,
                 u_decode_query (isspace w) (capitalize w) (predictions w) k q
                 = Done combined) →
       u_masked (u_punct_preds (predictions w))
         (u_subtokens_mask (predictions w)) (length before) = Done punct_pred →
       u_masked (u_capit_preds (predictions w))
         (u_subtokens_mask (predictions w)) (length before) = Done capit_pred →
       length punct_pred ≠ length (u_split (isspace w) query)
       ∨ length capit_pred ≠ length (u_split (isspace w) query) →
       run_cell w PunctuationCapitalization 11
       = Raised RaiseStatement (ValueError "Pred and words must be of the same length")).
Proof.
  split; [by vm_compute|]. split; [by vm_compute|]. split; [by vm_compute|].
  split; [by vm_compute|]. split; [by vm_compute|]. split; [by vm_compute|].
  split.
  { intros nb kw Hkw. rewrite !elem_of_cons, elem_of_nil in Hkw.
    destruct_or!; try done; subst kw; destruct nb as [[]|]; by vm_compute. }
  split.
  { intros w nb k e. unfold run_cell.
    destruct (role_at nb k) as [[|cn|]|] eqn:Hrole; [| | |done].
    - unfold calls_libraries. by destruct (library_failure w nb k).
    - apply role_at_checks in Hrole as ->.
      intros (base & p & Hb & Hp & Hmiss & ->)%checks_checkpoints_raise.
      left. by exists cn, base, p.
    - apply role_at_decodes in Hrole as ->.
      unfold calls_libraries.
      destruct (library_failure w PunctuationCapitalization k); cbn [obind]; [done|].
      unfold u_decode_cell.
      intros (i & query & Hi & Hq)%u_decode_loop_raises.
      apply u_decode_query_raises in Hq as (-> & pp & cp & Hp & Hc & Hlen).
      rewrite u_split_strip in Hlen.
      right. split_and!; [done..|]. by exists i, query, pp, cp. }
  split.
  { intros w cn base p Hb Hp Hmiss. rewrite run_cell_checks.
    by apply (checks_checkpoints_missing cn (exists_ w) (model_type w) base p). }
  intros w before query after pp cp Hlib Hqs Hbefore Hp Hc Hlen.
  rewrite run_cell_decodes, Hlib. cbn [calls_libraries obind].
  unfold u_decode_cell. rewrite Hqs.
  apply u_decode_loop_stops; [done|].
  apply (u_decode_query_raise _ _ _ _ _ _ _ _ Hp Hc).
  by rewrite u_split_strip.
Qed.

(** With the head weights missing, the checkpoint cell of the question
    answering notebook ends in the [raise] for that file; the cells
    around it run through. *)
Example missing_head_raises :
  run_cell SampleWorld.no_head (Biobert QuestionAnswering) 2
    = Raised RaiseStatement
        (OSError ENOENT "No such file or directory"
           "./checkpoints/biobert/qa_squad/TokenClassifier.pt")
  ∧ run_cell SampleWorld.no_head (Biobert QuestionAnswering) 1 = Done ()
  ∧ run_cell SampleWorld.no_head (Biobert QuestionAnswering) 3 = Done ().
Proof. split_and!; by vm_compute. Qed.

(** A library failing in the decoding cell is no [raise] of the
    notebook, whatever the class of its exception. *)
Example concatenate_fails_in_library :
  run_cell SampleWorld.concatenate_fails PunctuationCapitalization 11
  = Raised Library (ValueError "need at least one array to concatenate").
Proof. by vm_compute. Qed.

End NotebookRaises.

(** * Part III: further properties of the code *)

(** ** Run ids *)

Section RunIdFacts.
Import Launch RunId.
Local Open Scope nat_scope.

Lemma str_take_length (n : nat) (s : string) :
  String.length (str_take n s) = n `min` String.length s.
Proof.
  revert s. induction n as [|n IH]; intros [|c r]; cbn; try done.
  by rewrite IH.
Qed.

Lemma str_take_forallb (P : ascii → bool) (n : nat) (s : string) :
  str_forallb P s = true → str_forallb P (str_take n s) = true.
Proof.
  revert s. induction n as [|n IH]; intros [|c r]; cbn; try done.
  intros [Hc Hr]%andb_prop. by rewrite Hc, IH.
Qed.

Lemma str_filter_forallb (P : ascii → bool) (s : string) :
  str_forallb P (str_filter P s) = true.
Proof.
  induction s as [|c r IH]; [done|]. cbn.
  destruct (P c) eqn:Hc; [|done]. cbn. by rewrite Hc.
Qed.

Lemma str_forallb_app (P : ascii → bool) (s1 s2 : string) :
  str_forallb P (s1 +:+ s2) = str_forallb P s1 && str_forallb P s2.
Proof.
  induction s1 as [|c r IH]; [done|].
  change (String c r +:+ s2) with (String c (r +:+ s2)).
  cbn [str_forallb]. by rewrite IH, andb_assoc.
Qed.

(** X1: the random part of a run id is made of letters and digits only,
    and holds the first 13 letters or digits of the random bytes, or all
    of them when there are fewer. *)
Theorem draw_num_id_shape (random : string) :
  str_forallb alnum (draw_num_id random) = true
  ∧ String.length (draw_num_id random)
    = 13 `min` String.length (str_filter alnum random).
Proof.
  unfold draw_num_id. split.
  - apply str_take_forallb, str_filter_forallb.
  - apply str_take_length.
Qed.

Lemma alnum_not_underscore (s : string) :
  str_forallb alnum s = true → str_forallb (λ c, negb (Ascii.eqb c "_")) s = true.
Proof.
  induction s as [|c r IH]; [done|]. cbn [str_forallb].
  intros [Hc Hr]%andb_prop. rewrite IH by done.
  rewrite andb_true_r. apply negb_true_iff.
  destruct (Ascii.eqb_spec c "_") as [->|]; [by vm_compute in Hc|done].
Qed.

(** A name, an underscore and a tail without underscore: the parts can
    be read back. *)
Lemma underscore_split (name1 name2 n1 n2 : string) :
  str_forallb (λ c, negb (Ascii.eqb c "_")) n1 = true →
  str_forallb (λ c, negb (Ascii.eqb c "_")) n2 = true →
  name1 +:+ "_" +:+ n1 = name2 +:+ "_" +:+ n2 →
  name1 = name2 ∧ n1 = n2.
Proof.
  intros H1 H2. revert name2.
  assert (∀ a b n, str_forallb (λ c, negb (Ascii.eqb c "_")) n = true →
                   n ≠ a +:+ "_" +:+ b) as Hno.
  { intros a b n Hn ->. rewrite str_forallb_app in Hn.
    apply andb_prop in Hn as [_ Hn]. by cbn in Hn. }
  induction name1 as [|c r IH]; intros [|c' r'] Heq.
  - by simplify_eq/=.
  - exfalso. injection Heq as <- Heq. by eapply (Hno r' n2 n1).
  - exfalso. injection Heq as -> Heq. by eapply (Hno r n1 n2).
  - injection Heq as -> Heq. destruct (IH _ Heq) as [-> ->]. done.
Qed.

(** X2: two runs of a launch script whose random parts are made of
    letters and digits get the same run id only if they have the same
    experiment name and the same random part: tmp directories and upload
    destinations of different runs do not collide. *)
Theorem run_id_injective (s : launch_script) (name1 name2 n1 n2 : string) :
  str_forallb alnum n1 = true →
  str_forallb alnum n2 = true →
  upload_destination (script_run_id s name1 n1)
    = upload_destination (script_run_id s name2 n2)
  ∨ tmp_dir (script_run_id s name1 n1) = tmp_dir (script_run_id s name2 n2) →
  name1 = name2 ∧ n1 = n2.
Proof.
  intros H1%alnum_not_underscore H2%alnum_not_underscore Hsame.
  assert (script_run_id s name1 n1 = script_run_id s name2 n2) as Hid.
  { unfold upload_destination, tmp_dir in Hsame.
    destruct Hsame as [Heq|Heq]; by apply (inj (String.app _)) in Heq. }
  destruct s; cbn in Hid; unfold Durs.durs_id, Quartznet.quartznet_id in Hid.
  - apply (inj (String.app _)) in Hid. by apply underscore_split.
  - by apply underscore_split.
Qed.

Lemma run_id_injective_witness :
  str_forallb alnum (draw_num_id SampleRandom.bytes) = true
  ∧ str_forallb alnum (draw_num_id SampleRandom.bytes) = true
  ∧ (upload_destination (script_run_id DursScript "exp1" (draw_num_id SampleRandom.bytes))
       = upload_destination (script_run_id DursScript "exp1" (draw_num_id SampleRandom.bytes))
     ∨ tmp_dir (script_run_id DursScript "exp1" (draw_num_id SampleRandom.bytes))
       = tmp_dir (script_run_id DursScript "exp1" (draw_num_id SampleRandom.bytes)))
  ∧ "exp1" = "exp1" ∧ draw_num_id SampleRandom.bytes = draw_num_id SampleRandom.bytes.
Proof.
  split; [reflexivity|]. split; [reflexivity|]. split; [left; reflexivity|].
  apply (run_id_injective DursScript "exp1" "exp1"
           (draw_num_id SampleRandom.bytes) (draw_num_id SampleRandom.bytes));
    [reflexivity | reflexivity | left; reflexivity].
Defined.

End RunIdFacts.

(** ** Launch scripts: when a job is submitted, and what it is given *)

Section LaunchMore.
Import Launch RunId.

Lemma usage_guard_one_name (i : invocation) (name_id : string) :
  argv i = [name_id] → name_id ≠ "" → usage_guard i = false ∧ param1 i = name_id.
Proof.
  intros Hargv Hne. unfold usage_guard, param1. rewrite Hargv. cbn.
  split; [|done]. by destruct name_id.
Qed.

(** X3: a launch script submits a batch job exactly when it is given one
    non-empty experiment name, is run where [setup.py] is, and (for the
    duration prediction script) [WANDB_TOKEN] is set and not empty. *)
Theorem launch_submits_iff (s : launch_script) (i : invocation) :
  (∃ job, NgcBatchRun job ∈ trace (run_script s i)) ↔ guards_pass s i.
Proof.
  split.
  - intros [job Hjob].
    destruct (run_script_cases s i) as [(line & Hrun & _)|(Hg & Hs & Hrun)].
    { rewrite Hrun in Hjob. apply list_elem_of_singleton in Hjob. discriminate. }
    apply usage_guard_false in Hg as (name_id & Hargv & Hne & _).
    split_and!; [by eauto|done|].
    intros ->. cbn [run_script] in Hrun. unfold Durs.launch_durs in Hrun.
    destruct (usage_guard_one_name i name_id Hargv Hne) as [Hg _].
    rewrite Hg, Hs in Hrun. cbn [negb] in Hrun.
    unfold WANDB_TOKEN at 1 in Hrun.
    destruct (environ_WANDB_TOKEN i) as [[|c token]|] eqn:Ht;
      cbn [default is_empty] in Hrun; try discriminate.
    by exists (String c token).
  - intros ((name_id & Hargv & Hne) & Hs & Ht).
    destruct (usage_guard_one_name i name_id Hargv Hne) as [Hg _].
    exists (script_job s i).
    destruct s; cbn [run_script];
      unfold Durs.launch_durs, Quartznet.launch_quartznet;
      rewrite Hg, Hs; cbn [negb].
    + destruct (Ht eq_refl) as (token & Htok & Hne').
      assert (is_empty (WANDB_TOKEN i) = false) as ->.
      { unfold WANDB_TOKEN. rewrite Htok. by destruct token. }
      cbn [trace]. apply elem_of_app. right. by apply list_elem_of_singleton.
    + cbn [trace]. apply elem_of_app. right. by apply list_elem_of_singleton.
Qed.

(** X4: when a script submits, its exit status is the one [ngc batch run]
    reports, whatever the commands before it did; the job it submits is
    named after the experiment and asks for the instance
    [dgx1v.32g.8.norm], the workspace [stan:/ws] and the result directory
    [/result]. *)
Theorem launch_submitted_status (s : launch_script) (i : invocation) (job : batch_job) :
  NgcBatchRun job ∈ trace (run_script s i) →
  exit_status (run_script s i) = batch_status i
  ∧ job = script_job s i
  ∧ job_name job = param1 i
  ∧ job_image job = "nvidian/pytorch:19.12-py3"
  ∧ job_instance job = "dgx1v.32g.8.norm"
  ∧ job_result job = "/result"
  ∧ job_workspace job = "stan:/ws".
Proof.
  intros Hjob.
  destruct (run_script_cases s i) as [(line & Hrun & _)|(Hg & Hs & Hrun)];
    rewrite Hrun in Hjob |- *; cbn [trace exit_status] in *.
  - apply list_elem_of_singleton in Hjob. discriminate.
  - apply launched_trace_elems in Hjob.
    destruct Hjob as [?|[?|[?|[?|[?|Hjob]]]]]; try discriminate.
    injection Hjob as ->. split_and!; try done; by destruct s.
Qed.

Lemma launch_submitted_status_witness :
  NgcBatchRun (script_job DursScript Sample.good)
    ∈ trace (run_script DursScript Sample.good)
  ∧ exit_status (run_script DursScript Sample.good) = batch_status Sample.good
  ∧ script_job DursScript Sample.good = script_job DursScript Sample.good
  ∧ job_name (script_job DursScript Sample.good) = param1 Sample.good
  ∧ job_image (script_job DursScript Sample.good) = "nvidian/pytorch:19.12-py3"
  ∧ job_instance (script_job DursScript Sample.good) = "dgx1v.32g.8.norm"
  ∧ job_result (script_job DursScript Sample.good) = "/result"
  ∧ job_workspace (script_job DursScript Sample.good) = "stan:/ws".
Proof.
  assert (NgcBatchRun (script_job DursScript Sample.good)
          ∈ trace (run_script DursScript Sample.good)) as Hjob.
  { vm_compute. do 5 apply list_elem_of_further. apply list_elem_of_here. }
  split; [exact Hjob|].
  exact (launch_submitted_status DursScript Sample.good _ Hjob).
Defined.

Lemma heredoc_forallb (P : ascii → bool) (lines : list string) :
  Forall (λ l, str_forallb P l = true) lines →
  str_forallb P (heredoc lines) = true.
Proof.
  induction 1 as [|l lines Hl _ IH]; [done|].
  cbn [heredoc foldr]. rewrite str_forallb_app, Hl. exact IH.
Qed.

(** X5: the command a script submits is a single line: it has no newline
    character, as long as the experiment name, the random part and the
    token have none. *)
Theorem submitted_command_one_line (s : launch_script) (i : invocation) :
  str_forallb not_newline (param1 i) = true →
  str_forallb not_newline (num_id i) = true →
  str_forallb not_newline (WANDB_TOKEN i) = true →
  str_forallb not_newline (job_commandline (script_job s i)) = true.
Proof.
  intros Hname Hnum Htok.
  destruct s; cbn [script_job];
    unfold Durs.durs_job, Quartznet.quartznet_job, Durs.cmd, Quartznet.cmd;
    cbn [job_commandline]; apply heredoc_forallb;
    unfold Durs.durs_cmd_lines, Quartznet.quartznet_cmd_lines,
      Durs.durs_id, Quartznet.quartznet_id;
    repeat constructor;
    rewrite ?str_forallb_app, ?Hname, ?Hnum, ?Htok; by vm_compute.
Qed.

Lemma submitted_command_one_line_witness :
  str_forallb not_newline (param1 Sample.good) = true
  ∧ str_forallb not_newline (num_id Sample.good) = true
  ∧ str_forallb not_newline (WANDB_TOKEN Sample.good) = true
  ∧ str_forallb not_newline (job_commandline (script_job DursScript Sample.good)) = true.
Proof.
  split; [reflexivity|]. split; [reflexivity|]. split; [reflexivity|].
  apply (submitted_command_one_line DursScript Sample.good); reflexivity.
Defined.

(** X6: the command of the duration prediction job logs in to the
    tracking service with the token of the environment and names the run
    after the experiment: it contains [wandb login <token>] and
    [--wdb_name=<name>]; its process count is the number of GPUs of the
    instance it asks for. *)
Theorem durs_command_token_and_name (i : invocation) (job : batch_job) :
  NgcBatchRun job ∈ trace (Durs.launch_durs i) →
  Str.occurs_in ("wandb login " +:+ WANDB_TOKEN i +:+ " ") (job_commandline job)
  ∧ Str.occurs_in ("--wdb_name=" +:+ param1 i +:+ " ") (job_commandline job)
  ∧ Str.occurs_in ("--nproc_per_node=" +:+ pretty NUM_GPU +:+ " ") (job_commandline job)
  ∧ job_instance job = "dgx1v." +:+ pretty GPU_MEM +:+ "g." +:+ pretty NUM_GPU +:+ ".norm".
Proof.
  intros Hjob.
  destruct (run_script_cases DursScript i) as [(line & Hrun & _)|(Hg & Hs & Hrun)];
    cbn [run_script] in Hrun; rewrite Hrun in Hjob; cbn [trace] in Hjob.
  - apply list_elem_of_singleton in Hjob. discriminate.
  - apply launched_trace_elems in Hjob.
    destruct Hjob as [?|[?|[?|[?|[?|Hjob]]]]]; try discriminate.
    injection Hjob as ->.
    change (job_commandline (script_job DursScript i))
      with (heredoc (Durs.durs_cmd_lines (param1 i)
              (Durs.durs_id (param1 i) (num_id i)) (WANDB_TOKEN i))).
    split_and!; [| | |done].
    + eapply occurs_in_trans; [|apply heredoc_line; unfold Durs.durs_cmd_lines;
        do 3 apply list_elem_of_further; apply list_elem_of_here].
      exists "&& pip install -U wandb && ", "". rewrite sapp_nil_r. reflexivity.
    + apply heredoc_line. unfold Durs.durs_cmd_lines.
      do 13 apply list_elem_of_further. apply list_elem_of_here.
    + eapply occurs_in_trans; [|apply heredoc_line; unfold Durs.durs_cmd_lines;
        do 4 apply list_elem_of_further; apply list_elem_of_here].
      exists "&& python -m torch.distributed.launch ", (Durs.script +:+ " ").
      rewrite ?sapp_assoc. reflexivity.
Qed.

Lemma durs_command_token_and_name_witness :
  NgcBatchRun (script_job DursScript Sample.good) ∈ trace (Durs.launch_durs Sample.good)
  ∧ Str.occurs_in ("wandb login " +:+ WANDB_TOKEN Sample.good +:+ " ")
      (job_commandline (script_job DursScript Sample.good))
  ∧ Str.occurs_in ("--wdb_name=" +:+ param1 Sample.good +:+ " ")
      (job_commandline (script_job DursScript Sample.good))
  ∧ Str.occurs_in ("--nproc_per_node=" +:+ pretty NUM_GPU +:+ " ")
      (job_commandline (script_job DursScript Sample.good))
  ∧ job_instance (script_job DursScript Sample.good)
    = "dgx1v." +:+ pretty GPU_MEM +:+ "g." +:+ pretty NUM_GPU +:+ ".norm".
Proof.
  assert (NgcBatchRun (script_job DursScript Sample.good)
          ∈ trace (Durs.launch_durs Sample.good)) as Hjob.
  { vm_compute. do 5 apply list_elem_of_further. apply list_elem_of_here. }
  split; [exact Hjob|].
  exact (durs_command_token_and_name Sample.good _ Hjob).
Defined.

End LaunchMore.

(** ** Launch scripts: what a run that passes the guards does *)

Section LaunchRun.
Import Launch RunId.

Lemma guards_pass_run (s : launch_script) (i : invocation) :
  guards_pass s i →
  run_script s i =
    {| trace := save_state (script_run_id s (param1 i) (num_id i))
                ++ [NgcBatchRun (script_job s i)];
       exit_status := batch_status i |}.
Proof.
  intros ((name_id & Hargv & Hne) & Hs & Ht).
  destruct (usage_guard_one_name i name_id Hargv Hne) as [Hg _].
  destruct s; cbn [run_script];
    unfold Durs.launch_durs, Quartznet.launch_quartznet;
    rewrite Hg, Hs; cbn [negb]; [|done].
  destruct (Ht eq_refl) as (token & Htok & Hne').
  assert (is_empty (WANDB_TOKEN i) = false) as ->; [|done].
  unfold WANDB_TOKEN. rewrite Htok. by destruct token.
Qed.

Lemma guards_pass_good (s : launch_script) : guards_pass s Sample.good.
Proof.
  split_and!.
  - exists "exp1". split; [reflexivity|discriminate].
  - reflexivity.
  - intros _. exists "0123abcd". split; [reflexivity|discriminate].
Defined.

(** C7: each launch script, given one experiment name, [setup.py] and
    (first script) a token, runs exactly these steps in this order: two
    messages, [mkdir] of the tmp directory, [rsync] of the working tree
    into it, the upload of that directory to the workspace, and only then
    [ngc batch run] with the command the script has built; the job is
    submitted once, after the upload. *)
Theorem launch_order (s : launch_script) (i : invocation) :
  guards_pass s i →
  let id := script_run_id s (param1 i) (num_id i) in
  trace (run_script s i)
  = [ Echo "Updating source code...";
      Echo ("Tmp dir: " +:+ tmp_dir id);
      MkdirP (tmp_dir id);
      Rsync "." (tmp_dir id) ".git" ":- .gitignore";
      NgcWorkspaceUpload WS (tmp_dir id) (upload_destination id);
      NgcBatchRun (script_job s i) ]
  ∧ job_commandline (script_job s i)
    = match s with
      | DursScript => Durs.cmd (param1 i) id (WANDB_TOKEN i)
      | QuartznetScript => Quartznet.cmd id
      end
  ∧ (∀ k job, trace (run_script s i) !! k = Some (NgcBatchRun job) →
       k = 5%nat ∧ job = script_job s i)
  ∧ (∀ k ws source destination,
       trace (run_script s i) !! k = Some (NgcWorkspaceUpload ws source destination) →
       k = 4%nat)
  ∧ (∀ k src dst exclude filter,
       trace (run_script s i) !! k = Some (Rsync src dst exclude filter) →
       k = 3%nat).
Proof.
  intros Hpass id. rewrite (guards_pass_run s i Hpass). cbn [trace].
  fold id. unfold save_state. cbn [app].
  split_and!.
  - done.
  - by destruct s.
  - intros k job Hk. do 6 (destruct k as [|k]; simplify_eq/=; try done).
  - intros k ws source destination Hk.
    do 6 (destruct k as [|k]; simplify_eq/=; try done).
  - intros k src dst exclude filter Hk.
    do 6 (destruct k as [|k]; simplify_eq/=; try done).
Qed.

Lemma launch_order_witness :
  (guards_pass DursScript Sample.good ∧ guards_pass QuartznetScript Sample.good)
  ∧ (trace (run_script DursScript Sample.good)
     = [ Echo "Updating source code...";
         Echo "Tmp dir: /tmp/nemos/durs-lj_exp1_aB3dE6gH9jK2m";
         MkdirP "/tmp/nemos/durs-lj_exp1_aB3dE6gH9jK2m";
         Rsync "." "/tmp/nemos/durs-lj_exp1_aB3dE6gH9jK2m" ".git" ":- .gitignore";
         NgcWorkspaceUpload "stan" "/tmp/nemos/durs-lj_exp1_aB3dE6gH9jK2m"
           "nemos/durs-lj_exp1_aB3dE6gH9jK2m";
         NgcBatchRun (script_job DursScript Sample.good) ])
  ∧ (trace (run_script QuartznetScript Sample.good)
     = [ Echo "Updating source code...";
         Echo "Tmp dir: /tmp/nemos/exp1_aB3dE6gH9jK2m";
         MkdirP "/tmp/nemos/exp1_aB3dE6gH9jK2m";
         Rsync "." "/tmp/nemos/exp1_aB3dE6gH9jK2m" ".git" ":- .gitignore";
         NgcWorkspaceUpload "stan" "/tmp/nemos/exp1_aB3dE6gH9jK2m"
           "nemos/exp1_aB3dE6gH9jK2m";
         NgcBatchRun (script_job QuartznetScript Sample.good) ]).
Proof.
  split; [split; apply guards_pass_good|].
  split.
  - exact (proj1 (launch_order DursScript Sample.good (guards_pass_good DursScript))).
  - exact (proj1 (launch_order QuartznetScript Sample.good
                    (guards_pass_good QuartznetScript))).
Defined.


(** *** The copy source of the submitted command *)

Lemma scan_app (a b word : string) :
  Sh.scan word (a +:+ b)
  = ((Sh.scan word a).1 ++ (Sh.scan (Sh.scan word a).2 b).1,
     (Sh.scan (Sh.scan word a).2 b).2).
Proof.
  revert word. induction a as [|c r IH]; intros word.
  - change ("" +:+ b) with b. cbn [Sh.scan fst snd app]. by destruct (Sh.scan word b).
  - change (String c r +:+ b) with (String c (r +:+ b)). cbn [Sh.scan].
    destruct (Sh.blank c).
    + rewrite IH. destruct (Sh.scan "" r) as [ws1 w1]. cbn [fst snd].
      destruct (Sh.scan w1 b) as [ws2 w2]. cbn [fst snd].
      by destruct (String.eqb word "").
    + apply IH.
Qed.

Lemma plain_char_not_blank (c : ascii) :
  Sh.plain_char c = true → Sh.blank c = false.
Proof.
  destruct c as [[] [] [] [] [] [] [] []]; vm_compute; congruence.
Qed.

Lemma scan_plain (w word : string) :
  Sh.plain w = true → Sh.scan word w = ([], word +:+ w).
Proof.
  unfold Sh.plain. revert word. induction w as [|c r IH]; intros word Hw.
  - cbn. by rewrite sapp_nil_r.
  - cbn [str_forallb] in Hw. apply andb_prop in Hw as [Hc Hr].
    cbn [Sh.scan]. rewrite (plain_char_not_blank c Hc), (IH _ Hr).
    by rewrite sapp_assoc.
Qed.

Lemma words_scan (line : string) :
  Sh.words line
  = (Sh.scan "" line).1
    ++ (if String.eqb (Sh.scan "" line).2 "" then [] else [(Sh.scan "" line).2]).
Proof. unfold Sh.words. by destruct (Sh.scan "" line). Qed.

(** A command line made of a text, a plain word glued to its end, a
    text that starts and ends with a blank, and a rest. *)
Lemma words_around_plain (before id after rest : string)
    (ws_before ws_after : list string) (w : string) :
  Sh.scan "" before = (ws_before, w) →
  Sh.plain id = true →
  Sh.scan (w +:+ id) after = (ws_after, "") →
  Sh.words (before +:+ id +:+ after +:+ rest)
  = ws_before ++ ws_after ++ Sh.words rest.
Proof.
  intros Hb Hid Ha.
  rewrite !words_scan, !scan_app, Hb. cbn [fst snd].
  rewrite (scan_plain id w Hid). cbn [fst snd].
  rewrite Ha. cbn [fst snd app].
  by rewrite <- !(assoc_L (++)).
Qed.

Lemma plain_app (s1 s2 : string) :
  Sh.plain (s1 +:+ s2) = Sh.plain s1 && Sh.plain s2.
Proof. apply str_forallb_app. Qed.

Lemma script_run_id_plain (s : launch_script) (name_id num : string) :
  Sh.plain name_id = true → Sh.plain num = true →
  Sh.plain (script_run_id s name_id num) = true.
Proof.
  intros Hn Hm.
  destruct s; cbn [script_run_id]; unfold Durs.durs_id, Quartznet.quartznet_id;
    rewrite !plain_app, Hn, Hm; reflexivity.
Qed.

(** With a plain run id, the submitted command copies from one place:
    the path of the id under [nemos] at the workspace mount point. *)
Lemma cp_sources_plain_id (s : launch_script) (i : invocation) :
  Sh.plain (script_run_id s (param1 i) (num_id i)) = true →
  Sh.cp_sources (job_commandline (script_job s i))
  = [ WORKSPACE +:+ "/"
      +:+ upload_destination (script_run_id s (param1 i) (num_id i)) ].
Proof.
  intros Hid.
  set (after := " /nemo && cd /nemo && pip install .[all] ").
  destruct s.
  - change (script_run_id DursScript (param1 i) (num_id i))
      with (Durs.durs_id (param1 i) (num_id i)) in *.
    set (id := Durs.durs_id (param1 i) (num_id i)) in *.
    set (before :=
      "nvidia-smi "
      +:+ "&& apt-get update && apt-get install -y libsndfile1 && pip install -U librosa "
      +:+ "&& cp -R " +:+ WORKSPACE +:+ "/nemos/").
    set (rest := heredoc (drop 3 (Durs.durs_cmd_lines (param1 i) id (WANDB_TOKEN i)))).
    assert (job_commandline (script_job DursScript i)
            = before +:+ id +:+ after +:+ rest) as ->.
    { subst before after rest. cbn [script_job].
      unfold Durs.durs_job, Durs.cmd, Durs.durs_cmd_lines.
      cbn [job_commandline heredoc foldr drop]. fold id.
      by rewrite !sapp_assoc. }
    unfold Sh.cp_sources.
    rewrite (words_around_plain before id after rest
               [ "nvidia-smi"; "&&"; "apt-get"; "update"; "&&"; "apt-get"; "install";
                 "-y"; "libsndfile1"; "&&"; "pip"; "install"; "-U"; "librosa"; "&&";
                 "cp"; "-R" ]
               [ "/ws/nemos/" +:+ id; "/nemo"; "&&"; "cd"; "/nemo"; "&&"; "pip";
                 "install"; ".[all]" ]
               "/ws/nemos/");
      [|by vm_compute|done|by vm_compute].
    generalize (Sh.words rest). intros tail. by vm_compute.
  - change (script_run_id QuartznetScript (param1 i) (num_id i))
      with (Quartznet.quartznet_id (param1 i) (num_id i)) in *.
    set (id := Quartznet.quartznet_id (param1 i) (num_id i)) in *.
    set (before :=
      "nvidia-smi "
      +:+ "&& apt-get update && apt-get install -y libsndfile1 "
      +:+ "&& cp -R " +:+ WORKSPACE +:+ "/nemos/").
    set (rest := heredoc (drop 3 (Quartznet.quartznet_cmd_lines id))).
    assert (job_commandline (script_job QuartznetScript i)
            = before +:+ id +:+ after +:+ rest) as ->.
    { subst before after rest. cbn [script_job].
      unfold Quartznet.quartznet_job, Quartznet.cmd, Quartznet.quartznet_cmd_lines.
      cbn [job_commandline heredoc foldr drop]. fold id.
      by rewrite !sapp_assoc. }
    unfold Sh.cp_sources.
    rewrite (words_around_plain before id after rest
               [ "nvidia-smi"; "&&"; "apt-get"; "update"; "&&"; "apt-get"; "install";
                 "-y"; "libsndfile1"; "&&"; "cp"; "-R" ]
               [ "/ws/nemos/" +:+ id; "/nemo"; "&&"; "cd"; "/nemo"; "&&"; "pip";
                 "install"; ".[all]" ]
               "/ws/nemos/");
      [|by vm_compute|done|by vm_compute].
    generalize (Sh.words rest). intros tail. by vm_compute.
Qed.

(** C8 does not hold of the scripts. Where they use the run id
    themselves they put it in double quotes (the arguments of [mkdir],
    [rsync] and [ngc workspace upload]), but the command they generate
    has it bare. For an
    experiment name with a blank the upload goes to [nemos/a b_<random>],
    while the shell of the container reads [cp -R /ws/nemos/a b_<random>
    /nemo] as a copy from the two places [/ws/nemos/a] and [b_<random>];
    the same in the first script. *)
Lemma copy_source_two_words :
  guards_pass QuartznetScript SampleBlank.two_words
  ∧ trace (run_script QuartznetScript SampleBlank.two_words) !! 4%nat
    = Some (NgcWorkspaceUpload "stan" "/tmp/nemos/a b_aB3dE6gH9jK2m"
              "nemos/a b_aB3dE6gH9jK2m")
  ∧ Sh.cp_sources (job_commandline (script_job QuartznetScript SampleBlank.two_words))
    = [ "/ws/nemos/a"; "b_aB3dE6gH9jK2m" ]
  ∧ Sh.cp_sources (job_commandline (script_job DursScript SampleBlank.two_words))
    = [ "/ws/nemos/durs-lj_a"; "b_aB3dE6gH9jK2m" ]
  ∧ ¬ (∀ s i, guards_pass s i →
         Sh.cp_sources (job_commandline (script_job s i))
         = [ WORKSPACE +:+ "/"
             +:+ upload_destination (script_run_id s (param1 i) (num_id i)) ]).
Proof.
  assert (guards_pass QuartznetScript SampleBlank.two_words) as Hpass.
  { split_and!; [|done|done]. exists "a b". by split. }
  split_and!; [done|by vm_compute|by vm_compute|by vm_compute|].
  intros Hall. specialize (Hall _ _ Hpass). by vm_compute in Hall.
Qed.

(** X21: in each launch script, for every experiment name and random
    part made of letters, digits, [_], [-] and [.] only (and, in the
    first script, whose command carries it, such a token), the upload
    goes to [nemos/<id>] and the submitted command copies from exactly
    that path under the workspace mount point, and from nowhere else. *)
Theorem upload_matches_copy_source (s : launch_script) (i : invocation) :
  guards_pass s i →
  Sh.plain (param1 i) = true →
  Sh.plain (num_id i) = true →
  (s = DursScript → Sh.plain (WANDB_TOKEN i) = true) →
  let id := script_run_id s (param1 i) (num_id i) in
  trace (run_script s i) !! 4%nat
    = Some (NgcWorkspaceUpload WS (tmp_dir id) ("nemos/" +:+ id))
  ∧ (∀ k ws source destination,
       trace (run_script s i) !! k = Some (NgcWorkspaceUpload ws source destination) →
       destination = "nemos/" +:+ id)
  ∧ trace (run_script s i) !! 5%nat = Some (NgcBatchRun (script_job s i))
  ∧ Sh.cp_sources (job_commandline (script_job s i))
    = [ WORKSPACE +:+ "/" +:+ "nemos/" +:+ id ].
Proof.
  intros Hpass Hname Hnum _ id.
  rewrite (guards_pass_run s i Hpass). cbn [trace]. fold id.
  split_and!.
  - done.
  - intros k ws source destination Hk. unfold save_state in Hk.
    do 6 (destruct k as [|k]; simplify_eq/=; try done).
  - done.
  - apply (cp_sources_plain_id s i). by apply script_run_id_plain.
Qed.

Lemma upload_matches_copy_source_witness :
  (guards_pass DursScript Sample.good ∧ guards_pass QuartznetScript Sample.good)
  ∧ Sh.plain (param1 Sample.good) = true
  ∧ Sh.plain (num_id Sample.good) = true
  ∧ (∀ s, s = DursScript → Sh.plain (WANDB_TOKEN Sample.good) = true)
  ∧ (trace (run_script DursScript Sample.good) !! 4%nat
       = Some (NgcWorkspaceUpload "stan" "/tmp/nemos/durs-lj_exp1_aB3dE6gH9jK2m"
                 "nemos/durs-lj_exp1_aB3dE6gH9jK2m")
     ∧ Sh.cp_sources (job_commandline (script_job DursScript Sample.good))
       = [ "/ws/nemos/durs-lj_exp1_aB3dE6gH9jK2m" ])
  ∧ (trace (run_script QuartznetScript Sample.good) !! 4%nat
       = Some (NgcWorkspaceUpload "stan" "/tmp/nemos/exp1_aB3dE6gH9jK2m"
                 "nemos/exp1_aB3dE6gH9jK2m")
     ∧ Sh.cp_sources (job_commandline (script_job QuartznetScript Sample.good))
       = [ "/ws/nemos/exp1_aB3dE6gH9jK2m" ]).
Proof.
  split; [split; apply guards_pass_good|].
  split; [reflexivity|]. split; [reflexivity|].
  split; [intros s _; reflexivity|].
  split.
  - pose proof (upload_matches_copy_source DursScript Sample.good
                  (guards_pass_good DursScript) eq_refl eq_refl
                  (λ _, eq_refl)) as H.
    exact (conj (proj1 H) (proj2 (proj2 (proj2 H)))).
  - pose proof (upload_matches_copy_source QuartznetScript Sample.good
                  (guards_pass_good QuartznetScript) eq_refl eq_refl
                  (λ _, eq_refl)) as H.
    exact (conj (proj1 H) (proj2 (proj2 (proj2 H)))).
Defined.

End LaunchRun.

(** ** Step counts *)

Section StepCounts.

(** X7: within bounds where nothing wraps, the total step count of the
    duration prediction script is enough for every epoch to go through
    the whole data set, with at least one sample and at most one global
    batch to spare per epoch; it is never less than the number of
    epochs. *)
Theorem total_steps_cover (dataset_size batch_size num_gpu num_epochs : Z) :
  0 ≤ dataset_size < 2 ^ 31 →
  0 < batch_size < 2 ^ 15 →
  0 < num_gpu < 2 ^ 15 →
  0 ≤ num_epochs < 2 ^ 31 →
  let total := Durs.total_steps_of dataset_size batch_size num_gpu num_epochs in
  num_epochs ≤ total
  ∧ num_epochs * dataset_size + num_epochs ≤ total * (batch_size * num_gpu)
  ∧ total * (batch_size * num_gpu)
    ≤ num_epochs * (dataset_size + batch_size * num_gpu).
Proof.
  intros Hds Hbs Hng Hne total. subst total.
  rewrite total_steps_exact by done.
  assert (0 < batch_size * num_gpu) as Hd by nia.
  pose proof (Z.div_mod dataset_size (batch_size * num_gpu) ltac:(lia)) as Hdm.
  pose proof (Z.mod_pos_bound dataset_size (batch_size * num_gpu) Hd) as Hm.
  set (d := batch_size * num_gpu) in *.
  set (q := dataset_size `div` d) in *.
  assert (0 ≤ q) as Hq by (apply Z.div_pos; lia).
  split_and!; nia.
Qed.

Lemma total_steps_cover_witness :
  0 ≤ Durs.DATASET_SIZE < 2 ^ 31
  ∧ 0 < Durs.batch_size < 2 ^ 15
  ∧ 0 < Launch.NUM_GPU < 2 ^ 15
  ∧ 0 ≤ Durs.NUM_EPOCHS < 2 ^ 31
  ∧ let total := Durs.total_steps_of Durs.DATASET_SIZE Durs.batch_size
                   Launch.NUM_GPU Durs.NUM_EPOCHS in
    Durs.NUM_EPOCHS ≤ total
    ∧ Durs.NUM_EPOCHS * Durs.DATASET_SIZE + Durs.NUM_EPOCHS
      ≤ total * (Durs.batch_size * Launch.NUM_GPU)
    ∧ total * (Durs.batch_size * Launch.NUM_GPU)
      ≤ Durs.NUM_EPOCHS * (Durs.DATASET_SIZE + Durs.batch_size * Launch.NUM_GPU).
Proof.
  split; [by vm_compute|]. split; [by vm_compute|].
  split; [by vm_compute|]. split; [by vm_compute|].
  apply (total_steps_cover Durs.DATASET_SIZE Durs.batch_size
           Launch.NUM_GPU Durs.NUM_EPOCHS); by vm_compute.
Defined.

(** X8: for a step count that is not negative, the warmup given to the
    job is its fiftieth part rounded down: fifty warmups fit in the total
    and fifty more steps do not. *)
Theorem warmup_fiftieth (total_steps : Z) :
  0 ≤ total_steps < 2 ^ 63 →
  0 ≤ Durs.warmup_of total_steps
  ∧ 50 * Durs.warmup_of total_steps ≤ total_steps
  ∧ total_steps < 50 * Durs.warmup_of total_steps + 50.
Proof.
  intros Ht. unfold Durs.warmup_of.
  rewrite div_floor by (unfold ShArith.in_range; lia).
  pose proof (Z.div_mod total_steps 50 ltac:(lia)).
  pose proof (Z.mod_pos_bound total_steps 50 ltac:(lia)).
  assert (0 ≤ total_steps `div` 50) by (apply Z.div_pos; lia).
  lia.
Qed.

Lemma warmup_fiftieth_witness :
  0 ≤ Durs.total_steps < 2 ^ 63
  ∧ 0 ≤ Durs.warmup_of Durs.total_steps
  ∧ 50 * Durs.warmup_of Durs.total_steps ≤ Durs.total_steps
  ∧ Durs.total_steps < 50 * Durs.warmup_of Durs.total_steps + 50.
Proof.
  split; [by vm_compute|].
  apply (warmup_fiftieth Durs.total_steps). by vm_compute.
Defined.

(** X9: in the relation extraction and question answering notebooks the
    total step count leaves out fewer than one batch of samples per
    epoch, and it is zero exactly when the training set is smaller than
    one batch. *)
Theorem notebook_total_steps (nb : checkpoint_notebook) (train_len : Z) :
  0 ≤ train_len →
  let total := Schedule.total_steps nb train_len in
  0 ≤ total
  ∧ Schedule.batch_size nb * total ≤ Schedule.num_epochs nb * train_len
  ∧ Schedule.num_epochs nb * train_len
    < Schedule.batch_size nb * total + Schedule.num_epochs nb * Schedule.batch_size nb
  ∧ (total = 0 ↔ train_len < Schedule.batch_size nb).
Proof.
  intros Hn total. subst total.
  unfold Schedule.total_steps, Schedule.train_steps_per_epoch.
  assert (0 < Schedule.batch_size nb ∧ 0 < Schedule.num_epochs nb) as [Hb He]
    by (destruct nb; cbn; lia).
  pose proof (Z.div_mod train_len (Schedule.batch_size nb) ltac:(lia)) as Hdm.
  pose proof (Z.mod_pos_bound train_len (Schedule.batch_size nb) Hb) as Hm.
  set (b := Schedule.batch_size nb) in *.
  set (e := Schedule.num_epochs nb) in *.
  set (q := train_len `div` b) in *.
  assert (0 ≤ q) as Hq by (apply Z.div_pos; lia).
  set (r := train_len `mod` b) in *.
  clearbody r q e b.
  split_and!; [nia|nia|nia|].
  split; intros Hz.
  - assert (q = 0) as -> by nia. lia.
  - assert (q = 0) as -> by nia. lia.
Qed.

Lemma notebook_total_steps_witness :
  0 ≤ 1000
  ∧ let total := Schedule.total_steps QuestionAnswering 1000 in
    0 ≤ total
    ∧ Schedule.batch_size QuestionAnswering * total
      ≤ Schedule.num_epochs QuestionAnswering * 1000
    ∧ Schedule.num_epochs QuestionAnswering * 1000
      < Schedule.batch_size QuestionAnswering * total
        + Schedule.num_epochs QuestionAnswering * Schedule.batch_size QuestionAnswering
    ∧ (total = 0 ↔ 1000 < Schedule.batch_size QuestionAnswering).
Proof.
  split; [lia|].
  apply (notebook_total_steps QuestionAnswering 1000). lia.
Defined.

End StepCounts.

(** ** Checkpoint cells: unknown model type, files looked at *)

Section CheckpointMore.
Import Checkpoint.

(** X10: with a model type that is neither [biobert] nor [biomegatron]
    the checkpoint cell ends in [KeyError] for that name at the first
    dict subscript, whatever files exist. *)
Theorem checkpoint_unknown_model (nb : checkpoint_notebook)
    (exists_ : string → bool) (model_type : string) :
  model_type ≠ "biobert" →
  model_type ≠ "biomegatron" →
  checkpoint_cell nb exists_ model_type = Raise (KeyError (repr model_type))
  ∧ raised_by_statement (KeyError (repr model_type)) = false.
Proof.
  intros H1 H2. split; [|done].
  assert (checkpoint_base nb !! model_type = None) as Hnone.
  { destruct nb; cbn [checkpoint_base];
      unfold BiobertRE.base_checkpoint_path, BiobertQA.base_checkpoint_path;
      rewrite lookup_insert_ne by done; by apply lookup_singleton_ne. }
  destruct nb; cbn [checkpoint_cell checkpoint_base] in *;
    unfold BiobertRE.re_checkpoint_cell, BiobertQA.qa_checkpoint_cell, getitem_str;
    by rewrite Hnone.
Qed.

Lemma checkpoint_unknown_model_witness :
  "bert" ≠ "biobert"
  ∧ "bert" ≠ "biomegatron"
  ∧ checkpoint_cell RelationExtraction (λ _, true) "bert"
    = Raise (KeyError (repr "bert"))
  ∧ raised_by_statement (KeyError (repr "bert")) = false.
Proof.
  split; [discriminate|]. split; [discriminate|].
  apply (checkpoint_unknown_model RelationExtraction (λ _, true) "bert");
    discriminate.
Defined.

Lemma checks_agree (fs1 fs2 : string → bool) (paths : list string) :
  Forall (λ p, fs1 p = fs2 p) paths →
  foldr (λ p rest, _ ←! require_file fs1 p; rest) (Ok ()) paths
  = foldr (λ p rest, _ ←! require_file fs2 p; rest) (Ok ()) paths.
Proof.
  induction 1 as [|p paths Hp _ IH]; [done|].
  cbn [foldr]. unfold require_file at 1 3. by rewrite Hp, IH.
Qed.

(** X11: a checkpoint cell looks at no other file than the ones it
    checks: on two file systems that agree on those, it ends the same
    way. *)
Theorem checkpoint_cell_only_checked (nb : checkpoint_notebook)
    (fs1 fs2 : string → bool) (model_type : string) :
  (∀ base p, checkpoint_base nb !! model_type = Some base →
             p ∈ checked_paths nb base → fs1 p = fs2 p) →
  checkpoint_cell nb fs1 model_type = checkpoint_cell nb fs2 model_type.
Proof.
  intros Hagree.
  destruct (checkpoint_base nb !! model_type) as [base|] eqn:Hb.
  - rewrite !(checkpoint_cell_checks _ _ _ _ Hb).
    apply checks_agree, Forall_forall. intros p Hp. by apply (Hagree base).
  - destruct nb; cbn [checkpoint_cell checkpoint_base] in *;
      unfold BiobertRE.re_checkpoint_cell, BiobertQA.qa_checkpoint_cell, getitem_str;
      by rewrite Hb.
Qed.

Lemma checkpoint_cell_only_checked_witness :
  (∀ base p, checkpoint_base QuestionAnswering !! "biobert" = Some base →
             p ∈ checked_paths QuestionAnswering base →
             SampleFs.no_head p = SampleFs2.no_head_no_notes p)
  ∧ checkpoint_cell QuestionAnswering SampleFs.no_head "biobert"
    = checkpoint_cell QuestionAnswering SampleFs2.no_head_no_notes "biobert".
Proof.
  assert (∀ base p, checkpoint_base QuestionAnswering !! "biobert" = Some base →
             p ∈ checked_paths QuestionAnswering base →
             SampleFs.no_head p = SampleFs2.no_head_no_notes p) as Hagree.
  { intros base p Hb Hp. vm_compute in Hb. injection Hb as <-.
    apply elem_of_cons in Hp as [->|Hp]; [reflexivity|].
    apply elem_of_cons in Hp as [->|Hp]; [reflexivity|].
    apply list_elem_of_singleton in Hp as ->. reflexivity. }
  split; [exact Hagree|].
  exact (checkpoint_cell_only_checked QuestionAnswering
           SampleFs.no_head SampleFs2.no_head_no_notes "biobert" Hagree).
Defined.

End CheckpointMore.

(** ** The inverse label maps *)

Section LabelMaps.
Import Punctuation.

Lemma invert_notin (l : list (string * Z)) (m : gmap Z string) (id : Z) :
  id ∉ (l.*2) → foldl (λ m kv, <[kv.2 := kv.1]> m) m l !! id = m !! id.
Proof.
  revert m. induction l as [|[lab' id'] l IH]; intros m Hid; [done|].
  cbn [foldl]. rewrite fmap_cons, not_elem_of_cons in Hid.
  destruct Hid as [Hne Hid]. rewrite IH by done.
  by apply lookup_insert_ne.
Qed.

Lemma invert_last (l1 l2 : list (string * Z)) (m : gmap Z string)
    (lab : string) (id : Z) :
  id ∉ (l2.*2) →
  foldl (λ m kv, <[kv.2 := kv.1]> m) m (l1 ++ (lab, id) :: l2) !! id = Some lab.
Proof.
  intros Hid. rewrite foldl_app. cbn [foldl].
  rewrite invert_notin by done. apply lookup_insert_eq.
Qed.

Lemma invert_sound (l : list (string * Z)) (m : gmap Z string)
    (lab : string) (id : Z) :
  foldl (λ m kv, <[kv.2 := kv.1]> m) m l !! id = Some lab →
  m !! id = Some lab ∨ (lab, id) ∈ l.
Proof.
  revert m. induction l as [|[lab' id'] l IH]; intros m Hl; [by left|].
  cbn [foldl] in Hl. apply IH in Hl as [Hl|Hl].
  - cbn in Hl. apply lookup_insert_Some in Hl as [[<- <-]|[_ Hl]].
    + right. apply list_elem_of_here.
    + by left.
  - right. by apply list_elem_of_further.
Qed.

(** X12: the inverse label map invents nothing: the label it gives for
    an id is a label that the label map sends to that id. *)
Theorem ids_to_labels_sound (label_ids : list (string * Z)) (id : Z) (label : string) :
  ids_to_labels label_ids !! id = Some label →
  (label, id) ∈ label_ids.
Proof.
  intros Hl. apply invert_sound in Hl as [Hl|Hl]; [|done].
  by rewrite lookup_empty in Hl.
Qed.

Lemma ids_to_labels_sound_witness :
  ids_to_labels SampleInference.punct_ids !! 3 = Some "?"
  ∧ ("?", 3) ∈ SampleInference.punct_ids.
Proof.
  split; [by vm_compute|].
  apply (ids_to_labels_sound SampleInference.punct_ids 3 "?"). by vm_compute.
Defined.

(** X13: when several labels have the same id, the inverse label map
    keeps the one that comes last in the label map. *)
Theorem ids_to_labels_last (before after : list (string * Z))
    (label : string) (id : Z) :
  id ∉ (after.*2) →
  ids_to_labels (before ++ (label, id) :: after) !! id = Some label.
Proof. intros Hid. by apply invert_last. Qed.

Lemma ids_to_labels_last_witness :
  (1 ∉ ([(".", 2)].*2))
  ∧ ids_to_labels ([("O", 0); (",", 1)] ++ (";", 1) :: [(".", 2)]) !! 1 = Some ";".
Proof.
  assert (1 ∉ ([(".", 2)].*2)) as Hid.
  { cbn. intros Hin. apply list_elem_of_singleton in Hin. discriminate. }
  split; [exact Hid|].
  exact (ids_to_labels_last [("O", 0); (",", 1)] [(".", 2)] ";" 1 Hid).
Defined.

(** X14: when the ids of the label map are all different, the inverse
    label map inverts it: every label is found back under its id. *)
Theorem ids_to_labels_round_trip (label_ids : list (string * Z))
    (label : string) (id : Z) :
  NoDup (label_ids.*2) →
  (label, id) ∈ label_ids →
  ids_to_labels label_ids !! id = Some label.
Proof.
  intros Hnd Hin.
  apply list_elem_of_split in Hin as (l1 & l2 & ->).
  apply invert_last.
  rewrite fmap_app, fmap_cons in Hnd.
  apply NoDup_app in Hnd as (_ & _ & Hnd).
  by apply NoDup_cons in Hnd as [Hid _].
Qed.

Lemma ids_to_labels_round_trip_witness :
  NoDup (SampleInference.punct_ids.*2)
  ∧ (",", 1) ∈ SampleInference.punct_ids
  ∧ ids_to_labels SampleInference.punct_ids !! 1 = Some ",".
Proof.
  assert (NoDup (SampleInference.punct_ids.*2)) as Hnd.
  { apply (@bool_decide_unpack _ (NoDup_dec _)). by vm_compute. }
  assert ((",", 1) ∈ SampleInference.punct_ids) as Hin.
  { apply list_elem_of_further, list_elem_of_here. }
  split; [exact Hnd|]. split; [exact Hin|].
  exact (ids_to_labels_round_trip SampleInference.punct_ids "," 1 Hnd Hin).
Defined.

End LabelMaps.

(** ** The decoding loop: what is printed, how it fails *)

Section DecodeMore.
Import Punctuation Transcript.
Local Open Scope nat_scope.

Lemma decode_loop_all (inf : inference) (qs : list string) :
  ∀ (combined : list string) (i : nat) (stdout : list string),
    length combined = length qs →
    (∀ k q c, qs !! k = Some q → combined !! k = Some c →
              decode_query inf (i + k) q = Ok c) →
    decode_loop inf i qs stdout = (stdout ++ transcript qs combined, Ok ()).
Proof.
  induction qs as [|q qs IH]; intros [|c cs] i stdout Hlen Hall; try done.
  - cbn. by rewrite app_nil_r.
  - rewrite (decode_loop_prints inf i q qs stdout c).
    2: { rewrite <- (Nat.add_0_r i). by apply Hall. }
    rewrite (IH cs); [|by simplify_eq/=|].
    + cbn [transcript lines]. by rewrite <- (assoc_L (++)).
    + intros k q' c' Hq Hc. rewrite Nat.add_succ_comm. by apply Hall.
Qed.

(** X15: when every query decodes, the cell prints for each query, in
    order, its [Query:] line and then its [Combined:] line, and ends
    without an exception. *)
Theorem decode_cell_transcript (inf : inference) (combined : list string) :
  length combined = length (queries inf) →
  (∀ k q c, queries inf !! k = Some q → combined !! k = Some c →
            decode_query inf k q = Ok c) →
  decode_cell inf = (transcript (queries inf) combined, Ok ()).
Proof.
  intros Hlen Hall. unfold decode_cell.
  by rewrite (decode_loop_all inf (queries inf) combined 0 []).
Qed.

Lemma decode_cell_transcript_witness :
  length ["Can I help you?"; "Yes, please."] = length (queries SampleInference.helpful)
  ∧ (∀ k q c, queries SampleInference.helpful !! k = Some q →
              ["Can I help you?"; "Yes, please."] !! k = Some c →
              decode_query SampleInference.helpful k q = Ok c)
  ∧ decode_cell SampleInference.helpful
    = (transcript (queries SampleInference.helpful)
         ["Can I help you?"; "Yes, please."], Ok ()).
Proof.
  assert (∀ k q c, queries SampleInference.helpful !! k = Some q →
              ["Can I help you?"; "Yes, please."] !! k = Some c →
              decode_query SampleInference.helpful k q = Ok c) as Hall.
  { intros [|[|k]] q c Hq Hc; [| |discriminate];
      injection Hq as <-; injection Hc as <-; by vm_compute. }
  split; [reflexivity|]. split; [exact Hall|].
  exact (decode_cell_transcript SampleInference.helpful
           ["Can I help you?"; "Yes, please."] eq_refl Hall).
Defined.

Lemma decode_loop_stops (inf : inference) (before : list string) :
  ∀ (combined : list string) (i : nat) (stdout : list string)
    (q : string) (after : list string) (e : exn),
    length combined = length before →
    (∀ k q' c, before !! k = Some q' → combined !! k = Some c →
               decode_query inf (i + k) q' = Ok c) →
    decode_query inf (i + length before) q = Raise e →
    decode_loop inf i (before ++ q :: after) stdout
    = (stdout ++ transcript before combined ++ ["Query: " +:+ q], Raise e).
Proof.
  induction before as [|b before IH]; intros [|c cs] i stdout q after e Hlen Hall Hq;
    try done.
  - cbn [app decode_loop length transcript] in *.
    rewrite Nat.add_0_r in Hq. by rewrite Hq.
  - cbn [app]. rewrite (decode_loop_prints inf i b _ stdout c).
    2: { rewrite <- (Nat.add_0_r i). by apply Hall. }
    rewrite (IH cs _ _ q after e); [|by simplify_eq/=| |].
    + cbn [transcript lines]. by rewrite <- !(assoc_L (++)).
    + intros k q' c' Hk Hc. rewrite Nat.add_succ_comm. by apply Hall.
    + cbn [length] in Hq. by rewrite Nat.add_succ_comm.
Qed.

(** X16: when a query fails, the cell has printed the two lines of every
    query before it and the [Query:] line of the failing one; it ends with
    that query's exception and the queries after it are not looked at. *)
Theorem decode_cell_stops (inf : inference) (before after combined : list string)
    (q : string) (e : exn) :
  queries inf = before ++ q :: after →
  length combined = length before →
  (∀ k q' c, before !! k = Some q' → combined !! k = Some c →
             decode_query inf k q' = Ok c) →
  decode_query inf (length before) q = Raise e →
  decode_cell inf
  = (transcript before combined ++ ["Query: " +:+ q], Raise e).
Proof.
  intros Hqs Hlen Hall Hq. unfold decode_cell. rewrite Hqs.
  by rewrite (decode_loop_stops inf before combined 0 [] q after e).
Qed.

Lemma decode_cell_stops_witness :
  queries SampleInference2.second_fails = ["yes please"] ++ "can i help you" :: []
  ∧ length ["Yes, please."] = length ["yes please"]
  ∧ (∀ k q' c, ["yes please"] !! k = Some q' → ["Yes, please."] !! k = Some c →
               decode_query SampleInference2.second_fails k q' = Ok c)
  ∧ decode_query SampleInference2.second_fails (length ["yes please"]) "can i help you"
    = Raise length_error
  ∧ decode_cell SampleInference2.second_fails
    = (transcript ["yes please"] ["Yes, please."]
       ++ ["Query: " +:+ "can i help you"], Raise length_error).
Proof.
  assert (∀ k q' c, ["yes please"] !! k = Some q' → ["Yes, please."] !! k = Some c →
               decode_query SampleInference2.second_fails k q' = Ok c) as Hall.
  { intros [|k] q' c Hq Hc; [|discriminate].
    injection Hq as <-. injection Hc as <-. by vm_compute. }
  assert (decode_query SampleInference2.second_fails (length ["yes please"])
            "can i help you" = Raise length_error) as Hq by (by vm_compute).
  split; [reflexivity|]. split; [reflexivity|]. split; [exact Hall|].
  split; [exact Hq|].
  exact (decode_cell_stops SampleInference2.second_fails ["yes please"] []
           ["Yes, please."] "can i help you" length_error eq_refl eq_refl Hall Hq).
Defined.

Lemma labelled_true (labels : gmap Z string) (id : Z) (l : string) :
  labels !! id = Some l → labelled labels id = true.
Proof. intros Hl. apply bool_decide_eq_true_2. by rewrite Hl. Qed.

Lemma labelled_false (labels : gmap Z string) (id : Z) :
  labels !! id = None → labelled labels id = false.
Proof.
  intros Hl. apply bool_decide_eq_false_2. rewrite Hl. by intros [? ?].
Qed.

Section LabelLoop.
Variables punct_labels capit_labels : gmap Z string.
Variables punct_pred capit_pred : list Z.

Lemma decode_words_labels_from (words : list string) :
  ∀ (j : nat) (output : string),
    j + length words = length punct_pred →
    j + length words = length capit_pred →
    (forallb (labelled punct_labels) (drop j punct_pred)
       && forallb (labelled capit_labels) (drop j capit_pred) = true
     ∧ ∃ out, decode_words punct_labels capit_labels punct_pred capit_pred
                j words output = Ok out)
    ∨ (forallb (labelled punct_labels) (drop j punct_pred)
         && forallb (labelled capit_labels) (drop j capit_pred) = false
       ∧ ∃ id, decode_words punct_labels capit_labels punct_pred capit_pred
                 j words output = Raise (KeyError (pretty id))
               ∧ ((id ∈ drop j punct_pred ∧ punct_labels !! id = None)
                  ∨ (id ∈ drop j capit_pred ∧ capit_labels !! id = None))).
Proof.
  induction words as [|w ws IH]; intros j output Hp Hc.
  - left. cbn [length] in *. rewrite !drop_ge by lia. split; [done|].
    by exists output.
  - cbn [length] in *.
    destruct (lookup_lt_is_Some_2 punct_pred j) as [p Hpj]; [lia|].
    destruct (lookup_lt_is_Some_2 capit_pred j) as [c Hcj]; [lia|].
    rewrite (drop_S _ _ _ Hpj), (drop_S _ _ _ Hcj).
    cbn [decode_words forallb]. unfold index, getitem_int.
    rewrite Hpj. cbn [bind].
    destruct (punct_labels !! p) as [pl|] eqn:Hpl; cbn [bind].
    2: { right. rewrite (labelled_false _ _ Hpl). split; [done|].
         exists p. split; [done|]. left. split; [apply list_elem_of_here|done]. }
    rewrite Hcj. cbn [bind].
    destruct (capit_labels !! c) as [cl|] eqn:Hcl; cbn [bind].
    2: { right. rewrite (labelled_false _ _ Hcl). split; [by rewrite andb_false_r|].
         exists c. split; [done|]. right. split; [apply list_elem_of_here|done]. }
    rewrite (labelled_true _ _ _ Hpl), (labelled_true _ _ _ Hcl). cbn [andb].
    match goal with |- context [decode_words _ _ _ _ (S j) ws ?o] =>
      destruct (IH (S j) o) as [[Hall Hok]|[Hsome (id & Hraise & Hid)]]; [lia|lia| |]
    end.
    + by left.
    + right. split; [done|]. exists id. split; [done|].
      destruct Hid as [[Hin Hn]|[Hin Hn]]; [left|right];
        (split; [by apply list_elem_of_further|done]).
Qed.

End LabelLoop.

(** X17: once the length guard has passed, the per-word loop succeeds
    when every predicted punctuation and capitalization id has a label;
    otherwise it ends in [KeyError] for a predicted id that has none. *)
Theorem decode_words_labels (punct_labels capit_labels : gmap Z string)
    (punct_pred capit_pred : list Z) (words : list string) :
  length punct_pred = length words →
  length capit_pred = length words →
  (forallb (labelled punct_labels) punct_pred
     && forallb (labelled capit_labels) capit_pred = true
   ∧ ∃ out, decode_words punct_labels capit_labels punct_pred capit_pred
              0 words "" = Ok out)
  ∨ (forallb (labelled punct_labels) punct_pred
       && forallb (labelled capit_labels) capit_pred = false
     ∧ ∃ id, decode_words punct_labels capit_labels punct_pred capit_pred
               0 words "" = Raise (KeyError (pretty id))
             ∧ ((id ∈ punct_pred ∧ punct_labels !! id = None)
                ∨ (id ∈ capit_pred ∧ capit_labels !! id = None))).
Proof.
  intros Hp Hc.
  pose proof (decode_words_labels_from punct_labels capit_labels
                punct_pred capit_pred words 0 "") as H.
  rewrite !drop_0 in H. apply H; cbn; lia.
Qed.

Lemma decode_words_labels_witness :
  length [1%Z; 7%Z] = length ["yes"; "please"]
  ∧ length [1%Z; 0%Z] = length ["yes"; "please"]
  ∧ ((forallb (labelled (ids_to_labels SampleInference.punct_ids)) [1%Z; 7%Z]
        && forallb (labelled (ids_to_labels SampleInference.capit_ids)) [1%Z; 0%Z]
        = true
      ∧ ∃ out, decode_words (ids_to_labels SampleInference.punct_ids)
                 (ids_to_labels SampleInference.capit_ids)
                 [1%Z; 7%Z] [1%Z; 0%Z] 0 ["yes"; "please"] "" = Ok out)
     ∨ (forallb (labelled (ids_to_labels SampleInference.punct_ids)) [1%Z; 7%Z]
          && forallb (labelled (ids_to_labels SampleInference.capit_ids)) [1%Z; 0%Z]
          = false
        ∧ ∃ id, decode_words (ids_to_labels SampleInference.punct_ids)
                  (ids_to_labels SampleInference.capit_ids)
                  [1%Z; 7%Z] [1%Z; 0%Z] 0 ["yes"; "please"] ""
                = Raise (KeyError (pretty id))
                ∧ ((id ∈ [1%Z; 7%Z]
                    ∧ ids_to_labels SampleInference.punct_ids !! id = None)
                   ∨ (id ∈ [1%Z; 0%Z]
                      ∧ ids_to_labels SampleInference.capit_ids !! id = None)))).
Proof.
  split; [reflexivity|]. split; [reflexivity|].
  apply (decode_words_labels (ids_to_labels SampleInference.punct_ids)
           (ids_to_labels SampleInference.capit_ids)
           [1%Z; 7%Z] [1%Z; 0%Z] ["yes"; "please"]); reflexivity.
Defined.

End DecodeMore.

(** ** The decoded text, for every query *)

Section UniMore.
Import Uni.
Local Open Scope nat_scope.

(** X18: for a query whose prediction rows are as long as its mask, the
    [raise] statement of the loop is reached exactly when the number of
    positions the mask selects differs from the number of white-space
    separated words of the query; the predicted ids play no part in it. *)
Theorem length_error_iff_mask (isspace : N → bool) (capitalize : ustr → ustr)
    (inf : u_inference) (i : nat) (query : ustr)
    (punct_row capit_row : list Z) (mask : list bool) :
  u_punct_preds inf !! i = Some punct_row →
  u_capit_preds inf !! i = Some capit_row →
  u_subtokens_mask inf !! i = Some mask →
  length punct_row = length mask →
  length capit_row = length mask →
  u_decode_query isspace capitalize inf i query
    = Raised RaiseStatement Punctuation.length_error
  ↔ Transcript.count_true mask ≠ length (u_split isspace query).
Proof.
  intros Hp Hc Hm Hlp Hlc.
  rewrite (u_decode_query_raise isspace capitalize inf i query _ _ _
             (u_masked_select _ _ _ _ _ Hp Hm Hlp)
             (u_masked_select _ _ _ _ _ Hc Hm Hlc)).
  rewrite u_split_strip, !u_select_length by done.
  split; [by intros [_ [?|?]]|]. intros Hne. split; [done|by left].
Qed.

Lemma length_error_iff_mask_witness :
  u_punct_preds UniSample.mismatch !! 0 = Some [0%Z; 1%Z; 2%Z; 0%Z]
  ∧ u_capit_preds UniSample.mismatch !! 0 = Some [0%Z; 1%Z; 0%Z; 0%Z]
  ∧ u_subtokens_mask UniSample.mismatch !! 0 = Some [true; true; true; false]
  ∧ length [0%Z; 1%Z; 2%Z; 0%Z] = length [true; true; true; false]
  ∧ length [0%Z; 1%Z; 0%Z; 0%Z] = length [true; true; true; false]
  ∧ (u_decode_query unicode_isspace ascii_capitalize UniSample.mismatch 0
       (lit "yes please")
       = Raised RaiseStatement Punctuation.length_error
     ↔ Transcript.count_true [true; true; true; false]
       ≠ length (u_split unicode_isspace (lit "yes please"))).
Proof.
  split; [reflexivity|]. split; [reflexivity|]. split; [reflexivity|].
  split; [reflexivity|]. split; [reflexivity|].
  apply (length_error_iff_mask unicode_isspace ascii_capitalize
           UniSample.mismatch 0 (lit "yes please")
           [0%Z; 1%Z; 2%Z; 0%Z] [0%Z; 1%Z; 0%Z; 0%Z] [true; true; true; false]);
    reflexivity.
Defined.

Lemma u_decode_query_ok_strip (isspace : N → bool) (capitalize : ustr → ustr)
    (inf : u_inference) (i : nat) (query combined : ustr) :
  u_decode_query isspace capitalize inf i query = Done combined →
  ∃ output, combined = u_strip isspace output.
Proof.
  unfold u_decode_query, obind. intros Hq.
  repeat case_match; simplify_eq; eauto.
Qed.

(** X19: the text printed after [Combined: ] neither starts nor ends
    with a character that is white space, and [strip] leaves it as it
    is. *)
Theorem combined_is_stripped (isspace : N → bool) (capitalize : ustr → ustr)
    (inf : u_inference) (i : nat) (query combined : ustr) :
  u_decode_query isspace capitalize inf i query = Done combined →
  (∀ c, head combined = Some c → isspace c = false)
  ∧ (∀ c, last combined = Some c → isspace c = false)
  ∧ u_strip isspace combined = combined.
Proof.
  intros (output & ->)%u_decode_query_ok_strip.
  assert (∀ c, head (u_strip isspace output) = Some c → isspace c = false) as Hh.
  { intros c Hc. apply (u_strip_ends isspace output). by left. }
  assert (∀ c, last (u_strip isspace output) = Some c → isspace c = false) as Hl.
  { intros c Hc. apply (u_strip_ends isspace output). by right. }
  split_and!; [done..|]. by apply u_strip_fixed.
Qed.

Lemma combined_is_stripped_witness :
  u_decode_query unicode_isspace ascii_capitalize UniSample.helpful 0
    (lit "can i help you") = Done (lit "Can I help you?")
  ∧ (∀ c, head (lit "Can I help you?") = Some c → unicode_isspace c = false)
  ∧ (∀ c, last (lit "Can I help you?") = Some c → unicode_isspace c = false)
  ∧ u_strip unicode_isspace (lit "Can I help you?") = lit "Can I help you?".
Proof.
  split; [by vm_compute|].
  apply (combined_is_stripped unicode_isspace ascii_capitalize
           UniSample.helpful 0 (lit "can i help you")).
  by vm_compute.
Defined.

(** X20: when every word of a query is predicted the label [O] for both
    punctuation and capitalization, the combined text is the query with
    its white space normalised: its white-space separated words joined by
    single spaces. *)
Theorem decode_all_other (isspace : N → bool) (capitalize : ustr → ustr)
    (inf : u_inference) (i : nat) (query : ustr)
    (punct_pred capit_pred : list Z) :
  isspace 32%N = true →
  u_masked (u_punct_preds inf) (u_subtokens_mask inf) i = Done punct_pred →
  u_masked (u_capit_preds inf) (u_subtokens_mask inf) i = Done capit_pred →
  length punct_pred = length (u_split isspace query) →
  length capit_pred = length (u_split isspace query) →
  Forall (λ id, u_ids_to_labels (u_punct_label_ids inf) !! id = Some other)
    punct_pred →
  Forall (λ id, u_ids_to_labels (u_capit_label_ids inf) !! id = Some other)
    capit_pred →
  u_decode_query isspace capitalize inf i query
  = Done (u_join space (u_split isspace query)).
Proof.
  intros Hsp Hp Hc Hlp Hlc Hpo Hco.
  rewrite (u_decode_query_masked _ _ _ _ _ _ _ Hp Hc). cbn zeta.
  rewrite u_split_strip, Hlp, Hlc, Nat.eqb_refl. cbn [negb orb].
  apply Forall2_replicate_ulabel in Hpo, Hco.
  rewrite Hlp in Hpo. rewrite Hlc in Hco.
  rewrite (u_decode_words_ok _ _ _ _ _ _ 0 []
             (replicate (length (u_split isspace query)) other)
             (replicate (length (u_split isspace query)) other));
    [|by rewrite drop_0|by rewrite drop_0
     |by rewrite length_replicate|by rewrite length_replicate].
  cbn [obind app]. f_equal.
  rewrite u_strip_trail, u_render_words_other by done.
  apply u_strip_joined_words, u_split_words.
Qed.

Lemma decode_all_other_witness :
  unicode_isspace 32%N = true
  ∧ u_masked (u_punct_preds UniSample.all_other)
      (u_subtokens_mask UniSample.all_other) 1 = Done [0%Z; 0%Z]
  ∧ u_masked (u_capit_preds UniSample.all_other)
      (u_subtokens_mask UniSample.all_other) 1 = Done [0%Z; 0%Z]
  ∧ length [0%Z; 0%Z] = length (u_split unicode_isspace UniSample.no_break)
  ∧ length [0%Z; 0%Z] = length (u_split unicode_isspace UniSample.no_break)
  ∧ Forall (λ id, u_ids_to_labels (u_punct_label_ids UniSample.all_other) !! id
                  = Some other) [0%Z; 0%Z]
  ∧ Forall (λ id, u_ids_to_labels (u_capit_label_ids UniSample.all_other) !! id
                  = Some other) [0%Z; 0%Z]
  ∧ u_decode_query unicode_isspace ascii_capitalize UniSample.all_other 1
      UniSample.no_break
    = Done (u_join space (u_split unicode_isspace UniSample.no_break))
  ∧ u_join space (u_split unicode_isspace UniSample.no_break) = lit "more you".
Proof.
  assert (Forall (λ id, u_ids_to_labels (u_punct_label_ids UniSample.all_other) !! id
                        = Some other) [0%Z; 0%Z]) as Hpo.
  { repeat constructor; by vm_compute. }
  assert (Forall (λ id, u_ids_to_labels (u_capit_label_ids UniSample.all_other) !! id
                        = Some other) [0%Z; 0%Z]) as Hco.
  { repeat constructor; by vm_compute. }
  split; [reflexivity|].
  split; [by vm_compute|]. split; [by vm_compute|].
  split; [by vm_compute|]. split; [by vm_compute|].
  split; [exact Hpo|]. split; [exact Hco|].
  split; [|by vm_compute].
  apply (decode_all_other unicode_isspace ascii_capitalize UniSample.all_other 1
           UniSample.no_break [0%Z; 0%Z] [0%Z; 0%Z]);
    [reflexivity | by vm_compute | by vm_compute | by vm_compute | by vm_compute
    | exact Hpo | exact Hco].
Defined.

End UniMore.

(** ** On 7-bit text the two readings of the loop agree *)

Section SevenBitText.
Import Punctuation Uni SevenBit.
Local Open Scope nat_scope.

Lemma lit_cons (c : ascii) (r : string) : lit (String c r) = code c :: lit r.
Proof. done. Qed.

Lemma lit_app (a b : string) : lit (a +:+ b) = lit a ++ lit b.
Proof.
  induction a as [|c r IH]; [done|].
  change (String c r +:+ b) with (String c (r +:+ b)).
  by rewrite !lit_cons, IH.
Qed.

Lemma lit_inj (a b : string) : lit a = lit b → a = b.
Proof.
  revert b. induction a as [|c r IH]; intros [|c' r']; try done.
  rewrite !lit_cons. intros [= Hc Hr]. f_equal; [|by apply IH].
  apply (f_equal ascii_of_N) in Hc. unfold code in Hc.
  by rewrite !ascii_N_embedding in Hc.
Qed.

Lemma lit_other (l : string) : bool_decide (lit l = other) = String.eqb l "O".
Proof.
  destruct (String.eqb_spec l "O") as [->|Hne].
  - by apply bool_decide_eq_true_2.
  - apply bool_decide_eq_false_2. intros Heq. by apply Hne, lit_inj.
Qed.

Lemma seven_bit_cons (c : ascii) (r : string) :
  seven_bit (String c r) = (code c <? 128)%N && seven_bit r.
Proof. done. Qed.

Lemma seven_bit_app (a b : string) :
  seven_bit (a +:+ b) = seven_bit a && seven_bit b.
Proof. apply str_forallb_app. Qed.

Lemma seven_bit_upper_lower (c : ascii) :
  (code c <? 128)%N = true →
  (code (upper c) <? 128)%N = true ∧ (code (lower c) <? 128)%N = true.
Proof. destruct c as [[] [] [] [] [] [] [] []]; vm_compute; auto. Qed.

Lemma seven_bit_str_lower (s : string) :
  seven_bit s = true → seven_bit (str_lower s) = true.
Proof.
  induction s as [|c r IH]; [done|]. cbn [str_lower]. rewrite !seven_bit_cons.
  intros [Hc Hr]%andb_prop. apply andb_true_intro. split; [|by apply IH].
  by apply seven_bit_upper_lower.
Qed.

Lemma seven_bit_capitalize (w : string) :
  seven_bit w = true → seven_bit (Py.capitalize w) = true.
Proof.
  destruct w as [|c r]; [done|]. cbn [Py.capitalize]. rewrite !seven_bit_cons.
  intros [Hc Hr]%andb_prop. apply andb_true_intro. split.
  - by apply seven_bit_upper_lower.
  - by apply seven_bit_str_lower.
Qed.

Lemma seven_bit_lstrip (s : string) :
  seven_bit s = true → seven_bit (lstrip s) = true.
Proof.
  induction s as [|c r IH]; [done|]. cbn [lstrip].
  destruct (Py.isspace c); [|done].
  rewrite seven_bit_cons. intros [_ Hr]%andb_prop. by apply IH.
Qed.

Lemma seven_bit_rstrip (s : string) :
  seven_bit s = true → seven_bit (rstrip s) = true.
Proof.
  induction s as [|c r IH]; [done|]. rewrite seven_bit_cons.
  intros [Hc Hr]%andb_prop. cbn [rstrip]. specialize (IH Hr).
  destruct (rstrip r) as [|c' r'].
  - destruct (Py.isspace c); [done|]. by rewrite seven_bit_cons, Hc.
  - by rewrite seven_bit_cons, Hc.
Qed.

Lemma seven_bit_strip (s : string) :
  seven_bit s = true → seven_bit (strip s) = true.
Proof. intros Hs. by apply seven_bit_rstrip, seven_bit_lstrip. Qed.

Lemma seven_bit_split_go (s : string) :
  ∀ word, seven_bit s = true → seven_bit word = true →
          Forall (λ w, seven_bit w = true) (split_go word s).
Proof.
  induction s as [|c r IH]; intros word Hs Hw; cbn [split_go].
  - destruct (String.eqb word ""); by repeat constructor.
  - rewrite seven_bit_cons in Hs. apply andb_prop in Hs as [Hc Hr].
    destruct (Py.isspace c).
    + destruct (String.eqb word ""); [by apply IH|].
      constructor; [done|]. by apply IH.
    + apply IH; [done|]. by rewrite seven_bit_app, Hw, seven_bit_cons, Hc.
Qed.

Lemma ids_to_labels_lit (label_ids : list (string * Z)) :
  u_ids_to_labels (lit_labels label_ids) = lit <$> ids_to_labels label_ids.
Proof.
  unfold u_ids_to_labels, ids_to_labels, lit_labels.
  rewrite <- (fmap_empty lit). generalize (∅ : gmap Z string).
  induction label_ids as [|[lab id] l IH]; intros m; [done|].
  cbn [fmap list_fmap foldl fst snd]. by rewrite <- IH, fmap_insert.
Qed.

Lemma labels_seven_bit (label_ids : list (string * Z)) (id : Z) (lab : string) :
  forallb (λ kv, seven_bit kv.1) label_ids = true →
  ids_to_labels label_ids !! id = Some lab →
  seven_bit lab = true.
Proof.
  intros Hall Hl. apply invert_sound in Hl as [Hl|Hl]; [done|].
  rewrite forallb_forall in Hall.
  by apply (Hall (lab, id)), list_elem_of_In.
Qed.

Variable isspace : N → bool.
Variable capitalize : ustr → ustr.
Hypothesis isspace_ascii :
  ∀ c : ascii, (code c <? 128)%N = true → isspace (code c) = Py.isspace c.
Hypothesis capitalize_ascii :
  ∀ w : string, seven_bit w = true → capitalize (lit w) = lit (Py.capitalize w).

Lemma lstrip_lit (s : string) :
  seven_bit s = true → u_lstrip isspace (lit s) = lit (lstrip s).
Proof.
  induction s as [|c r IH]; [done|]. rewrite seven_bit_cons.
  intros [Hc Hr]%andb_prop. rewrite lit_cons. cbn [u_lstrip lstrip].
  rewrite (isspace_ascii c Hc). destruct (Py.isspace c); [by apply IH|done].
Qed.

Lemma rstrip_lit (s : string) :
  seven_bit s = true → u_rstrip isspace (lit s) = lit (rstrip s).
Proof.
  induction s as [|c r IH]; [done|]. rewrite seven_bit_cons.
  intros [Hc Hr]%andb_prop. rewrite lit_cons. cbn [u_rstrip rstrip].
  rewrite (IH Hr), (isspace_ascii c Hc).
  destruct (rstrip r) as [|c' r']; [by destruct (Py.isspace c)|done].
Qed.

Lemma strip_lit (s : string) :
  seven_bit s = true → u_strip isspace (lit s) = lit (strip s).
Proof.
  intros Hs. unfold u_strip, strip.
  rewrite (lstrip_lit s Hs). by apply rstrip_lit, seven_bit_lstrip.
Qed.

Lemma split_go_lit (s : string) :
  ∀ word, seven_bit s = true →
          u_split_go isspace (lit word) (lit s) = lit <$> split_go word s.
Proof.
  induction s as [|c r IH]; intros word Hs.
  - by destruct word.
  - rewrite seven_bit_cons in Hs. apply andb_prop in Hs as [Hc Hr].
    rewrite lit_cons, u_split_go_cons. cbn [split_go].
    rewrite (isspace_ascii c Hc). destruct (Py.isspace c).
    + destruct word as [|a w].
      * apply (IH "" Hr).
      * rewrite lit_cons. cbn [String.eqb fmap list_fmap].
        f_equal. apply (IH "" Hr).
    + rewrite <- (IH _ Hr). by rewrite lit_app.
Qed.

Lemma split_lit (s : string) :
  seven_bit s = true → u_split isspace (lit s) = lit <$> split s.
Proof. apply (split_go_lit s ""). Qed.

Section Loop.
Variables punct_labels capit_labels : gmap Z string.
Variables punct_pred capit_pred : list Z.

Lemma decode_words_lit (words : list string) :
  ∀ (j : nat) (output : string),
    Forall (λ w, seven_bit w = true) words →
    forget (u_decode_words capitalize (lit <$> punct_labels) (lit <$> capit_labels)
              punct_pred capit_pred j (lit <$> words) (lit output))
    = lit_result (decode_words punct_labels capit_labels punct_pred capit_pred
                    j words output).
Proof.
  induction words as [|w ws IH]; intros j output Hws; [done|].
  apply Forall_cons in Hws as [Hw Hws].
  cbn [fmap list_fmap u_decode_words decode_words].
  unfold u_index, index, u_getitem_int, getitem_int.
  destruct (punct_pred !! j) as [p|]; cbn [obind bind]; [|done].
  rewrite lookup_fmap.
  destruct (punct_labels !! p) as [pl|]; cbn [fmap option_fmap option_map obind bind];
    [|done].
  destruct (capit_pred !! j) as [c|]; cbn [obind bind]; [|done].
  rewrite lookup_fmap.
  destruct (capit_labels !! c) as [cl|]; cbn [fmap option_fmap option_map obind bind];
    [|done].
  rewrite <- (IH (S j) _ Hws). do 2 f_equal.
  rewrite !lit_other, (capitalize_ascii w Hw).
  destruct (negb (String.eqb cl "O")), (negb (String.eqb pl "O"));
    by rewrite !lit_app.
Qed.

Lemma decode_words_seven_bit (words : list string) :
  ∀ (j : nat) (output out : string),
    Forall (λ w, seven_bit w = true) words →
    (∀ id l, punct_labels !! id = Some l → seven_bit l = true) →
    seven_bit output = true →
    decode_words punct_labels capit_labels punct_pred capit_pred j words output
      = Ok out →
    seven_bit out = true.
Proof.
  induction words as [|w ws IH]; intros j output out Hws Hpl Hout.
  - by intros [= <-].
  - apply Forall_cons in Hws as [Hw Hws]. cbn [decode_words].
    unfold index, getitem_int.
    destruct (punct_pred !! j) as [p|]; cbn [bind]; [|done].
    destruct (punct_labels !! p) as [pl|] eqn:Hp; cbn [bind]; [|done].
    destruct (capit_pred !! j) as [c|]; cbn [bind]; [|done].
    destruct (capit_labels !! c) as [cl|]; cbn [bind]; [|done].
    apply IH; [done..|].
    pose proof (seven_bit_capitalize w Hw) as Hcap.
    pose proof (Hpl p pl Hp) as Hlab.
    destruct (negb (String.eqb cl "O")), (negb (String.eqb pl "O"));
      rewrite !seven_bit_app, ?Hout, ?Hw, ?Hcap, ?Hlab; done.
Qed.

End Loop.

(** On a query and labels of 7-bit characters, the loop body over code
    points does what the loop body over 7-bit strings does, for every
    table of white space and of capitalization that is the ASCII one on
    7-bit characters. *)
Lemma decode_query_seven_bit (inf : inference) (i : nat) (query : string) :
  seven_bit query = true →
  seven_bit_labels inf = true →
  forget (u_decode_query isspace capitalize (lit_inference inf) i (lit query))
  = lit_result (decode_query inf i query).
Proof.
  intros Hq [Hpl Hcl]%andb_prop.
  unfold u_decode_query, decode_query, u_index, index, u_bool_index, bool_index.
  cbn [lit_inference u_punct_preds u_capit_preds u_subtokens_mask
       u_punct_label_ids u_capit_label_ids].
  destruct (punct_preds inf !! i) as [rp|]; cbn [obind bind]; [|done].
  destruct (subtokens_mask inf !! i) as [m|]; cbn [obind bind]; [|done].
  destruct (length rp =? length m); cbn [obind bind]; [|done].
  destruct (capit_preds inf !! i) as [rc|]; cbn [obind bind]; [|done].
  destruct (length rc =? length m); cbn [obind bind]; [|done].
  rewrite (strip_lit query Hq), (split_lit _ (seven_bit_strip query Hq)).
  rewrite length_fmap.
  destruct (negb (length (select rp m) =? length (split (strip query)))
            || negb (length (select rc m) =? length (split (strip query))));
    [done|].
  rewrite !ids_to_labels_lit.
  pose proof (seven_bit_split_go (strip query) "" (seven_bit_strip query Hq) eq_refl)
    as Hws.
  pose proof (decode_words_lit (ids_to_labels (punct_label_ids inf))
                (ids_to_labels (capit_label_ids inf))
                (select rp m) (select rc m) (split (strip query)) 0 "" Hws) as Hl.
  change (lit "") with ([] : ustr) in Hl.
  destruct (decode_words _ _ _ _ 0 (split (strip query)) "") as [out|e] eqn:Hd.
  - destruct (u_decode_words _ _ _ _ _ 0 _ []) as [uout|o e']; [|done].
    injection Hl as ->. cbn [obind bind forget lit_result]. f_equal.
    apply strip_lit.
    apply (decode_words_seven_bit _ _ _ _ _ 0 "" out Hws
             (λ id l, labels_seven_bit (punct_label_ids inf) id l Hpl) eq_refl Hd).
  - destruct (u_decode_words _ _ _ _ _ 0 _ []) as [uout|o e']; [done|].
    injection Hl as ->. done.
Qed.

End SevenBitText.

(** The sample tables are the ASCII ones on 7-bit characters. *)
Lemma unicode_isspace_seven_bit (c : ascii) :
  (Py.code c <? 128)%N = true → Uni.unicode_isspace (Py.code c) = Py.isspace c.
Proof. destruct c as [[] [] [] [] [] [] [] []]; vm_compute; done. Qed.

Lemma ascii_capitalize_lit (w : string) :
  Uni.ascii_capitalize (Uni.lit w) = Uni.lit (Py.capitalize w).
Proof.
  assert (∀ c, Uni.ascii_upper (Py.code c) = Py.code (Py.upper c)) as Hup.
  { intros c. destruct c as [[] [] [] [] [] [] [] []]; by vm_compute. }
  assert (∀ c, Uni.ascii_lower (Py.code c) = Py.code (Py.lower c)) as Hlow.
  { intros c. destruct c as [[] [] [] [] [] [] [] []]; by vm_compute. }
  destruct w as [|c r]; [done|].
  cbn [Py.capitalize]. rewrite !lit_cons. cbn [Uni.ascii_capitalize].
  rewrite Hup. f_equal.
  induction r as [|a r IH]; [done|].
  cbn [Py.str_lower]. rewrite !lit_cons. cbn [fmap list_fmap].
  by rewrite Hlow, IH.
Qed.

(** With the sample tables, the run over code points of a 7-bit query is
    the run over 7-bit strings. *)
Lemma decode_query_sample_tables (inf : Punctuation.inference) (i : nat)
    (query : string) :
  SevenBit.seven_bit query = true →
  SevenBit.seven_bit_labels inf = true →
  Uni.forget (Uni.u_decode_query Uni.unicode_isspace Uni.ascii_capitalize
                (SevenBit.lit_inference inf) i (Uni.lit query))
  = SevenBit.lit_result (Punctuation.decode_query inf i query).
Proof.
  apply decode_query_seven_bit.
  - apply unicode_isspace_seven_bit.
  - intros w _. apply ascii_capitalize_lit.
Qed.
